(** * The NVS ambient-light sample processor

    drivers/iio/common/nvs/nvs_light.c.

    A shallow embedding of [nvs_light_interpolate], [nvs_light_nld],
    [nvs_light_read], [nvs_light_enable] and [nvs_light_of_dt].  C integers
    are [Z] values with the conversions of the C code written out; the
    structure [nvs_light] is passed from state to state; the report handler
    is an event returned by the call; a division by zero or a read outside
    the resolution table is a [Fault]. *)

From Stdlib Require Import ZArith List Bool Lia.
From Stdlib Require String.
Import ListNotations.
Local Open Scope Z_scope.

(** ** Machine integers *)

(** Conversion to [unsigned int] / [u32]. *)
Definition u32 (z : Z) : Z := z mod 2 ^ 32.

(** Conversion to [u64]. *)
Definition u64 (z : Z) : Z := z mod 2 ^ 64.

(** Conversion to [int]; the kernel is built with wrapping signed
    arithmetic. *)
Definition s32 (z : Z) : Z := (z + 2 ^ 31) mod 2 ^ 32 - 2 ^ 31.

(** Conversion to [s64]. *)
Definition s64 (z : Z) : Z := (z + 2 ^ 63) mod 2 ^ 64 - 2 ^ 63.

(** ** Faults and the error monad *)

Inductive fault : Set :=
| DivByZero     (* an integer division whose divisor is zero *)
| TableIndex    (* nld_tbl[i] read with no entry i, or with nld_tbl NULL *).

Inductive result (A : Type) : Type :=
| Ok (a : A)
| Fault (f : fault).

Arguments Ok {A} a.
Arguments Fault {A} f.

Definition bind {A B : Type} (c : result A) (k : A -> result B) : result B :=
  match c with
  | Ok a => k a
  | Fault f => Fault f
  end.

Declare Scope result_scope.
Delimit Scope result_scope with result.
Notation "x <- c ;; k" := (bind c (fun x => k))
  (at level 61, c at next level, right associativity) : result_scope.
Notation "' p <- c ;; k" := (bind c (fun p => k))
  (at level 61, p pattern, c at next level, right associativity)
  : result_scope.
Local Open Scope result_scope.

(** Modelled from the spec: [do_div] is the kernel's division macro
    (asm/div64.h), which is not among the sources.  The spec asks for a
    truncating division on 64-bit intermediates; the macro reads its first
    argument as an unsigned 64-bit value, its second as an unsigned 32-bit
    value, and leaves the quotient in the first.  The quotient is returned
    here and the caller converts it to the type of the variable it is
    stored in.  A zero divisor is a fault. *)
Definition do_div (n base : Z) : result Z :=
  if u32 base =? 0 then Fault DivByZero else Ok (u64 n / u32 base).

(** The C operator [/] on two [int]s: truncation towards zero. *)
Definition int_div (a b : Z) : result Z :=
  if b =? 0 then Fault DivByZero else Ok (s32 (Z.quot a b)).

(** ** Data model *)

(** Modelled from the spec: the declarations of [struct nvs_float],
    [struct sensor_cfg], [struct nvs_light_dynamic] and [struct nvs_light]
    (linux/nvs.h, linux/nvs_light.h) are not among the sources.  The
    records hold the fields nvs_light.c reads and writes, plus [thresh_hi],
    which the spec lists next to [thresh_lo].  A fixed-point value is an
    integer part and a fractional part, both [int]s.  The integer fields of
    [sensor_cfg] are converted to [unsigned int] where nvs_light.c reads
    them next to an unsigned operand; [delay_us_min] is an [int], which
    line 140 assigns an unsigned product and line 325 divides as an [int];
    [uncal_lo], [uncal_hi], [cal_lo] and [cal_hi] are the [int] arguments
    of [nvs_light_interpolate]. *)
Record nvs_float : Set := { ival : Z; fval : Z }.

Record sensor_cfg : Set := {
  max_range : nvs_float;
  resolution : nvs_float;
  milliamp : nvs_float;
  delay_us_min : Z;
  scale : nvs_float;
  uncal_lo : Z;
  uncal_hi : Z;
  cal_lo : Z;
  cal_hi : Z;
  thresh_lo : Z;
  thresh_hi : Z;
  report_n : Z
}.

Record nvs_light_dynamic : Set := {
  nld_resolution : nvs_float;
  nld_max_range : nvs_float;
  nld_milliamp : nvs_float;
  delay_min_ms : Z
}.

(** [nld_tbl] is [None] for a NULL pointer.  [cfg] is the configuration the
    structure points to; nvs_light.c writes it only through [nl->cfg].  The
    handler and its context pointer are not fields here: a call of the
    handler is reported in the result of [nvs_light_read]. *)
Record nvs_light : Set := {
  timestamp : Z;            (* s64 *)
  timestamp_report : Z;     (* s64 *)
  lux : Z;                  (* u32 *)
  hw : Z;                   (* u32 *)
  hw_mask : Z;              (* u32 *)
  hw_thresh_lo : Z;         (* u32 *)
  hw_thresh_hi : Z;         (* u32 *)
  hw_limit_lo : bool;
  hw_limit_hi : bool;
  thresh_valid_lo : bool;
  thresh_valid_hi : bool;
  thresholds_valid : bool;
  nld_i_change : bool;
  calibration_en : bool;
  poll_delay_ms : Z;        (* unsigned int *)
  delay_us : Z;             (* unsigned int *)
  report : Z;               (* unsigned int *)
  nld_i : Z;                (* unsigned int *)
  nld_i_lo : Z;             (* unsigned int *)
  nld_i_hi : Z;             (* unsigned int *)
  nld_tbl : option (list nvs_light_dynamic);
  cfg : sensor_cfg
}.

(** Field assignments [nl->f = v]. *)

Definition set_timestamp (v : Z) (nl : nvs_light) : nvs_light :=
  {| timestamp := v; timestamp_report := timestamp_report nl;
     lux := lux nl; hw := hw nl; hw_mask := hw_mask nl;
     hw_thresh_lo := hw_thresh_lo nl; hw_thresh_hi := hw_thresh_hi nl;
     hw_limit_lo := hw_limit_lo nl; hw_limit_hi := hw_limit_hi nl;
     thresh_valid_lo := thresh_valid_lo nl;
     thresh_valid_hi := thresh_valid_hi nl;
     thresholds_valid := thresholds_valid nl;
     nld_i_change := nld_i_change nl; calibration_en := calibration_en nl;
     poll_delay_ms := poll_delay_ms nl; delay_us := delay_us nl;
     report := report nl; nld_i := nld_i nl; nld_i_lo := nld_i_lo nl;
     nld_i_hi := nld_i_hi nl; nld_tbl := nld_tbl nl; cfg := cfg nl |}.

Definition set_hw (v : Z) (nl : nvs_light) : nvs_light :=
  {| timestamp := timestamp nl; timestamp_report := timestamp_report nl;
     lux := lux nl; hw := v; hw_mask := hw_mask nl;
     hw_thresh_lo := hw_thresh_lo nl; hw_thresh_hi := hw_thresh_hi nl;
     hw_limit_lo := hw_limit_lo nl; hw_limit_hi := hw_limit_hi nl;
     thresh_valid_lo := thresh_valid_lo nl;
     thresh_valid_hi := thresh_valid_hi nl;
     thresholds_valid := thresholds_valid nl;
     nld_i_change := nld_i_change nl; calibration_en := calibration_en nl;
     poll_delay_ms := poll_delay_ms nl; delay_us := delay_us nl;
     report := report nl; nld_i := nld_i nl; nld_i_lo := nld_i_lo nl;
     nld_i_hi := nld_i_hi nl; nld_tbl := nld_tbl nl; cfg := cfg nl |}.

Definition set_timestamp_report (v : Z) (nl : nvs_light) : nvs_light :=
  {| timestamp := timestamp nl; timestamp_report := v; lux := lux nl;
     hw := hw nl; hw_mask := hw_mask nl; hw_thresh_lo := hw_thresh_lo nl;
     hw_thresh_hi := hw_thresh_hi nl; hw_limit_lo := hw_limit_lo nl;
     hw_limit_hi := hw_limit_hi nl; thresh_valid_lo := thresh_valid_lo nl;
     thresh_valid_hi := thresh_valid_hi nl;
     thresholds_valid := thresholds_valid nl;
     nld_i_change := nld_i_change nl; calibration_en := calibration_en nl;
     poll_delay_ms := poll_delay_ms nl; delay_us := delay_us nl;
     report := report nl; nld_i := nld_i nl; nld_i_lo := nld_i_lo nl;
     nld_i_hi := nld_i_hi nl; nld_tbl := nld_tbl nl; cfg := cfg nl |}.

Definition set_lux (v : Z) (nl : nvs_light) : nvs_light :=
  {| timestamp := timestamp nl; timestamp_report := timestamp_report nl;
     lux := v; hw := hw nl; hw_mask := hw_mask nl;
     hw_thresh_lo := hw_thresh_lo nl; hw_thresh_hi := hw_thresh_hi nl;
     hw_limit_lo := hw_limit_lo nl; hw_limit_hi := hw_limit_hi nl;
     thresh_valid_lo := thresh_valid_lo nl;
     thresh_valid_hi := thresh_valid_hi nl;
     thresholds_valid := thresholds_valid nl;
     nld_i_change := nld_i_change nl; calibration_en := calibration_en nl;
     poll_delay_ms := poll_delay_ms nl; delay_us := delay_us nl;
     report := report nl; nld_i := nld_i nl; nld_i_lo := nld_i_lo nl;
     nld_i_hi := nld_i_hi nl; nld_tbl := nld_tbl nl; cfg := cfg nl |}.

Definition set_hw_thresh_lo (v : Z) (nl : nvs_light) : nvs_light :=
  {| timestamp := timestamp nl; timestamp_report := timestamp_report nl;
     lux := lux nl; hw := hw nl; hw_mask := hw_mask nl; hw_thresh_lo := v;
     hw_thresh_hi := hw_thresh_hi nl; hw_limit_lo := hw_limit_lo nl;
     hw_limit_hi := hw_limit_hi nl; thresh_valid_lo := thresh_valid_lo nl;
     thresh_valid_hi := thresh_valid_hi nl;
     thresholds_valid := thresholds_valid nl;
     nld_i_change := nld_i_change nl; calibration_en := calibration_en nl;
     poll_delay_ms := poll_delay_ms nl; delay_us := delay_us nl;
     report := report nl; nld_i := nld_i nl; nld_i_lo := nld_i_lo nl;
     nld_i_hi := nld_i_hi nl; nld_tbl := nld_tbl nl; cfg := cfg nl |}.

Definition set_hw_thresh_hi (v : Z) (nl : nvs_light) : nvs_light :=
  {| timestamp := timestamp nl; timestamp_report := timestamp_report nl;
     lux := lux nl; hw := hw nl; hw_mask := hw_mask nl;
     hw_thresh_lo := hw_thresh_lo nl; hw_thresh_hi := v;
     hw_limit_lo := hw_limit_lo nl; hw_limit_hi := hw_limit_hi nl;
     thresh_valid_lo := thresh_valid_lo nl;
     thresh_valid_hi := thresh_valid_hi nl;
     thresholds_valid := thresholds_valid nl;
     nld_i_change := nld_i_change nl; calibration_en := calibration_en nl;
     poll_delay_ms := poll_delay_ms nl; delay_us := delay_us nl;
     report := report nl; nld_i := nld_i nl; nld_i_lo := nld_i_lo nl;
     nld_i_hi := nld_i_hi nl; nld_tbl := nld_tbl nl; cfg := cfg nl |}.

Definition set_hw_limit_lo (v : bool) (nl : nvs_light) : nvs_light :=
  {| timestamp := timestamp nl; timestamp_report := timestamp_report nl;
     lux := lux nl; hw := hw nl; hw_mask := hw_mask nl;
     hw_thresh_lo := hw_thresh_lo nl; hw_thresh_hi := hw_thresh_hi nl;
     hw_limit_lo := v; hw_limit_hi := hw_limit_hi nl;
     thresh_valid_lo := thresh_valid_lo nl;
     thresh_valid_hi := thresh_valid_hi nl;
     thresholds_valid := thresholds_valid nl;
     nld_i_change := nld_i_change nl; calibration_en := calibration_en nl;
     poll_delay_ms := poll_delay_ms nl; delay_us := delay_us nl;
     report := report nl; nld_i := nld_i nl; nld_i_lo := nld_i_lo nl;
     nld_i_hi := nld_i_hi nl; nld_tbl := nld_tbl nl; cfg := cfg nl |}.

Definition set_hw_limit_hi (v : bool) (nl : nvs_light) : nvs_light :=
  {| timestamp := timestamp nl; timestamp_report := timestamp_report nl;
     lux := lux nl; hw := hw nl; hw_mask := hw_mask nl;
     hw_thresh_lo := hw_thresh_lo nl; hw_thresh_hi := hw_thresh_hi nl;
     hw_limit_lo := hw_limit_lo nl; hw_limit_hi := v;
     thresh_valid_lo := thresh_valid_lo nl;
     thresh_valid_hi := thresh_valid_hi nl;
     thresholds_valid := thresholds_valid nl;
     nld_i_change := nld_i_change nl; calibration_en := calibration_en nl;
     poll_delay_ms := poll_delay_ms nl; delay_us := delay_us nl;
     report := report nl; nld_i := nld_i nl; nld_i_lo := nld_i_lo nl;
     nld_i_hi := nld_i_hi nl; nld_tbl := nld_tbl nl; cfg := cfg nl |}.

Definition set_thresh_valid_lo (v : bool) (nl : nvs_light) : nvs_light :=
  {| timestamp := timestamp nl; timestamp_report := timestamp_report nl;
     lux := lux nl; hw := hw nl; hw_mask := hw_mask nl;
     hw_thresh_lo := hw_thresh_lo nl; hw_thresh_hi := hw_thresh_hi nl;
     hw_limit_lo := hw_limit_lo nl; hw_limit_hi := hw_limit_hi nl;
     thresh_valid_lo := v; thresh_valid_hi := thresh_valid_hi nl;
     thresholds_valid := thresholds_valid nl;
     nld_i_change := nld_i_change nl; calibration_en := calibration_en nl;
     poll_delay_ms := poll_delay_ms nl; delay_us := delay_us nl;
     report := report nl; nld_i := nld_i nl; nld_i_lo := nld_i_lo nl;
     nld_i_hi := nld_i_hi nl; nld_tbl := nld_tbl nl; cfg := cfg nl |}.

Definition set_thresh_valid_hi (v : bool) (nl : nvs_light) : nvs_light :=
  {| timestamp := timestamp nl; timestamp_report := timestamp_report nl;
     lux := lux nl; hw := hw nl; hw_mask := hw_mask nl;
     hw_thresh_lo := hw_thresh_lo nl; hw_thresh_hi := hw_thresh_hi nl;
     hw_limit_lo := hw_limit_lo nl; hw_limit_hi := hw_limit_hi nl;
     thresh_valid_lo := thresh_valid_lo nl; thresh_valid_hi := v;
     thresholds_valid := thresholds_valid nl;
     nld_i_change := nld_i_change nl; calibration_en := calibration_en nl;
     poll_delay_ms := poll_delay_ms nl; delay_us := delay_us nl;
     report := report nl; nld_i := nld_i nl; nld_i_lo := nld_i_lo nl;
     nld_i_hi := nld_i_hi nl; nld_tbl := nld_tbl nl; cfg := cfg nl |}.

Definition set_thresholds_valid (v : bool) (nl : nvs_light) : nvs_light :=
  {| timestamp := timestamp nl; timestamp_report := timestamp_report nl;
     lux := lux nl; hw := hw nl; hw_mask := hw_mask nl;
     hw_thresh_lo := hw_thresh_lo nl; hw_thresh_hi := hw_thresh_hi nl;
     hw_limit_lo := hw_limit_lo nl; hw_limit_hi := hw_limit_hi nl;
     thresh_valid_lo := thresh_valid_lo nl;
     thresh_valid_hi := thresh_valid_hi nl; thresholds_valid := v;
     nld_i_change := nld_i_change nl; calibration_en := calibration_en nl;
     poll_delay_ms := poll_delay_ms nl; delay_us := delay_us nl;
     report := report nl; nld_i := nld_i nl; nld_i_lo := nld_i_lo nl;
     nld_i_hi := nld_i_hi nl; nld_tbl := nld_tbl nl; cfg := cfg nl |}.

Definition set_nld_i_change (v : bool) (nl : nvs_light) : nvs_light :=
  {| timestamp := timestamp nl; timestamp_report := timestamp_report nl;
     lux := lux nl; hw := hw nl; hw_mask := hw_mask nl;
     hw_thresh_lo := hw_thresh_lo nl; hw_thresh_hi := hw_thresh_hi nl;
     hw_limit_lo := hw_limit_lo nl; hw_limit_hi := hw_limit_hi nl;
     thresh_valid_lo := thresh_valid_lo nl;
     thresh_valid_hi := thresh_valid_hi nl;
     thresholds_valid := thresholds_valid nl; nld_i_change := v;
     calibration_en := calibration_en nl;
     poll_delay_ms := poll_delay_ms nl; delay_us := delay_us nl;
     report := report nl; nld_i := nld_i nl; nld_i_lo := nld_i_lo nl;
     nld_i_hi := nld_i_hi nl; nld_tbl := nld_tbl nl; cfg := cfg nl |}.

Definition set_calibration_en (v : bool) (nl : nvs_light) : nvs_light :=
  {| timestamp := timestamp nl; timestamp_report := timestamp_report nl;
     lux := lux nl; hw := hw nl; hw_mask := hw_mask nl;
     hw_thresh_lo := hw_thresh_lo nl; hw_thresh_hi := hw_thresh_hi nl;
     hw_limit_lo := hw_limit_lo nl; hw_limit_hi := hw_limit_hi nl;
     thresh_valid_lo := thresh_valid_lo nl;
     thresh_valid_hi := thresh_valid_hi nl;
     thresholds_valid := thresholds_valid nl;
     nld_i_change := nld_i_change nl; calibration_en := v;
     poll_delay_ms := poll_delay_ms nl; delay_us := delay_us nl;
     report := report nl; nld_i := nld_i nl; nld_i_lo := nld_i_lo nl;
     nld_i_hi := nld_i_hi nl; nld_tbl := nld_tbl nl; cfg := cfg nl |}.

Definition set_poll_delay_ms (v : Z) (nl : nvs_light) : nvs_light :=
  {| timestamp := timestamp nl; timestamp_report := timestamp_report nl;
     lux := lux nl; hw := hw nl; hw_mask := hw_mask nl;
     hw_thresh_lo := hw_thresh_lo nl; hw_thresh_hi := hw_thresh_hi nl;
     hw_limit_lo := hw_limit_lo nl; hw_limit_hi := hw_limit_hi nl;
     thresh_valid_lo := thresh_valid_lo nl;
     thresh_valid_hi := thresh_valid_hi nl;
     thresholds_valid := thresholds_valid nl;
     nld_i_change := nld_i_change nl; calibration_en := calibration_en nl;
     poll_delay_ms := v; delay_us := delay_us nl; report := report nl;
     nld_i := nld_i nl; nld_i_lo := nld_i_lo nl; nld_i_hi := nld_i_hi nl;
     nld_tbl := nld_tbl nl; cfg := cfg nl |}.

Definition set_report (v : Z) (nl : nvs_light) : nvs_light :=
  {| timestamp := timestamp nl; timestamp_report := timestamp_report nl;
     lux := lux nl; hw := hw nl; hw_mask := hw_mask nl;
     hw_thresh_lo := hw_thresh_lo nl; hw_thresh_hi := hw_thresh_hi nl;
     hw_limit_lo := hw_limit_lo nl; hw_limit_hi := hw_limit_hi nl;
     thresh_valid_lo := thresh_valid_lo nl;
     thresh_valid_hi := thresh_valid_hi nl;
     thresholds_valid := thresholds_valid nl;
     nld_i_change := nld_i_change nl; calibration_en := calibration_en nl;
     poll_delay_ms := poll_delay_ms nl; delay_us := delay_us nl;
     report := v; nld_i := nld_i nl; nld_i_lo := nld_i_lo nl;
     nld_i_hi := nld_i_hi nl; nld_tbl := nld_tbl nl; cfg := cfg nl |}.

Definition set_nld_i (v : Z) (nl : nvs_light) : nvs_light :=
  {| timestamp := timestamp nl; timestamp_report := timestamp_report nl;
     lux := lux nl; hw := hw nl; hw_mask := hw_mask nl;
     hw_thresh_lo := hw_thresh_lo nl; hw_thresh_hi := hw_thresh_hi nl;
     hw_limit_lo := hw_limit_lo nl; hw_limit_hi := hw_limit_hi nl;
     thresh_valid_lo := thresh_valid_lo nl;
     thresh_valid_hi := thresh_valid_hi nl;
     thresholds_valid := thresholds_valid nl;
     nld_i_change := nld_i_change nl; calibration_en := calibration_en nl;
     poll_delay_ms := poll_delay_ms nl; delay_us := delay_us nl;
     report := report nl; nld_i := v; nld_i_lo := nld_i_lo nl;
     nld_i_hi := nld_i_hi nl; nld_tbl := nld_tbl nl; cfg := cfg nl |}.

Definition set_cfg (v : sensor_cfg) (nl : nvs_light) : nvs_light :=
  {| timestamp := timestamp nl; timestamp_report := timestamp_report nl;
     lux := lux nl; hw := hw nl; hw_mask := hw_mask nl;
     hw_thresh_lo := hw_thresh_lo nl; hw_thresh_hi := hw_thresh_hi nl;
     hw_limit_lo := hw_limit_lo nl; hw_limit_hi := hw_limit_hi nl;
     thresh_valid_lo := thresh_valid_lo nl;
     thresh_valid_hi := thresh_valid_hi nl;
     thresholds_valid := thresholds_valid nl;
     nld_i_change := nld_i_change nl; calibration_en := calibration_en nl;
     poll_delay_ms := poll_delay_ms nl; delay_us := delay_us nl;
     report := report nl; nld_i := nld_i nl; nld_i_lo := nld_i_lo nl;
     nld_i_hi := nld_i_hi nl; nld_tbl := nld_tbl nl; cfg := v |}.

Definition cfg_set_thresh_hi (v : Z) (c : sensor_cfg) : sensor_cfg :=
  {| max_range := max_range c; resolution := resolution c;
     milliamp := milliamp c; delay_us_min := delay_us_min c;
     scale := scale c; uncal_lo := uncal_lo c; uncal_hi := uncal_hi c;
     cal_lo := cal_lo c; cal_hi := cal_hi c; thresh_lo := thresh_lo c;
     thresh_hi := v; report_n := report_n c |}.

Definition cfg_set_report_n (v : Z) (c : sensor_cfg) : sensor_cfg :=
  {| max_range := max_range c; resolution := resolution c;
     milliamp := milliamp c; delay_us_min := delay_us_min c;
     scale := scale c; uncal_lo := uncal_lo c; uncal_hi := uncal_hi c;
     cal_lo := cal_lo c; cal_hi := cal_hi c; thresh_lo := thresh_lo c;
     thresh_hi := thresh_hi c; report_n := v |}.

(** ** The code *)

(** The values documented for the return codes in the header comment of
    nvs_light.c and above [nvs_light_read]: -1 poll for the next sample,
    0 nothing to do, 1 new hardware thresholds. *)
Definition RET_POLL_NEXT : Z := -1.
Definition RET_NO_CHANGE : Z := 0.
Definition RET_HW_UPDATE : Z := 1.

(** What the handler receives: [nl->lux] and [nl->timestamp_report]. *)
Definition report_event : Set := (Z * Z)%type.

(** The result of one [nvs_light_read]: the value returned, the structure
    as the call leaves it, and the handler call if there was one. *)
Record sample : Set := {
  disposition : Z;
  after : nvs_light;
  reported : option report_event
}.

(** [nvs_light_interpolate(x1, x2, x3, y1, y3)], lines 111-128.
    [x2] is an [s64], the other arguments are [int]s, the result is an
    [unsigned int]. *)
Definition nvs_light_interpolate (x1 x2 x3 y1 y3 : Z) : result Z :=
  let divisor := s32 (x3 - x1) in
  if divisor =? 0 then Ok (u32 x2)
  else
    let dividend := s64 (s64 (x2 - x1) * s32 (y3 - y1)) in
    q <- do_div dividend divisor ;;
    let dividend := s64 (s64 q + y1) in
    let dividend := if dividend <? 0 then 0 else dividend in
    Ok (u32 dividend).

(** [nl->nld_tbl[i]]. *)
Definition nld_entry (nl : nvs_light) (i : Z) : result nvs_light_dynamic :=
  match nld_tbl nl with
  | None => Fault TableIndex
  | Some tbl =>
      if i <? 0 then Fault TableIndex
      else match nth_error tbl (Z.to_nat i) with
           | Some e => Ok e
           | None => Fault TableIndex
           end
  end.

(** [nvs_light_nld(nl, nld_i)], lines 130-142.  Line 140 multiplies the
    [unsigned int] [delay_min_ms] by 1000 and stores the product in the
    [int] field [delay_us_min]. *)
Definition nvs_light_nld (nl : nvs_light) (i : Z) : result (Z * nvs_light) :=
  let nl := set_nld_i i nl in
  let nl := set_nld_i_change true nl in
  e <- nld_entry nl i ;;
  let c := cfg nl in
  let nl := set_cfg
    {| max_range := nld_max_range e;
       resolution := nld_resolution e;
       milliamp := nld_milliamp e;
       delay_us_min := s32 (u32 (delay_min_ms e * 1000));
       scale := scale c;
       uncal_lo := uncal_lo c; uncal_hi := uncal_hi c;
       cal_lo := cal_lo c; cal_hi := cal_hi c;
       thresh_lo := thresh_lo c; thresh_hi := thresh_hi c;
       report_n := report_n c |} nl in
  Ok (RET_POLL_NEXT, nl).

Section SampleProcessor.

(** The constant [NVS_SCALE_SIGNIFICANCE] is defined in linux/nvs.h, which
    is not among the sources; it is taken as an [int] constant of unknown
    value. *)
Variable NVS_SCALE_SIGNIFICANCE : Z.

(** Lines 172-174: calibration mode reports every sample. *)
Definition calibration_override (nl : nvs_light) : nvs_light :=
  if calibration_en nl then set_report (u32 (report_n (cfg nl))) nl else nl.

(** Lines 175-189: the allowed report rate.  Returns the locals
    [poll_delay] and [report_delay_min]. *)
Definition rate_limit (nl : nvs_light) : result (Z * bool) :=
  if report nl <? u32 (report_n (cfg nl)) then
    let timestamp_diff := s64 (timestamp nl - timestamp_report nl) in
    let delay := u32 (delay_us nl * 1000) in
    if timestamp_diff <? delay then
      let delay := s64 (delay - timestamp_diff) in
      q <- do_div delay 1000 ;;
      Ok (u32 (s64 q), false)
    else Ok (0, true)
  else Ok (0, true).

(** Lines 190-208: threshold flags.  Returns the structure and the locals
    [thresh_lo] and [thresh_hi]; line 192 initialises [thresh_hi] from
    [nl->cfg->thresh_lo]. *)
Definition threshold_flags (nl : nvs_light) : nvs_light * Z * Z :=
  let t_lo := u32 (thresh_lo (cfg nl)) in
  let t_hi := u32 (thresh_lo (cfg nl)) in
  let '(nl, t_lo) :=
    if t_lo <? hw_mask nl then (set_thresh_valid_lo true nl, t_lo)
    else (set_thresh_valid_lo false nl, 0) in
  let '(nl, t_hi) :=
    if t_hi <? hw_mask nl then (set_thresh_valid_hi true nl, t_hi)
    else (set_thresh_valid_hi false nl, 0) in
  let nl :=
    if thresh_valid_lo nl && thresh_valid_hi nl
    then set_thresholds_valid true nl
    else set_thresholds_valid false nl in
  (nl, t_lo, t_hi).

(** Lines 209-217: limit flags. *)
Definition limit_flags (nl : nvs_light) (t_lo t_hi : Z) : nvs_light :=
  let nl :=
    if (hw nl <? t_lo) || (hw nl =? 0)
    then set_hw_limit_lo true nl else set_hw_limit_lo false nl in
  if (hw nl =? hw_mask nl) || (hw nl >? u32 (hw_mask nl - t_hi))
  then set_hw_limit_hi true nl else set_hw_limit_hi false nl.

(** Lines 218-235: reporting and thresholds. *)
Definition report_trigger (nl : nvs_light) : nvs_light :=
  if nld_i_change nl then set_report (u32 (report_n (cfg nl))) nl
  else if thresholds_valid nl then
    if hw nl <? hw_thresh_lo nl then set_report (u32 (report_n (cfg nl))) nl
    else if hw nl >? hw_thresh_hi nl
         then set_report (u32 (report_n (cfg nl))) nl
         else nl
  else set_report (u32 (report_n (cfg nl))) nl.

(** Lines 241-253: lux = HW * (resolution * NVS_SCALE_SIGNIFICANCE) / scale,
    the [s64] value handed to the interpolation. *)
Definition lux_calc (nl : nvs_light) : result Z :=
  let c := cfg nl in
  calc_f <-
    (if fval (resolution c) =? 0 then Ok 0
     else
       let calc_f := u64 (u32 (hw nl * fval (resolution c))) in
       if fval (scale c) =? 0 then Ok calc_f
       else do_div calc_f (fval (scale c))) ;;
  calc_i <-
    (if ival (resolution c) =? 0 then Ok 0
     else
       q <- int_div NVS_SCALE_SIGNIFICANCE (fval (scale c)) ;;
       Ok (u64 (u64 q * u64 (u32 (hw nl * ival (resolution c)))))) ;;
  Ok (s64 (u64 (calc_i + calc_f))).

(** Lines 261-278: the thresholds around the sample that ends a burst. *)
Definition new_thresholds (nl : nvs_light) (t_lo t_hi : Z) : nvs_light :=
  let calc := s64 (hw nl) in
  let calc := s64 (calc - t_lo) in
  let nl :=
    if calc <? 0 then set_hw_thresh_lo 0 nl
    else set_hw_thresh_lo (u32 calc) nl in
  let calc := u32 (hw nl + t_hi) in
  if calc >? hw_mask nl then set_hw_thresh_hi (hw_mask nl) nl
  else set_hw_thresh_hi (u32 calc) nl.

(** Lines 236-279: lux reporting.  Returns [ret], the structure and the
    handler call. *)
Definition lux_reporting (nl : nvs_light) (report_delay_min : bool)
    (t_lo t_hi : Z) : result (Z * nvs_light * option report_event) :=
  if negb (report nl =? 0) && report_delay_min then
    let nl := set_report (u32 (report nl - 1)) nl in
    let nl := set_timestamp_report (timestamp nl) nl in
    calc <- lux_calc nl ;;
    let c := cfg nl in
    l <- nvs_light_interpolate (uncal_lo c) calc (uncal_hi c)
                               (cal_lo c) (cal_hi c) ;;
    let nl := set_lux l nl in
    let ev := Some (lux nl, timestamp_report nl) in
    if thresholds_valid nl && (report nl =? 0)
    then Ok (RET_HW_UPDATE, new_thresholds nl t_lo t_hi, ev)
    else Ok (RET_NO_CHANGE, nl, ev)
  else Ok (RET_NO_CHANGE, nl, None).

(** Lines 280-290: dynamic resolution. *)
Definition dynamic_resolution (nl : nvs_light) (ret : Z)
    : result (Z * nvs_light) :=
  let nl := set_nld_i_change false nl in
  match nld_tbl nl with
  | None => Ok (ret, nl)
  | Some _ =>
      if hw_limit_hi nl && (nld_i nl <? nld_i_hi nl)
      then nvs_light_nld nl (u32 (nld_i nl + 1))
      else if hw_limit_lo nl && (nld_i nl >? nld_i_lo nl)
           then nvs_light_nld nl (u32 (nld_i nl - 1))
           else Ok (ret, nl)
  end.

(** Lines 291-300: poll time. *)
Definition poll_time (nl : nvs_light) (poll_delay : Z)
    (report_delay_min : bool) : result nvs_light :=
  if nld_i_change nl then
    e <- nld_entry nl (nld_i nl) ;;
    Ok (set_poll_delay_ms (delay_min_ms e) nl)
  else
    let poll_delay := if report_delay_min then delay_us nl else poll_delay in
    let poll_delay :=
      if (poll_delay <? u32 (delay_us_min (cfg nl))) || calibration_en nl
      then u32 (delay_us_min (cfg nl)) else poll_delay in
    Ok (set_poll_delay_ms (poll_delay / 1000) nl).

(** [nvs_light_read(nl)], lines 159-304. *)
Definition nvs_light_read (nl : nvs_light) : result sample :=
  let nl := calibration_override nl in
  '(poll_delay, report_delay_min) <- rate_limit nl ;;
  let '(nl, t_lo, t_hi) := threshold_flags nl in
  let nl := limit_flags nl t_lo t_hi in
  let nl := report_trigger nl in
  '(ret, nl, ev) <- lux_reporting nl report_delay_min t_lo t_hi ;;
  '(ret, nl) <- dynamic_resolution nl ret ;;
  nl <- poll_time nl poll_delay report_delay_min ;;
  let ret :=
    if negb (report nl =? 0) || calibration_en nl
    then RET_POLL_NEXT else ret in
  Ok {| disposition := ret; after := nl; reported := ev |}.

End SampleProcessor.

(** [nvs_light_enable(nl)], lines 314-331.  The function returns 0.  Line
    325 divides the [int] field [delay_us_min] by 1000 as an [int] and
    converts the quotient to [unsigned int]. *)
Definition nvs_light_enable (nl : nvs_light) : result nvs_light :=
  let nl :=
    if report_n (cfg nl) =? 0
    then set_cfg (cfg_set_report_n 1 (cfg nl)) nl else nl in
  let nl := set_report (u32 (report_n (cfg nl))) nl in
  let nl := set_timestamp_report 0 nl in
  let nl := set_hw_thresh_hi 0 nl in
  let nl := set_hw_thresh_lo (u32 (-1)) nl in
  nl <-
    match nld_tbl nl with
    | Some _ => '(_, nl) <- nvs_light_nld nl (nld_i_hi nl) ;; Ok nl
    | None =>
        Ok (set_poll_delay_ms (u32 (Z.quot (delay_us_min (cfg nl)) 1000)) nl)
    end ;;
  if (ival (scale (cfg nl)) =? 1) && (fval (scale (cfg nl)) =? 0)
  then Ok (set_calibration_en true nl)
  else Ok (set_calibration_en false nl).

(** The driver places the value read from the hardware and its timestamp
    in the structure before it calls [nvs_light_read] (header comment of
    nvs_light.c). *)
Definition driver_sample (hw_v ts : Z) (nl : nvs_light) : nvs_light :=
  set_timestamp ts (set_hw hw_v nl).

(** * Reasoning tools *)

Definition result_map {A B : Type} (f : A -> B) (r : result A) : result B :=
  match r with
  | Ok a => Ok (f a)
  | Fault e => Fault e
  end.

(** The structure with [cfg->thresh_hi] replaced. *)
Definition with_thresh_hi (v : Z) (nl : nvs_light) : nvs_light :=
  set_cfg (cfg_set_thresh_hi v (cfg nl)) nl.

Definition sample_with_thresh_hi (v : Z) (s : sample) : sample :=
  {| disposition := disposition s;
     after := with_thresh_hi v (after s);
     reported := reported s |}.

(** Field reads after field assignments. *)
Ltac fields :=
  cbv beta iota zeta delta
    [set_timestamp set_hw set_timestamp_report set_lux set_hw_thresh_lo
     set_hw_thresh_hi set_hw_limit_lo set_hw_limit_hi set_thresh_valid_lo
     set_thresh_valid_hi set_thresholds_valid set_nld_i_change
     set_calibration_en set_poll_delay_ms set_report set_nld_i set_cfg
     cfg_set_thresh_hi cfg_set_report_n with_thresh_hi driver_sample
     sample_with_thresh_hi
     timestamp timestamp_report lux hw hw_mask hw_thresh_lo hw_thresh_hi
     hw_limit_lo hw_limit_hi thresh_valid_lo thresh_valid_hi
     thresholds_valid nld_i_change calibration_en poll_delay_ms delay_us
     report nld_i nld_i_lo nld_i_hi nld_tbl cfg
     max_range resolution milliamp delay_us_min scale uncal_lo uncal_hi
     cal_lo cal_hi thresh_lo thresh_hi report_n
     disposition after reported fst snd bind result_map].

Ltac open_nl nl :=
  let c := fresh "c" in
  destruct nl as [? ? ? ? ? ? ? ? ? ? ? ? ? ? ? ? ? ? ? ? ? c]; destruct c.

Ltac case_if :=
  match goal with
  | |- context [if ?b then _ else _] =>
      lazymatch b with
      | context [if _ then _ else _] => fail
      | context [match _ with _ => _ end] => fail
      | _ => destruct b eqn:?
      end
  | |- context [match ?b with _ => _ end] =>
      lazymatch b with
      | context [if _ then _ else _] => fail
      | context [match _ with _ => _ end] => fail
      | _ => destruct b eqn:?
      end
  end.

Ltac by_cases :=
  fields; cbn [andb orb negb];
  repeat (case_if; fields; cbn [andb orb negb]);
  try reflexivity; try congruence.

(** * What each block of [nvs_light_read] assigns *)

(** The threshold test of lines 193 and 199: both compare the value read
    from [cfg->thresh_lo]. *)
Definition thresh_valid (nl : nvs_light) : bool :=
  u32 (thresh_lo (cfg nl)) <? hw_mask nl.

(** The value of the locals [thresh_lo] and [thresh_hi] after line 204. *)
Definition thresh_delta (nl : nvs_light) : Z :=
  if thresh_valid nl then u32 (thresh_lo (cfg nl)) else 0.

(** The conditions of lines 219-234 under which the burst is restarted. *)
Definition retrigger (nl : nvs_light) : bool :=
  nld_i_change nl || negb (thresholds_valid nl)
  || (hw nl <? hw_thresh_lo nl) || (hw nl >? hw_thresh_hi nl).

Lemma calibration_override_eq nl :
  calibration_override nl =
  set_report (if calibration_en nl then u32 (report_n (cfg nl))
              else report nl) nl.
Proof. open_nl nl. unfold calibration_override. by_cases. Qed.

Lemma threshold_flags_eq nl :
  threshold_flags nl =
  (set_thresholds_valid (thresh_valid nl)
     (set_thresh_valid_hi (thresh_valid nl)
        (set_thresh_valid_lo (thresh_valid nl) nl)),
   thresh_delta nl, thresh_delta nl).
Proof.
  open_nl nl. unfold threshold_flags, thresh_delta, thresh_valid. by_cases.
Qed.

Lemma limit_flags_eq nl a b :
  limit_flags nl a b =
  set_hw_limit_hi ((hw nl =? hw_mask nl) || (hw nl >? u32 (hw_mask nl - b)))
    (set_hw_limit_lo ((hw nl <? a) || (hw nl =? 0)) nl).
Proof. open_nl nl. unfold limit_flags. by_cases. Qed.

Lemma report_trigger_eq nl :
  report_trigger nl =
  set_report (if retrigger nl then u32 (report_n (cfg nl)) else report nl) nl.
Proof.
  open_nl nl. unfold report_trigger, retrigger. by_cases.
Qed.

Lemma new_thresholds_eq nl a b :
  new_thresholds nl a b =
  set_hw_thresh_hi
    (if u32 (hw nl + b) >? hw_mask nl then hw_mask nl
     else u32 (u32 (hw nl + b)))
    (set_hw_thresh_lo
       (if s64 (s64 (hw nl) - a) <? 0 then 0
        else u32 (s64 (s64 (hw nl) - a))) nl).
Proof. open_nl nl. unfold new_thresholds. by_cases. Qed.

(** The structure when line 236 is reached. *)
Definition before_report (nl : nvs_light) : nvs_light :=
  let n1 := calibration_override nl in
  let '(n2, a, b) := threshold_flags n1 in
  report_trigger (limit_flags n2 a b).

Lemma before_report_eq nl :
  before_report nl =
  let v := thresh_valid nl in
  let t := thresh_delta nl in
  set_report
    (if nld_i_change nl || negb v
        || (hw nl <? hw_thresh_lo nl) || (hw nl >? hw_thresh_hi nl)
     then u32 (report_n (cfg nl))
     else if calibration_en nl then u32 (report_n (cfg nl)) else report nl)
    (set_hw_limit_hi
       ((hw nl =? hw_mask nl) || (hw nl >? u32 (hw_mask nl - t)))
       (set_hw_limit_lo ((hw nl <? t) || (hw nl =? 0))
          (set_thresholds_valid v
             (set_thresh_valid_hi v (set_thresh_valid_lo v nl))))).
Proof.
  unfold before_report.
  rewrite calibration_override_eq, threshold_flags_eq, limit_flags_eq,
    report_trigger_eq.
  open_nl nl. fields. reflexivity.
Qed.

(** The index the dynamic-resolution block of lines 282-290 moves to. *)
Definition nld_target (nl : nvs_light) : option Z :=
  match nld_tbl nl with
  | None => None
  | Some _ =>
      if hw_limit_hi nl && (nld_i nl <? nld_i_hi nl)
      then Some (u32 (nld_i nl + 1))
      else if hw_limit_lo nl && (nld_i nl >? nld_i_lo nl)
           then Some (u32 (nld_i nl - 1))
           else None
  end.

(** The configuration after [nvs_light_nld] has copied a table entry. *)
Definition cfg_of_entry (e : nvs_light_dynamic) (c : sensor_cfg) : sensor_cfg :=
  {| max_range := nld_max_range e;
     resolution := nld_resolution e;
     milliamp := nld_milliamp e;
     delay_us_min := s32 (u32 (delay_min_ms e * 1000));
     scale := scale c;
     uncal_lo := uncal_lo c; uncal_hi := uncal_hi c;
     cal_lo := cal_lo c; cal_hi := cal_hi c;
     thresh_lo := thresh_lo c; thresh_hi := thresh_hi c;
     report_n := report_n c |}.

Lemma nvs_light_nld_eq nl i :
  nvs_light_nld nl i =
  (e <- nld_entry nl i ;;
   Ok (RET_POLL_NEXT,
       set_cfg (cfg_of_entry e (cfg nl))
         (set_nld_i_change true (set_nld_i i nl)))).
Proof. reflexivity. Qed.

Lemma dynamic_resolution_eq nl ret :
  dynamic_resolution nl ret =
  match nld_target nl with
  | None => Ok (ret, set_nld_i_change false nl)
  | Some i => nvs_light_nld (set_nld_i_change false nl) i
  end.
Proof.
  unfold dynamic_resolution, nld_target.
  change (nld_tbl (set_nld_i_change false nl)) with (nld_tbl nl).
  destruct (nld_tbl nl); [|reflexivity].
  change (hw_limit_hi (set_nld_i_change false nl)) with (hw_limit_hi nl).
  change (hw_limit_lo (set_nld_i_change false nl)) with (hw_limit_lo nl).
  change (nld_i (set_nld_i_change false nl)) with (nld_i nl).
  change (nld_i_hi (set_nld_i_change false nl)) with (nld_i_hi nl).
  change (nld_i_lo (set_nld_i_change false nl)) with (nld_i_lo nl).
  destruct (hw_limit_hi nl && (nld_i nl <? nld_i_hi nl)); [reflexivity|].
  destruct (hw_limit_lo nl && (nld_i nl >? nld_i_lo nl)); reflexivity.
Qed.

(** ** Machine-integer facts *)

Lemma u32_small z : 0 <= z < 2 ^ 32 -> u32 z = z.
Proof. intros H. unfold u32. apply Z.mod_small. exact H. Qed.

Lemma u32_range z : 0 <= u32 z < 2 ^ 32.
Proof. unfold u32. apply Z.mod_pos_bound. reflexivity. Qed.

Lemma u64_small z : 0 <= z < 2 ^ 64 -> u64 z = z.
Proof. intros H. unfold u64. apply Z.mod_small. exact H. Qed.

Lemma s64_small z : - 2 ^ 63 <= z < 2 ^ 63 -> s64 z = z.
Proof. intros H. unfold s64. rewrite Z.mod_small; lia. Qed.

Lemma s32_range z : - 2 ^ 31 <= s32 z < 2 ^ 31.
Proof.
  unfold s32.
  pose proof (Z.mod_pos_bound (z + 2 ^ 31) (2 ^ 32) eq_refl). lia.
Qed.

Lemma u32_int_nonzero z : - 2 ^ 31 <= z < 2 ^ 31 -> z <> 0 -> u32 z <> 0.
Proof.
  intros Hr Hz Hu. unfold u32 in Hu.
  pose proof (Z.div_mod z (2 ^ 32)) as D. rewrite Hu in D.
  assert (z / 2 ^ 32 = 0) by lia. lia.
Qed.

(** ** The divisions *)

(** The division of [nvs_light_interpolate] never faults: past the guard of
    line 119 the divisor is a non-zero [int]. *)
Lemma nvs_light_interpolate_total x1 x2 x3 y1 y3 :
  exists l, nvs_light_interpolate x1 x2 x3 y1 y3 = Ok l.
Proof.
  unfold nvs_light_interpolate.
  destruct (s32 (x3 - x1) =? 0) eqn:E; [eexists; reflexivity|].
  unfold do_div.
  apply Z.eqb_neq in E.
  pose proof (u32_int_nonzero _ (s32_range (x3 - x1)) E) as N.
  apply Z.eqb_neq in N. rewrite N. cbn [bind]. eexists; reflexivity.
Qed.

(** The configurations on which lines 241-253 divide by a non-zero value:
    the integer part of the resolution is zero or the fractional part of
    the scale is not, the latter being an [int]. *)
Definition lux_defined (nl : nvs_light) : Prop :=
  (ival (resolution (cfg nl)) = 0 \/ fval (scale (cfg nl)) <> 0) /\
  - 2 ^ 31 <= fval (scale (cfg nl)) < 2 ^ 31.

(** ** Dynamic resolution *)

(** The fields lines 236-279 leave alone that lines 280-303 read. *)
Definition ranging (nl : nvs_light) :=
  (nld_tbl nl, nld_i nl, nld_i_lo nl, nld_i_hi nl,
   hw_limit_lo nl, hw_limit_hi nl).

(** A resolution table is configured and the index limits lie inside it. *)
Definition table_ok (nl : nvs_light) : Prop :=
  exists tbl,
    nld_tbl nl = Some tbl /\
    0 <= nld_i_lo nl /\ 0 <= nld_i nl <= nld_i_hi nl /\
    nld_i_hi nl < Z.of_nat (length tbl) /\ nld_i_hi nl < 2 ^ 32.

Lemma nld_entry_in_table nl tbl i :
  nld_tbl nl = Some tbl -> 0 <= i < Z.of_nat (length tbl) ->
  exists e, nld_entry nl i = Ok e.
Proof.
  intros Ht Hi. unfold nld_entry. rewrite Ht.
  destruct (i <? 0) eqn:E; [apply Z.ltb_lt in E; lia|].
  destruct (nth_error tbl (Z.to_nat i)) as [e|] eqn:N; [eauto|].
  apply nth_error_None in N. lia.
Qed.


(** ** Enable *)

Lemma nvs_light_enable_eq nl :
  nvs_light_enable nl =
  let rn := if report_n (cfg nl) =? 0 then 1 else report_n (cfg nl) in
  let n :=
    set_hw_thresh_lo (u32 (-1))
      (set_hw_thresh_hi 0
         (set_timestamp_report 0
            (set_report (u32 rn)
               (set_cfg (cfg_set_report_n rn (cfg nl)) nl)))) in
  let cal := (ival (scale (cfg nl)) =? 1) && (fval (scale (cfg nl)) =? 0) in
  match nld_tbl nl with
  | Some _ =>
      e <- nld_entry nl (nld_i_hi nl) ;;
      Ok (set_calibration_en cal
            (set_cfg (cfg_of_entry e (cfg n))
               (set_nld_i_change true (set_nld_i (nld_i_hi nl) n))))
  | None =>
      Ok (set_calibration_en cal
            (set_poll_delay_ms (u32 (Z.quot (delay_us_min (cfg nl)) 1000)) n))
  end.
Proof.
  open_nl nl.
  unfold nvs_light_enable, nvs_light_nld, nld_entry, cfg_of_entry.
  by_cases.
Qed.

(** The state [nvs_light_enable] leaves: the countdown at [report_n], which
    is not zero, the thresholds fully open, and calibration mode on exactly
    for the scale (1, 0). *)
Lemma nvs_light_enable_state nl0 nl :
  nvs_light_enable nl0 = Ok nl ->
  0 <= report_n (cfg nl0) < 2 ^ 32 ->
  report nl = u32 (report_n (cfg nl)) /\
  u32 (report_n (cfg nl)) <> 0 /\
  hw_thresh_lo nl = 2 ^ 32 - 1 /\ hw_thresh_hi nl = 0 /\
  timestamp_report nl = 0 /\
  calibration_en nl =
  (ival (scale (cfg nl0)) =? 1) && (fval (scale (cfg nl0)) =? 0).
Proof.
  intros H Hr. rewrite nvs_light_enable_eq in H. cbv zeta in H.
  assert (Hn : u32 (if report_n (cfg nl0) =? 0 then 1
                    else report_n (cfg nl0)) <> 0).
  { destruct (report_n (cfg nl0) =? 0) eqn:E; [discriminate|].
    apply Z.eqb_neq in E. rewrite u32_small; assumption. }
  destruct (nld_tbl nl0).
  - destruct (nld_entry nl0 (nld_i_hi nl0)) as [e|]; [|discriminate].
    cbn [bind] in H. injection H as <-. repeat split. exact Hn.
  - injection H as <-. repeat split. exact Hn.
Qed.

(** * Properties of the sample processor *)

Section Properties.

Variable NVS_SCALE_SIGNIFICANCE : Z.

Lemma lux_calc_total nl :
  lux_defined nl -> exists calc, lux_calc NVS_SCALE_SIGNIFICANCE nl = Ok calc.
Proof.
  intros [Hi Hr]. unfold lux_calc.
  assert (Hf : exists calc_f,
    (if fval (resolution (cfg nl)) =? 0 then Ok 0
     else if fval (scale (cfg nl)) =? 0
          then Ok (u64 (u32 (hw nl * fval (resolution (cfg nl)))))
          else do_div (u64 (u32 (hw nl * fval (resolution (cfg nl)))))
                      (fval (scale (cfg nl)))) = Ok calc_f).
  { destruct (fval (resolution (cfg nl)) =? 0); [eexists; reflexivity|].
    destruct (fval (scale (cfg nl)) =? 0) eqn:E; [eexists; reflexivity|].
    apply Z.eqb_neq in E. unfold do_div.
    pose proof (u32_int_nonzero _ Hr E) as N. apply Z.eqb_neq in N.
    rewrite N. eexists; reflexivity. }
  destruct Hf as [calc_f Hf]. rewrite Hf. cbn [bind].
  destruct (ival (resolution (cfg nl)) =? 0) eqn:E.
  - eexists; reflexivity.
  - apply Z.eqb_neq in E. destruct Hi as [Hi|Hi]; [contradiction|].
    unfold int_div. apply Z.eqb_neq in Hi. rewrite Hi.
    eexists; reflexivity.
Qed.

(** The unguarded division of line 250. *)
Lemma lux_calc_div_by_zero nl :
  ival (resolution (cfg nl)) <> 0 -> fval (scale (cfg nl)) = 0 ->
  lux_calc NVS_SCALE_SIGNIFICANCE nl = Fault DivByZero.
Proof.
  intros Hi Hs. unfold lux_calc. rewrite Hs.
  apply Z.eqb_neq in Hi. rewrite Hi.
  destruct (fval (resolution (cfg nl)) =? 0); reflexivity.
Qed.

(** The structure after lines 239, 240 and 255 of a reporting call. *)
Definition reported_state (l : Z) (nl : nvs_light) : nvs_light :=
  set_lux l
    (set_timestamp_report (timestamp nl)
       (set_report (u32 (report nl - 1)) nl)).

(** Line 261: this was the last sample of the burst and the thresholds are
    valid. *)
Definition burst_done (nl : nvs_light) : bool :=
  thresholds_valid nl && (u32 (report nl - 1) =? 0).

Lemma lux_reporting_skip nl g a b :
  negb (report nl =? 0) && g = false ->
  lux_reporting NVS_SCALE_SIGNIFICANCE nl g a b = Ok (RET_NO_CHANGE, nl, None).
Proof. intros H. unfold lux_reporting. rewrite H. reflexivity. Qed.

Lemma lux_reporting_inv nl g a b r n ev :
  lux_reporting NVS_SCALE_SIGNIFICANCE nl g a b = Ok (r, n, ev) ->
  (negb (report nl =? 0) && g = false /\
   r = RET_NO_CHANGE /\ n = nl /\ ev = None) \/
  (negb (report nl =? 0) && g = true /\
   exists l,
     ev = Some (l, timestamp nl) /\
     r = (if burst_done nl then RET_HW_UPDATE else RET_NO_CHANGE) /\
     n = (if burst_done nl then new_thresholds (reported_state l nl) a b
          else reported_state l nl)).
Proof.
  unfold lux_reporting.
  destruct (negb (report nl =? 0) && g).
  - intros H. right. split; [reflexivity|].
    destruct (lux_calc _ _) as [calc|]; [cbn [bind] in H|discriminate].
    destruct (nvs_light_interpolate _ _ _ _ _) as [l|];
      [cbn [bind] in H|discriminate].
    exists l.
    change ((if burst_done nl
             then Ok (RET_HW_UPDATE,
                      new_thresholds (reported_state l nl) a b,
                      Some (l, timestamp nl))
             else Ok (RET_NO_CHANGE, reported_state l nl,
                      Some (l, timestamp nl))) = Ok (r, n, ev)) in H.
    destruct (burst_done nl); inversion H; subst; auto.
  - intros H. inversion H; subst. left. auto.
Qed.

Lemma lux_reporting_reports nl a b :
  lux_defined nl -> report nl <> 0 ->
  exists l,
    lux_reporting NVS_SCALE_SIGNIFICANCE nl true a b =
    Ok (if burst_done nl then RET_HW_UPDATE else RET_NO_CHANGE,
        if burst_done nl then new_thresholds (reported_state l nl) a b
        else reported_state l nl,
        Some (l, timestamp nl)).
Proof.
  intros Hd Hr. unfold lux_reporting.
  apply Z.eqb_neq in Hr. rewrite Hr. cbn [negb andb].
  match goal with
  | |- context [lux_calc _ ?m] =>
      destruct (lux_calc_total m Hd) as [calc Hc]
  end.
  rewrite Hc. cbn [bind].
  match goal with
  | |- context [nvs_light_interpolate ?a ?b ?c ?d ?e] =>
      destruct (nvs_light_interpolate_total a b c d e) as [l Hl]
  end.
  rewrite Hl. cbn [bind]. exists l.
  change ((if burst_done nl
           then Ok (RET_HW_UPDATE, new_thresholds (reported_state l nl) a b,
                    Some (l, timestamp nl))
           else Ok (RET_NO_CHANGE, reported_state l nl,
                    Some (l, timestamp nl))) =
          Ok (if burst_done nl then RET_HW_UPDATE else RET_NO_CHANGE,
              if burst_done nl
              then new_thresholds (reported_state l nl) a b
              else reported_state l nl,
              Some (l, timestamp nl))).
  destruct (burst_done nl); reflexivity.
Qed.

Lemma nvs_light_read_eq nl :
  nvs_light_read NVS_SCALE_SIGNIFICANCE nl =
  ('(poll_delay, g) <- rate_limit (calibration_override nl) ;;
   '(ret, n, ev) <- lux_reporting NVS_SCALE_SIGNIFICANCE (before_report nl) g
                      (thresh_delta nl) (thresh_delta nl) ;;
   '(ret, n) <- dynamic_resolution n ret ;;
   n <- poll_time n poll_delay g ;;
   Ok {| disposition :=
           if negb (report n =? 0) || calibration_en n
           then RET_POLL_NEXT else ret;
         after := n; reported := ev |}).
Proof.
  unfold nvs_light_read, before_report.
  destruct (rate_limit (calibration_override nl)) as [[p g]|]; [|reflexivity].
  cbn [bind]. rewrite threshold_flags_eq.
  replace (thresh_delta (calibration_override nl)) with (thresh_delta nl)
    by (rewrite calibration_override_eq; reflexivity).
  reflexivity.
Qed.

Lemma before_report_ranging nl :
  nld_tbl (before_report nl) = nld_tbl nl /\
  nld_i (before_report nl) = nld_i nl /\
  nld_i_lo (before_report nl) = nld_i_lo nl /\
  nld_i_hi (before_report nl) = nld_i_hi nl.
Proof. rewrite before_report_eq. repeat split. Qed.

Lemma lux_reporting_ranging nl g a b r n ev :
  lux_reporting NVS_SCALE_SIGNIFICANCE nl g a b = Ok (r, n, ev) ->
  ranging n = ranging nl.
Proof.
  intros H. apply lux_reporting_inv in H.
  destruct H as [(_ & _ & -> & _)|(_ & l & _ & _ & ->)]; [reflexivity|].
  destruct (burst_done nl); [rewrite new_thresholds_eq|]; reflexivity.
Qed.

(** Lines 280-303 when the index moves to [i]. *)
Lemma move_index nl p g i s (ev : option report_event) :
  ('(ret, n) <- nvs_light_nld (set_nld_i_change false nl) i ;;
   n <- poll_time n p g ;;
   Ok {| disposition :=
           if negb (report n =? 0) || calibration_en n
           then RET_POLL_NEXT else ret;
         after := n; reported := ev |}) = Ok s ->
  exists e,
    nld_entry nl i = Ok e /\
    s = {| disposition := RET_POLL_NEXT;
           after :=
             set_poll_delay_ms (delay_min_ms e)
               (set_cfg (cfg_of_entry e (cfg nl))
                  (set_nld_i_change true
                     (set_nld_i i (set_nld_i_change false nl))));
           reported := ev |}.
Proof.
  rewrite nvs_light_nld_eq.
  change (nld_entry (set_nld_i_change false nl) i) with (nld_entry nl i).
  destruct (nld_entry nl i) as [e|] eqn:He; [|discriminate].
  cbn [bind]. unfold poll_time.
  match goal with
  | |- context [nld_i_change ?m] => change (nld_i_change m) with true
  end.
  cbv iota.
  match goal with
  | |- context [nld_entry ?m ?j] => change (nld_entry m j) with (nld_entry nl i)
  end.
  rewrite He. cbn [bind]. intros H. exists e. split; [reflexivity|].
  inversion H.
  match goal with
  | |- context [if ?c then _ else _] => destruct c
  end; reflexivity.
Qed.

(** Lines 280-303 when the index stays. *)
Lemma keep_index nl ret p g s (ev : option report_event) :
  (n <- poll_time (set_nld_i_change false nl) p g ;;
   Ok {| disposition :=
           if negb (report n =? 0) || calibration_en n
           then RET_POLL_NEXT else ret;
         after := n; reported := ev |}) = Ok s ->
  nld_i (after s) = nld_i nl /\ nld_i_change (after s) = false /\
  hw_limit_hi (after s) = hw_limit_hi nl /\
  hw_limit_lo (after s) = hw_limit_lo nl.
Proof.
  unfold poll_time.
  change (nld_i_change (set_nld_i_change false nl)) with false. cbv iota.
  cbn [bind]. intros H. inversion H. repeat split.
Qed.

Lemma rate_limit_total nl : exists p g, rate_limit nl = Ok (p, g).
Proof.
  unfold rate_limit.
  destruct (report nl <? u32 (report_n (cfg nl))); [|eauto].
  destruct (_ <? _); [|eauto].
  unfold do_div. change (u32 1000 =? 0) with false. cbn [bind]. eauto.
Qed.

Lemma move_index_fwd nl p g i e (ev : option report_event) :
  nld_entry nl i = Ok e ->
  ('(ret, n) <- nvs_light_nld (set_nld_i_change false nl) i ;;
   n <- poll_time n p g ;;
   Ok {| disposition :=
           if negb (report n =? 0) || calibration_en n
           then RET_POLL_NEXT else ret;
         after := n; reported := ev |}) =
  Ok {| disposition := RET_POLL_NEXT;
        after :=
          set_poll_delay_ms (delay_min_ms e)
            (set_cfg (cfg_of_entry e (cfg nl))
               (set_nld_i_change true
                  (set_nld_i i (set_nld_i_change false nl))));
        reported := ev |}.
Proof.
  intros He. rewrite nvs_light_nld_eq.
  change (nld_entry (set_nld_i_change false nl) i) with (nld_entry nl i).
  rewrite He. cbn [bind]. unfold poll_time.
  match goal with
  | |- context [nld_i_change ?m] => change (nld_i_change m) with true
  end.
  cbv iota.
  match goal with
  | |- context [nld_entry ?m ?j] => change (nld_entry m j) with (nld_entry nl i)
  end.
  rewrite He. cbn [bind].
  match goal with
  | |- context [if ?c then _ else _] => destruct c
  end; reflexivity.
Qed.

(** Lines 280-303 complete when the index limits lie inside the table. *)
Lemma finish_total nl ret p g (ev : option report_event) :
  nld_tbl nl = None \/ table_ok nl ->
  exists s,
    ('(ret, n) <- dynamic_resolution nl ret ;;
     n <- poll_time n p g ;;
     Ok {| disposition :=
             if negb (report n =? 0) || calibration_en n
             then RET_POLL_NEXT else ret;
           after := n; reported := ev |}) = Ok s /\
    reported s = ev.
Proof.
  intros Ht. rewrite dynamic_resolution_eq. unfold nld_target.
  assert (K : forall r, exists s,
    ('(ret, n) <- Ok (r, set_nld_i_change false nl) ;;
     n <- poll_time n p g ;;
     Ok {| disposition :=
             if negb (report n =? 0) || calibration_en n
             then RET_POLL_NEXT else ret;
           after := n; reported := ev |}) = Ok s /\ reported s = ev).
  { intros r. cbn [bind]. unfold poll_time.
    change (nld_i_change (set_nld_i_change false nl)) with false. cbv iota.
    cbn [bind]. eexists. split; reflexivity. }
  destruct Ht as [Ht|(tbl & Ht & Hlo & Hi & Hlen & H32)].
  - rewrite Ht. apply K.
  - rewrite Ht.
    destruct (hw_limit_hi nl && (nld_i nl <? nld_i_hi nl)) eqn:Eh.
    + apply andb_prop in Eh. destruct Eh as [_ Eh]. apply Z.ltb_lt in Eh.
      destruct (nld_entry_in_table nl tbl (u32 (nld_i nl + 1)) Ht) as [e He].
      { rewrite u32_small; lia. }
      rewrite (move_index_fwd _ _ _ _ _ _ He). eexists. split; reflexivity.
    + destruct (hw_limit_lo nl && (nld_i nl >? nld_i_lo nl)) eqn:El.
      * apply andb_prop in El. destruct El as [_ El]. apply Z.gtb_lt in El.
        destruct (nld_entry_in_table nl tbl (u32 (nld_i nl - 1)) Ht)
          as [e He].
        { rewrite u32_small; lia. }
        rewrite (move_index_fwd _ _ _ _ _ _ He). eexists. split; reflexivity.
      * apply K.
Qed.

(** Every call completes on a configuration whose lux division is defined
    and whose resolution table, if there is one, covers the index limits. *)
Lemma nvs_light_read_completes nl :
  lux_defined nl -> nld_tbl nl = None \/ table_ok nl ->
  exists s, nvs_light_read NVS_SCALE_SIGNIFICANCE nl = Ok s.
Proof.
  intros Hd Ht. rewrite nvs_light_read_eq.
  destruct (rate_limit_total (calibration_override nl)) as (p & g & Hr).
  rewrite Hr. cbn [bind].
  assert (Ht' : forall n, ranging n = ranging (before_report nl) ->
                          nld_tbl n = None \/ table_ok n).
  { intros n E. unfold ranging in E.
    destruct (before_report_ranging nl) as (B1 & B2 & B3 & B4).
    rewrite B1, B2, B3, B4 in E. injection E as E1 E2 E3 E4 _ _.
    unfold table_ok. rewrite E1, E2, E3, E4. exact Ht. }
  destruct (negb (report (before_report nl) =? 0) && g) eqn:C.
  - apply andb_prop in C. destruct C as [C ->].
    apply negb_true_iff, Z.eqb_neq in C.
    destruct (lux_reporting_reports (before_report nl)
                (thresh_delta nl) (thresh_delta nl)) as [l Hl].
    { rewrite before_report_eq. exact Hd. }
    { exact C. }
    pose proof (lux_reporting_ranging _ _ _ _ _ _ _ Hl) as F.
    rewrite Hl. cbn [bind].
    destruct (finish_total _
                (if burst_done (before_report nl)
                 then RET_HW_UPDATE else RET_NO_CHANGE) p true
                (Some (l, timestamp (before_report nl))) (Ht' _ F))
      as (s & Hs & _).
    exists s. exact Hs.
  - rewrite (lux_reporting_skip _ _ _ _ C). cbn [bind].
    destruct (finish_total _ RET_NO_CHANGE p g None (Ht' _ eq_refl))
      as (s & Hs & _).
    exists s. exact Hs.
Qed.

(** ** One index step per call *)

(** The index step of a completed call.  With a resolution table
    configured, a call of [nvs_light_read] that completes and finds the
    sample saturated high ([hw_limit_hi]) below the upper index limit raises
    [nld_i] by exactly 1 and returns Poll-Next; otherwise, one that finds it
    saturated low ([hw_limit_lo]) above the lower limit lowers [nld_i] by
    exactly 1 and returns Poll-Next; otherwise the index stays and no change
    is flagged.  So there is at most one step per call, none at the
    respective limit, and high saturation goes first.  The call completes
    whenever the lux division is defined. *)
Theorem dynamic_resolution_one_step (nl : nvs_light) :
  table_ok nl ->
  (forall s, nvs_light_read NVS_SCALE_SIGNIFICANCE nl = Ok s ->
     let up := hw_limit_hi (after s) = true /\ nld_i nl < nld_i_hi nl in
     let down := hw_limit_lo (after s) = true /\ nld_i_lo nl < nld_i nl in
     (up -> nld_i (after s) = nld_i nl + 1 /\
            disposition s = RET_POLL_NEXT) /\
     (~ up -> down -> nld_i (after s) = nld_i nl - 1 /\
                      disposition s = RET_POLL_NEXT) /\
     (~ up -> ~ down -> nld_i (after s) = nld_i nl /\
                        nld_i_change (after s) = false)) /\
  (lux_defined nl ->
   exists s, nvs_light_read NVS_SCALE_SIGNIFICANCE nl = Ok s).
Proof.
  intros Ht. split;
    [|intros Hd; apply nvs_light_read_completes; [exact Hd|right; exact Ht]].
  destruct Ht as (tbl & Ht & Hlo & Hi & Hlen & H32).
  intros s H. rewrite nvs_light_read_eq in H.
  destruct (rate_limit _) as [[p g]|]; [cbn [bind] in H|discriminate].
  destruct (lux_reporting _ _ _ _ _) as [[[r n] ev]|] eqn:Hl;
    [cbn [bind] in H|discriminate].
  apply lux_reporting_ranging in Hl. unfold ranging in Hl.
  destruct (before_report_ranging nl) as (B1 & B2 & B3 & B4).
  rewrite B1, B2, B3, B4 in Hl. injection Hl as E1 E2 E3 E4 _ _.
  rewrite dynamic_resolution_eq in H. unfold nld_target in H.
  rewrite E1, E2, E3, E4, Ht in H.
  destruct (hw_limit_hi n && (nld_i nl <? nld_i_hi nl)) eqn:Eh.
  - apply move_index in H. destruct H as (e & _ & ->).
    cbn [after disposition].
    apply andb_prop in Eh. destruct Eh as [Eh1 Eh2]. apply Z.ltb_lt in Eh2.
    match goal with
    | |- context [hw_limit_hi ?m] =>
        change (hw_limit_hi m) with (hw_limit_hi n);
        change (hw_limit_lo m) with (hw_limit_lo n);
        change (nld_i m) with (u32 (nld_i nl + 1))
    end.
    rewrite u32_small by lia. cbv zeta.
    split; [auto|]. split; intros N; exfalso; apply N; auto.
  - destruct (hw_limit_lo n && (nld_i nl >? nld_i_lo nl)) eqn:El.
    + apply move_index in H. destruct H as (e & _ & ->).
      cbn [after disposition].
      apply andb_prop in El. destruct El as [El1 El2]. apply Z.gtb_lt in El2.
      match goal with
      | |- context [hw_limit_hi ?m] =>
          change (hw_limit_hi m) with (hw_limit_hi n);
          change (hw_limit_lo m) with (hw_limit_lo n);
          change (nld_i m) with (u32 (nld_i nl - 1))
      end.
      rewrite u32_small by lia. cbv zeta.
      apply andb_false_iff in Eh.
      split; [|split].
      * intros [U1 U2]. apply Z.ltb_lt in U2.
        destruct Eh; congruence.
      * auto.
      * intros _ N. exfalso; apply N; auto.
    + cbn [bind] in H. apply keep_index in H.
      destruct H as (K1 & K2 & K3 & K4). rewrite K3, K4, K1, K2.
      rewrite E2. cbv zeta.
      apply andb_false_iff in Eh. apply andb_false_iff in El.
      split; [|split].
      * intros [U1 U2]. apply Z.ltb_lt in U2. destruct Eh; congruence.
      * intros _ [D1 D2]. apply Z.gtb_lt in D2. destruct El; congruence.
      * auto.
Qed.

(** The local [poll_delay] at line 299. *)
Definition poll_value (nl : nvs_light) (p : Z) (g : bool) : Z :=
  let poll_delay := if g then delay_us nl else p in
  if (poll_delay <? u32 (delay_us_min (cfg nl))) || calibration_en nl
  then u32 (delay_us_min (cfg nl)) else poll_delay.

Lemma nld_target_ranging n m :
  ranging n = ranging m -> nld_target n = nld_target m.
Proof.
  unfold ranging, nld_target. intros E.
  injection E as -> -> -> -> -> ->. reflexivity.
Qed.

(** Lines 280-303 when the index stays. *)
Lemma finish_keep nl ret p g (ev : option report_event) :
  nld_target nl = None ->
  ('(ret, n) <- dynamic_resolution nl ret ;;
   n <- poll_time n p g ;;
   Ok {| disposition :=
           if negb (report n =? 0) || calibration_en n
           then RET_POLL_NEXT else ret;
         after := n; reported := ev |}) =
  Ok {| disposition :=
          if negb (report nl =? 0) || calibration_en nl
          then RET_POLL_NEXT else ret;
        after := set_poll_delay_ms (poll_value nl p g / 1000)
                   (set_nld_i_change false nl);
        reported := ev |}.
Proof.
  intros Hn. rewrite dynamic_resolution_eq, Hn. cbn [bind].
  unfold poll_time.
  change (nld_i_change (set_nld_i_change false nl)) with false. cbv iota.
  reflexivity.
Qed.

(** Lines 280-303 when the index moves. *)
Lemma finish_move nl ret p g i (ev : option report_event) :
  nld_target nl = Some i -> table_ok nl ->
  exists e,
    nld_entry nl i = Ok e /\
    ('(ret, n) <- dynamic_resolution nl ret ;;
     n <- poll_time n p g ;;
     Ok {| disposition :=
             if negb (report n =? 0) || calibration_en n
             then RET_POLL_NEXT else ret;
           after := n; reported := ev |}) =
    Ok {| disposition := RET_POLL_NEXT;
          after :=
            set_poll_delay_ms (delay_min_ms e)
              (set_cfg (cfg_of_entry e (cfg nl))
                 (set_nld_i_change true
                    (set_nld_i i (set_nld_i_change false nl))));
          reported := ev |}.
Proof.
  intros Hn (tbl & Ht & Hlo & Hi & Hlen & H32).
  rewrite dynamic_resolution_eq, Hn.
  assert (Hr : 0 <= i < Z.of_nat (length tbl)).
  { unfold nld_target in Hn. rewrite Ht in Hn.
    destruct (hw_limit_hi nl && (nld_i nl <? nld_i_hi nl)) eqn:Eh.
    - apply andb_prop in Eh. destruct Eh as [_ Eh]. apply Z.ltb_lt in Eh.
      injection Hn as <-. rewrite u32_small; lia.
    - destruct (hw_limit_lo nl && (nld_i nl >? nld_i_lo nl)) eqn:El;
        [|discriminate].
      apply andb_prop in El. destruct El as [_ El]. apply Z.gtb_lt in El.
      injection Hn as <-. rewrite u32_small; lia. }
  destruct (nld_entry_in_table nl tbl i Ht Hr) as [e He].
  exists e. split; [exact He|]. apply move_index_fwd. exact He.
Qed.

(** ** Rate limiting *)

Lemma rate_limit_calibration_off nl :
  calibration_en nl = false ->
  rate_limit (calibration_override nl) = rate_limit nl.
Proof. intros H. unfold calibration_override. rewrite H. reflexivity. Qed.

(** The fields lines 172-235 leave alone. *)
Lemma before_report_frame nl :
  calibration_en (before_report nl) = calibration_en nl /\
  cfg (before_report nl) = cfg nl /\
  delay_us (before_report nl) = delay_us nl /\
  timestamp (before_report nl) = timestamp nl /\
  hw (before_report nl) = hw nl /\
  hw_mask (before_report nl) = hw_mask nl /\
  hw_thresh_lo (before_report nl) = hw_thresh_lo nl /\
  hw_thresh_hi (before_report nl) = hw_thresh_hi nl.
Proof. rewrite before_report_eq. repeat split. Qed.

(** Lines 176-188 when the sample comes before the period has elapsed:
    the remaining wait, in microseconds. *)
Lemma rate_limit_too_fast nl :
  report nl < u32 (report_n (cfg nl)) ->
  0 <= delay_us nl -> delay_us nl * 1000 < 2 ^ 32 ->
  0 <= timestamp nl - timestamp_report nl < delay_us nl * 1000 ->
  exists q, rate_limit nl = Ok (q, false) /\ 0 <= q <= delay_us nl.
Proof.
  intros Hr Hd Hw He. unfold rate_limit.
  apply Z.ltb_lt in Hr. rewrite Hr.
  rewrite (u32_small (delay_us nl * 1000)) by lia.
  rewrite (s64_small (timestamp nl - timestamp_report nl)) by lia.
  assert (E : (timestamp nl - timestamp_report nl <? delay_us nl * 1000)
              = true) by (apply Z.ltb_lt; lia).
  rewrite E.
  unfold do_div. change (u32 1000) with 1000. change (1000 =? 0) with false.
  cbn [bind].
  set (d := delay_us nl * 1000 - (timestamp nl - timestamp_report nl)).
  assert (Hdr : 0 < d <= delay_us nl * 1000) by (unfold d; lia).
  rewrite (s64_small d) by lia. rewrite (u64_small d) by lia.
  assert (Hq : 0 <= d / 1000 <= delay_us nl).
  { split; [apply Z.div_pos; lia|].
    apply Z.div_le_upper_bound; lia. }
  rewrite (s64_small (d / 1000)) by lia.
  rewrite (u32_small (d / 1000)) by lia.
  exists (d / 1000). split; [reflexivity|exact Hq].
Qed.

(** C5, as the code has it: with calibration mode off, a burst partly
    consumed, a period [delay_us * 1000] that fits 32 bits and a sample
    taken before the period has elapsed since the last report, the call
    completes without calling the handler; if the resolution index does
    not change in the call, the poll delay it leaves is at most the larger
    of [delay_us] and the configured minimum [delay_us_min]. *)
Theorem rate_limited_call_does_not_report (nl : nvs_light) :
  calibration_en nl = false ->
  report nl < u32 (report_n (cfg nl)) ->
  0 <= delay_us nl -> delay_us nl * 1000 < 2 ^ 32 ->
  0 <= timestamp nl - timestamp_report nl < delay_us nl * 1000 ->
  nld_tbl nl = None \/ table_ok nl ->
  exists s,
    nvs_light_read NVS_SCALE_SIGNIFICANCE nl = Ok s /\
    reported s = None /\
    (nld_i_change (after s) = false ->
     poll_delay_ms (after s) * 1000 <=
     Z.max (delay_us nl) (u32 (delay_us_min (cfg nl)))).
Proof.
  intros Hc Hr Hd Hw He Ht.
  rewrite nvs_light_read_eq, (rate_limit_calibration_off _ Hc).
  destruct (rate_limit_too_fast nl Hr Hd Hw He) as (q & -> & Hq).
  cbn [bind].
  rewrite lux_reporting_skip by apply andb_false_r. cbn [bind].
  destruct (before_report_frame nl) as (F1 & F2 & F3 & _).
  destruct (before_report_ranging nl) as (B1 & B2 & B3 & B4).
  destruct (nld_target (before_report nl)) as [i|] eqn:Hn.
  - assert (Ht' : table_ok (before_report nl)).
    { unfold table_ok. rewrite B1, B2, B3, B4.
      destruct Ht as [Ht|Ht]; [|exact Ht].
      unfold nld_target in Hn. rewrite B1, Ht in Hn. discriminate. }
    destruct (finish_move (before_report nl) RET_NO_CHANGE q false i None
                Hn Ht') as (e & _ & ->).
    eexists. split; [reflexivity|]. split; [reflexivity|].
    cbn [after]. intros N. discriminate N.
  - rewrite (finish_keep _ _ _ _ _ Hn).
    eexists. split; [reflexivity|]. split; [reflexivity|].
    intros _. cbn [after].
    match goal with
    | |- poll_delay_ms (set_poll_delay_ms ?x _) * 1000 <= _ =>
        change (poll_delay_ms (set_poll_delay_ms x _)) with x
    end.
    unfold poll_value. rewrite F1, F2, Hc.
    pose proof (u32_range (delay_us_min (cfg nl))) as Hm.
    set (m := u32 (delay_us_min (cfg nl))) in *.
    assert (Hx : forall x, 0 <= x <= Z.max (delay_us nl) m ->
                           x / 1000 * 1000 <= Z.max (delay_us nl) m).
    { intros x Hx. pose proof (Z.mul_div_le x 1000 eq_refl). lia. }
    destruct ((q <? m) || false); apply Hx; lia.
Qed.

(** ** Report bursts *)

(** The sample lies inside the threshold window in force. *)
Definition in_window (nl : nvs_light) : Prop :=
  hw_thresh_lo nl <= hw nl <= hw_thresh_hi nl.

(** The driver's loop over a list of samples (raw value, timestamp): the
    handler calls, one entry per sample. *)
Fixpoint nvs_light_run (nl : nvs_light) (samples : list (Z * Z))
    : result (list (option report_event)) :=
  match samples with
  | [] => Ok []
  | (h, t) :: rest =>
      s <- nvs_light_read NVS_SCALE_SIGNIFICANCE (driver_sample h t nl) ;;
      evs <- nvs_light_run (after s) rest ;;
      Ok (reported s :: evs)
  end.

Lemma before_report_report_steady nl :
  calibration_en nl = false -> nld_i_change nl = false ->
  thresh_valid nl = true -> in_window nl ->
  report (before_report nl) = report nl.
Proof.
  intros Hc Hn Hv [Hlo Hhi]. rewrite before_report_eq. cbv zeta.
  match goal with
  | |- report (set_report ?x _) = _ => change (report (set_report x _)) with x
  end.
  rewrite Hc, Hn, Hv.
  assert (E1 : (hw nl <? hw_thresh_lo nl) = false) by (apply Z.ltb_ge; lia).
  assert (E2 : (hw nl >? hw_thresh_hi nl) = false).
  { rewrite Z.gtb_ltb. apply Z.ltb_ge. lia. }
  rewrite E1, E2. reflexivity.
Qed.

(** No sample lies inside the open window [nvs_light_enable] leaves
    ([hw_thresh_lo] all ones, [hw_thresh_hi] zero). *)
Lemma open_window_excludes_every_sample nl0 nl h t :
  nvs_light_enable nl0 = Ok nl ->
  0 <= report_n (cfg nl0) < 2 ^ 32 ->
  ~ in_window (driver_sample h t nl).
Proof.
  intros He Hr [Hlo Hhi].
  destruct (nvs_light_enable_state _ _ He Hr) as (_ & _ & Tlo & Thi & _).
  change (hw_thresh_lo (driver_sample h t nl)) with (hw_thresh_lo nl) in Hlo.
  change (hw_thresh_hi (driver_sample h t nl)) with (hw_thresh_hi nl) in Hhi.
  rewrite Tlo in Hlo. rewrite Thi in Hhi.
  assert (0 < 2 ^ 32 - 1) by reflexivity. lia.
Qed.

(** ** Threshold flags and thresholds *)

(** Lines 280-303, read backwards from a completed call. *)
Lemma finish_inv nl ret p g s (ev : option report_event) :
  ('(ret, n) <- dynamic_resolution nl ret ;;
   n <- poll_time n p g ;;
   Ok {| disposition :=
           if negb (report n =? 0) || calibration_en n
           then RET_POLL_NEXT else ret;
         after := n; reported := ev |}) = Ok s ->
  (nld_target nl = None /\
   s = {| disposition :=
            if negb (report nl =? 0) || calibration_en nl
            then RET_POLL_NEXT else ret;
          after := set_poll_delay_ms (poll_value nl p g / 1000)
                     (set_nld_i_change false nl);
          reported := ev |}) \/
  (exists i e,
     nld_target nl = Some i /\ nld_entry nl i = Ok e /\
     s = {| disposition := RET_POLL_NEXT;
            after :=
              set_poll_delay_ms (delay_min_ms e)
                (set_cfg (cfg_of_entry e (cfg nl))
                   (set_nld_i_change true
                      (set_nld_i i (set_nld_i_change false nl))));
            reported := ev |}).
Proof.
  destruct (nld_target nl) as [i|] eqn:Hn.
  - rewrite dynamic_resolution_eq, Hn. intros H.
    apply move_index in H. destruct H as (e & He & ->).
    right. exists i, e. auto.
  - rewrite (finish_keep _ _ _ _ _ Hn). intros H. inversion H. left. auto.
Qed.

(** The fields lines 236-303 leave alone. *)
Definition flags (nl : nvs_light) :=
  (thresh_valid_lo nl, thresh_valid_hi nl, thresholds_valid nl,
   hw nl, hw_mask nl, calibration_en nl).

Lemma lux_reporting_flags nl g a b r n ev :
  lux_reporting NVS_SCALE_SIGNIFICANCE nl g a b = Ok (r, n, ev) ->
  flags n = flags nl.
Proof.
  intros H. apply lux_reporting_inv in H.
  destruct H as [(_ & _ & -> & _)|(_ & l & _ & _ & ->)]; [reflexivity|].
  destruct (burst_done nl); [rewrite new_thresholds_eq|]; reflexivity.
Qed.

Lemma finish_flags nl ret p g s (ev : option report_event) :
  ('(ret, n) <- dynamic_resolution nl ret ;;
   n <- poll_time n p g ;;
   Ok {| disposition :=
           if negb (report n =? 0) || calibration_en n
           then RET_POLL_NEXT else ret;
         after := n; reported := ev |}) = Ok s ->
  flags (after s) = flags nl /\ reported s = ev.
Proof.
  intros H. apply finish_inv in H.
  destruct H as [(_ & ->)|(i & e & _ & _ & ->)]; split; reflexivity.
Qed.

(** What every completed call leaves in the three threshold flags: the
    outcome of the one test [cfg->thresh_lo < hw_mask]. *)
Lemma threshold_flags_after_call nl s :
  nvs_light_read NVS_SCALE_SIGNIFICANCE nl = Ok s ->
  thresh_valid_lo (after s) = thresh_valid nl /\
  thresh_valid_hi (after s) = thresh_valid nl /\
  thresholds_valid (after s) = thresh_valid nl.
Proof.
  intros H. rewrite nvs_light_read_eq in H.
  destruct (rate_limit _) as [[p g]|]; [cbn [bind] in H|discriminate].
  destruct (lux_reporting _ _ _ _ _) as [[[r n] ev]|] eqn:Hl;
    [cbn [bind] in H|discriminate].
  apply lux_reporting_flags in Hl. apply finish_flags in H.
  destruct H as [H _]. rewrite Hl in H. rewrite before_report_eq in H.
  unfold flags in H. injection H as -> -> -> _ _ _. repeat split.
Qed.

(** The thresholds a call programs when it reports the last sample of a
    burst with the flags valid: the sample minus and plus the one delta read
    from [cfg->thresh_lo], bounded by 0 and [hw_mask]. *)
Lemma thresholds_after_burst nl s :
  nvs_light_read NVS_SCALE_SIGNIFICANCE nl = Ok s ->
  reported s <> None -> thresholds_valid (after s) = true ->
  report (after s) = 0 ->
  0 <= hw nl < 2 ^ 32 -> 0 <= hw_mask nl < 2 ^ 32 ->
  hw_thresh_lo (after s) = Z.max (hw nl - u32 (thresh_lo (cfg nl))) 0 /\
  hw_thresh_hi (after s) =
  (if u32 (hw nl + u32 (thresh_lo (cfg nl))) >? hw_mask nl then hw_mask nl
   else u32 (hw nl + u32 (thresh_lo (cfg nl)))).
Proof.
  intros H Hrep Hv Hr0 Hhw Hmask.
  destruct (threshold_flags_after_call _ _ H) as (_ & _ & Hv').
  rewrite Hv in Hv'. symmetry in Hv'.
  rewrite nvs_light_read_eq in H.
  destruct (rate_limit _) as [[p g]|]; [cbn [bind] in H|discriminate].
  destruct (lux_reporting _ _ _ _ _) as [[[r n] ev]|] eqn:Hl;
    [cbn [bind] in H|discriminate].
  apply lux_reporting_inv in Hl.
  assert (Ht : thresh_delta nl = u32 (thresh_lo (cfg nl))).
  { unfold thresh_delta. rewrite Hv'. reflexivity. }
  rewrite Ht in Hl.
  assert (Hbv : thresholds_valid (before_report nl) = true).
  { rewrite before_report_eq. exact Hv'. }
  destruct (before_report_frame nl) as (_ & _ & _ & _ & F5 & F6 & _).
  pose proof (u32_range (thresh_lo (cfg nl))) as Hu.
  set (t := u32 (thresh_lo (cfg nl))) in *.
  assert (Hlt : t < hw_mask nl).
  { unfold thresh_valid in Hv'. apply Z.ltb_lt in Hv'. exact Hv'. }
  destruct Hl as [(_ & _ & -> & ->)|(_ & l & -> & -> & ->)].
  - apply finish_flags in H. destruct H as [_ H]. congruence.
  - apply finish_inv in H.
    assert (Hb : burst_done (before_report nl) = true).
    { unfold burst_done. rewrite Hbv. cbn [andb].
      destruct H as [(_ & ->)|(i & e & _ & _ & ->)]; cbn [after] in Hr0;
        destruct (burst_done (before_report nl)) eqn:Eb;
        rewrite ?new_thresholds_eq in Hr0;
        try (unfold burst_done in Eb; rewrite Hbv in Eb; exact Eb);
        apply Z.eqb_eq; exact Hr0. }
    rewrite Hb in H.
    assert (Hth :
      hw_thresh_lo (after s) =
        (if s64 (s64 (hw nl) - t) <? 0 then 0
         else u32 (s64 (s64 (hw nl) - t))) /\
      hw_thresh_hi (after s) =
        (if u32 (hw nl + t) >? hw_mask nl then hw_mask nl
         else u32 (u32 (hw nl + t)))).
    { rewrite <- F5, <- F6.
      destruct H as [(_ & ->)|(i & e & _ & _ & ->)]; cbn [after];
        rewrite new_thresholds_eq; split; reflexivity. }
    destruct Hth as [-> ->].
    rewrite (s64_small (hw nl)) by lia.
    rewrite (s64_small (hw nl - t)) by lia.
    rewrite (u32_small (u32 (hw nl + t))) by apply u32_range.
    split; [|reflexivity].
    destruct (hw nl - t <? 0) eqn:E.
    + apply Z.ltb_lt in E. lia.
    + apply Z.ltb_ge in E. rewrite u32_small by lia. lia.
Qed.

(** What every completed call leaves in the two limit flags: the tests of
    lines 210 and 214 with the delta of [thresh_delta] on both sides, which
    is zero when the threshold test fails. *)
Lemma limit_flags_after_call nl s :
  nvs_light_read NVS_SCALE_SIGNIFICANCE nl = Ok s ->
  hw_limit_lo (after s) = ((hw nl <? thresh_delta nl) || (hw nl =? 0)) /\
  hw_limit_hi (after s) =
  ((hw nl =? hw_mask nl) || (hw nl >? u32 (hw_mask nl - thresh_delta nl))).
Proof.
  intros H. rewrite nvs_light_read_eq in H.
  destruct (rate_limit _) as [[p g]|]; [cbn [bind] in H|discriminate].
  destruct (lux_reporting _ _ _ _ _) as [[[r n] ev]|] eqn:Hl;
    [cbn [bind] in H|discriminate].
  apply lux_reporting_ranging in Hl. rewrite before_report_eq in Hl.
  unfold ranging in Hl. injection Hl as _ _ _ _ Elo Ehi.
  apply finish_inv in H.
  destruct H as [(_ & ->)|(i & e & _ & _ & ->)]; cbn [after];
    rewrite <- Elo, <- Ehi; split; reflexivity.
Qed.

(** A sample at [hw_mask] is saturated high and a sample of 0 is saturated
    low, whatever the thresholds. *)
Lemma saturated_samples_set_limit_flags nl s :
  nvs_light_read NVS_SCALE_SIGNIFICANCE nl = Ok s ->
  (hw nl = hw_mask nl -> hw_limit_hi (after s) = true) /\
  (hw nl = 0 -> hw_limit_lo (after s) = true).
Proof.
  intros H. destruct (limit_flags_after_call _ _ H) as [-> ->].
  split; intros E.
  - apply Z.eqb_eq in E. rewrite E. reflexivity.
  - apply Z.eqb_eq in E. rewrite E. apply orb_true_r.
Qed.

(** ** The burst after enabling *)

(** The window [nvs_light_enable] leaves (lines 320-321): [hw_thresh_lo]
    all ones and [hw_thresh_hi] zero. *)
Definition window_open (nl : nvs_light) : Prop :=
  hw_thresh_lo nl = 2 ^ 32 - 1 /\ hw_thresh_hi nl = 0.

(** Lines 227-230 with the window open: whatever the raw value, the
    countdown is back at [report_n] when line 236 reads it. *)
Lemma open_window_restarts_burst nl :
  window_open nl -> report (before_report nl) = u32 (report_n (cfg nl)).
Proof.
  intros [Hlo Hhi]. rewrite before_report_eq. cbv zeta.
  match goal with
  | |- report (set_report ?x _) = _ => change (report (set_report x _)) with x
  end.
  rewrite Hlo, Hhi.
  assert (E : (hw nl <? 2 ^ 32 - 1) || (hw nl >? 0) = true).
  { destruct (hw nl >? 0) eqn:G; [apply orb_true_r|].
    rewrite Z.gtb_ltb in G. apply Z.ltb_ge in G.
    assert (L : hw nl < 2 ^ 32 - 1)
      by (apply Z.le_lt_trans with 0; [exact G|reflexivity]).
    apply Z.ltb_lt in L. rewrite L. reflexivity. }
  rewrite <- orb_assoc, E, orb_true_r. reflexivity.
Qed.

(** One call with the window open and [report_n] at least 2: line 261
    finds the countdown at [report_n - 1], not at 0, so no window is
    programmed and the call returns Poll-Next. *)
Lemma open_window_call nl s :
  window_open nl -> 2 <= u32 (report_n (cfg nl)) ->
  nvs_light_read NVS_SCALE_SIGNIFICANCE nl = Ok s ->
  disposition s = RET_POLL_NEXT /\ window_open (after s) /\
  report_n (cfg (after s)) = report_n (cfg nl).
Proof.
  intros Hw Hn H.
  pose proof (open_window_restarts_burst nl Hw) as Hr.
  pose proof (u32_range (report_n (cfg nl))) as Hu.
  destruct (before_report_frame nl) as (_ & Fc & _ & _ & _ & _ & Flo & Fhi).
  rewrite nvs_light_read_eq in H.
  destruct (rate_limit _) as [[p g]|]; [cbn [bind] in H|discriminate].
  destruct (lux_reporting _ _ _ _ _) as [[[r n] ev]|] eqn:Hl;
    [cbn [bind] in H|discriminate].
  assert (K : report n <> 0 /\ hw_thresh_lo n = hw_thresh_lo nl /\
              hw_thresh_hi n = hw_thresh_hi nl /\ cfg n = cfg nl).
  { apply lux_reporting_inv in Hl.
    destruct Hl as [(_ & _ & -> & _)|(_ & l & _ & _ & ->)].
    - rewrite Hr. repeat split; try assumption. lia.
    - assert (D : burst_done (before_report nl) = false).
      { unfold burst_done. rewrite Hr.
        rewrite (u32_small (u32 (report_n (cfg nl)) - 1)) by lia.
        assert (E : (u32 (report_n (cfg nl)) - 1 =? 0) = false)
          by (apply Z.eqb_neq; lia).
        rewrite E. apply andb_false_r. }
      rewrite D.
      change (report (reported_state l (before_report nl)))
        with (u32 (report (before_report nl) - 1)).
      change (hw_thresh_lo (reported_state l (before_report nl)))
        with (hw_thresh_lo (before_report nl)).
      change (hw_thresh_hi (reported_state l (before_report nl)))
        with (hw_thresh_hi (before_report nl)).
      change (cfg (reported_state l (before_report nl)))
        with (cfg (before_report nl)).
      rewrite Hr, (u32_small (u32 (report_n (cfg nl)) - 1)) by lia.
      repeat split; try assumption. lia. }
  destruct K as (Kr & Klo & Khi & Kc).
  assert (Wn : window_open n)
    by (unfold window_open; rewrite Klo, Khi; exact Hw).
  apply finish_inv in H.
  destruct H as [(_ & ->)|(i & e & _ & _ & ->)]; cbn [disposition after].
  - apply Z.eqb_neq in Kr. rewrite Kr. cbn [negb orb].
    split; [reflexivity|]. split; [exact Wn|].
    rewrite <- Kc. reflexivity.
  - split; [reflexivity|]. split; [exact Wn|].
    rewrite <- Kc. reflexivity.
Qed.

(** Every completed call of the driver's loop returns Poll-Next and leaves
    the window open. *)
Fixpoint burst_never_ends (nl : nvs_light) (samples : list (Z * Z)) : Prop :=
  match samples with
  | [] => True
  | (h, t) :: rest =>
      match nvs_light_read NVS_SCALE_SIGNIFICANCE (driver_sample h t nl) with
      | Ok s =>
          disposition s = RET_POLL_NEXT /\ window_open (after s) /\
          burst_never_ends (after s) rest
      | Fault _ => True
      end
  end.

Lemma open_window_never_closes samples : forall nl,
  window_open nl -> 2 <= u32 (report_n (cfg nl)) ->
  burst_never_ends nl samples.
Proof.
  induction samples as [|[h t] rest IH]; intros nl Hw Hn; [exact I|].
  cbn [burst_never_ends].
  destruct (nvs_light_read _ _) as [s|] eqn:H; [|exact I].
  destruct (open_window_call (driver_sample h t nl) s Hw Hn H)
    as (D & W & C).
  split; [exact D|]. split; [exact W|].
  apply IH; [exact W|]. rewrite C. exact Hn.
Qed.

(** With [report_n] of 2 or more the burst [nvs_light_enable] starts never
    ends: whatever the samples, no call programs a threshold window
    (line 261 never finds the countdown at 0) and every completed call
    returns Poll-Next. *)
Lemma burst_never_ends_after_enable nl0 nl samples :
  nvs_light_enable nl0 = Ok nl ->
  2 <= report_n (cfg nl0) < 2 ^ 32 ->
  burst_never_ends nl samples.
Proof.
  intros He Hr.
  assert (Hr' : 0 <= report_n (cfg nl0) < 2 ^ 32) by lia.
  destruct (nvs_light_enable_state _ _ He Hr') as (_ & _ & Tlo & Thi & _).
  assert (C : report_n (cfg nl) = report_n (cfg nl0)).
  { rewrite nvs_light_enable_eq in He. cbv zeta in He.
    assert (E : (report_n (cfg nl0) =? 0) = false)
      by (apply Z.eqb_neq; lia).
    rewrite E in He.
    destruct (nld_tbl nl0).
    - destruct (nld_entry nl0 (nld_i_hi nl0)); [|discriminate].
      injection He as <-. reflexivity.
    - injection He as <-. reflexivity. }
  apply open_window_never_closes; [split; assumption|].
  rewrite C, u32_small; lia.
Qed.

(** ** Calls that must report *)

Lemma call_reports nl p :
  rate_limit (calibration_override nl) = Ok (p, true) ->
  report (before_report nl) <> 0 ->
  lux_defined nl -> nld_tbl nl = None \/ table_ok nl ->
  exists s l,
    nvs_light_read NVS_SCALE_SIGNIFICANCE nl = Ok s /\
    reported s = Some (l, timestamp nl).
Proof.
  intros Hr Hn Hd Ht. rewrite nvs_light_read_eq, Hr. cbn [bind].
  destruct (lux_reporting_reports (before_report nl)
              (thresh_delta nl) (thresh_delta nl)) as [l Hl].
  { rewrite before_report_eq. exact Hd. }
  { exact Hn. }
  pose proof (lux_reporting_ranging _ _ _ _ _ _ _ Hl) as F.
  rewrite Hl. cbn [bind].
  match goal with
  | |- context [dynamic_resolution ?n ?r] =>
      destruct (finish_total n r p true
                  (Some (l, timestamp (before_report nl)))) as (s & Hs & He)
  end.
  { unfold ranging in F.
    destruct (before_report_ranging nl) as (B1 & B2 & B3 & B4).
    rewrite B1, B2, B3, B4 in F. injection F as E1 E2 E3 E4 _ _.
    unfold table_ok. rewrite E1, E2, E3, E4. exact Ht. }
  exists s, l. split; [exact Hs|].
  rewrite He. destruct (before_report_frame nl) as (_ & _ & _ & -> & _).
  reflexivity.
Qed.

(** A call entered with the countdown at [report_n] (after line 174)
    reports: the rate limit does not apply and no threshold test can lower
    the countdown. *)
Lemma full_burst_reports nl :
  report (calibration_override nl) = u32 (report_n (cfg nl)) ->
  u32 (report_n (cfg nl)) <> 0 ->
  lux_defined nl -> nld_tbl nl = None \/ table_ok nl ->
  exists s l,
    nvs_light_read NVS_SCALE_SIGNIFICANCE nl = Ok s /\
    reported s = Some (l, timestamp nl).
Proof.
  intros Hr Hn Hd Ht. apply (call_reports nl 0); try assumption.
  - unfold rate_limit. rewrite Hr.
    replace (cfg (calibration_override nl)) with (cfg nl)
      by (rewrite calibration_override_eq; reflexivity).
    rewrite Z.ltb_irrefl. reflexivity.
  - rewrite calibration_override_eq in Hr.
    change (report (set_report ?x nl)) with x in Hr.
    rewrite before_report_eq. cbv zeta.
    match goal with
    | |- report (set_report ?x _) <> 0 =>
        change (report (set_report x _)) with x
    end.
    rewrite Hr. destruct (_ || _); exact Hn.
Qed.

(** In calibration mode every call whose lux division is defined reports
    and returns Poll-Next, and unless the resolution index moves the poll
    delay is the configured minimum. *)
Lemma calibration_call_reports nl :
  calibration_en nl = true -> u32 (report_n (cfg nl)) <> 0 ->
  lux_defined nl -> nld_tbl nl = None \/ table_ok nl ->
  exists s l,
    nvs_light_read NVS_SCALE_SIGNIFICANCE nl = Ok s /\
    reported s = Some (l, timestamp nl) /\
    disposition s = RET_POLL_NEXT /\
    (nld_i_change (after s) = false ->
     poll_delay_ms (after s) = u32 (delay_us_min (cfg nl)) / 1000).
Proof.
  intros Hc Hn Hd Ht.
  destruct (full_burst_reports nl) as (s & l & Hs & He); try assumption.
  { rewrite calibration_override_eq, Hc. reflexivity. }
  exists s, l. split; [exact Hs|]. split; [exact He|].
  rewrite nvs_light_read_eq in Hs.
  destruct (rate_limit _) as [[p g]|]; [cbn [bind] in Hs|discriminate].
  destruct (lux_reporting _ _ _ _ _) as [[[r n] ev]|] eqn:Hl;
    [cbn [bind] in Hs|discriminate].
  assert (Hcn : calibration_en n = true /\ cfg n = cfg nl).
  { destruct (before_report_frame nl) as (F1 & F2 & _).
    rewrite <- Hc, <- F1, <- F2.
    apply lux_reporting_inv in Hl.
    destruct Hl as [(_ & _ & -> & _)|(_ & l' & _ & _ & ->)];
      [split; reflexivity|].
    destruct (burst_done (before_report nl));
      [rewrite new_thresholds_eq|]; split; reflexivity. }
  destruct Hcn as [Hcn Hcf].
  apply finish_inv in Hs.
  destruct Hs as [(_ & ->)|(i & e & _ & _ & ->)]; cbn [disposition after].
  - rewrite Hcn, orb_true_r. split; [reflexivity|]. intros _.
    match goal with
    | |- poll_delay_ms (set_poll_delay_ms ?x _) = _ =>
        change (poll_delay_ms (set_poll_delay_ms x _)) with x
    end.
    unfold poll_value. rewrite Hcn, Hcf, orb_true_r. reflexivity.
  - split; [reflexivity|]. intros N. discriminate N.
Qed.

(** The first call after [nvs_light_enable] reports whatever the sample
    and its timestamp, provided the lux division is defined. *)
Lemma first_read_reports nl0 nl h t :
  nvs_light_enable nl0 = Ok nl ->
  0 <= report_n (cfg nl0) < 2 ^ 32 ->
  lux_defined nl -> nld_tbl nl = None \/ table_ok nl ->
  exists s l,
    nvs_light_read NVS_SCALE_SIGNIFICANCE (driver_sample h t nl) = Ok s /\
    reported s = Some (l, t).
Proof.
  intros He Hr Hd Ht.
  destruct (nvs_light_enable_state _ _ He Hr) as (R1 & R2 & _).
  apply (full_burst_reports (driver_sample h t nl)).
  - rewrite calibration_override_eq.
    match goal with
    | |- report (set_report ?x _) = _ => change (report (set_report x _)) with x
    end.
    change (report (driver_sample h t nl)) with (report nl).
    change (cfg (driver_sample h t nl)) with (cfg nl).
    rewrite R1. destruct (calibration_en _); reflexivity.
  - exact R2.
  - exact Hd.
  - exact Ht.
Qed.

(** A call that gets as far as reporting faults on the division of line
    250 when the scale has no fractional part and the resolution has an
    integer part. *)
Lemma reporting_call_faults nl p :
  rate_limit (calibration_override nl) = Ok (p, true) ->
  report (before_report nl) <> 0 ->
  ival (resolution (cfg nl)) <> 0 -> fval (scale (cfg nl)) = 0 ->
  nvs_light_read NVS_SCALE_SIGNIFICANCE nl = Fault DivByZero.
Proof.
  intros Hr Hn Hi Hs. rewrite nvs_light_read_eq, Hr. cbn [bind].
  unfold lux_reporting. apply Z.eqb_neq in Hn. rewrite Hn. cbn [negb andb].
  rewrite lux_calc_div_by_zero.
  - reflexivity.
  - rewrite before_report_eq. apply Z.eqb_neq. apply Z.eqb_neq in Hi.
    exact Hi.
  - rewrite before_report_eq. exact Hs.
Qed.

(** * The configured high threshold is never read *)

Section ThreshHi.

Variable v : Z.

Lemma calibration_override_thresh_hi nl :
  calibration_override (with_thresh_hi v nl) =
  with_thresh_hi v (calibration_override nl).
Proof. open_nl nl. unfold calibration_override. by_cases. Qed.

Lemma rate_limit_thresh_hi nl :
  rate_limit (with_thresh_hi v nl) = rate_limit nl.
Proof. reflexivity. Qed.

Lemma threshold_flags_thresh_hi nl :
  threshold_flags (with_thresh_hi v nl) =
  let '(n, a, b) := threshold_flags nl in (with_thresh_hi v n, a, b).
Proof. open_nl nl. unfold threshold_flags. by_cases. Qed.

Lemma limit_flags_thresh_hi nl a b :
  limit_flags (with_thresh_hi v nl) a b = with_thresh_hi v (limit_flags nl a b).
Proof. open_nl nl. unfold limit_flags. by_cases. Qed.

Lemma report_trigger_thresh_hi nl :
  report_trigger (with_thresh_hi v nl) = with_thresh_hi v (report_trigger nl).
Proof. open_nl nl. unfold report_trigger. by_cases. Qed.

Lemma new_thresholds_thresh_hi nl a b :
  new_thresholds (with_thresh_hi v nl) a b =
  with_thresh_hi v (new_thresholds nl a b).
Proof. open_nl nl. unfold new_thresholds. by_cases. Qed.

Definition on_state3 {A B : Type} (f : nvs_light -> nvs_light)
    (x : A * nvs_light * B) : A * nvs_light * B :=
  let '(a, n, b) := x in (a, f n, b).

Definition on_state2 {A : Type} (f : nvs_light -> nvs_light)
    (x : A * nvs_light) : A * nvs_light :=
  let '(a, n) := x in (a, f n).

Lemma lux_reporting_thresh_hi nl g a b :
  lux_reporting NVS_SCALE_SIGNIFICANCE (with_thresh_hi v nl) g a b =
  result_map (on_state3 (with_thresh_hi v))
             (lux_reporting NVS_SCALE_SIGNIFICANCE nl g a b).
Proof.
  unfold lux_reporting.
  change (report (with_thresh_hi v nl)) with (report nl).
  destruct (negb (report nl =? 0) && g); [|reflexivity].
  match goal with
  | |- bind ?c _ = result_map _ (bind ?d _) =>
      change c with d; destruct d as [calc|]; [|reflexivity]
  end.
  cbn [bind].
  match goal with
  | |- bind ?c _ = result_map _ (bind ?d _) =>
      change c with d; destruct d as [l|]; [|reflexivity]
  end.
  cbn [bind].
  match goal with
  | |- (if ?c then _ else _) = result_map _ (if ?d then _ else _) =>
      change c with d; destruct d
  end.
  - unfold result_map, on_state3. rewrite <- new_thresholds_thresh_hi.
    reflexivity.
  - open_nl nl. reflexivity.
Qed.

Lemma nvs_light_nld_thresh_hi nl i :
  nvs_light_nld (with_thresh_hi v nl) i =
  result_map (on_state2 (with_thresh_hi v)) (nvs_light_nld nl i).
Proof.
  unfold nvs_light_nld.
  match goal with
  | |- bind ?c _ = result_map _ (bind ?d _) =>
      change c with d; destruct d as [e|]; [|reflexivity]
  end.
  open_nl nl. reflexivity.
Qed.

Lemma dynamic_resolution_thresh_hi nl r :
  dynamic_resolution (with_thresh_hi v nl) r =
  result_map (on_state2 (with_thresh_hi v)) (dynamic_resolution nl r).
Proof.
  unfold dynamic_resolution.
  change (set_nld_i_change false (with_thresh_hi v nl))
    with (with_thresh_hi v (set_nld_i_change false nl)).
  set (m := set_nld_i_change false nl).
  change (nld_tbl (with_thresh_hi v m)) with (nld_tbl m).
  change (hw_limit_hi (with_thresh_hi v m)) with (hw_limit_hi m).
  change (hw_limit_lo (with_thresh_hi v m)) with (hw_limit_lo m).
  change (nld_i (with_thresh_hi v m)) with (nld_i m).
  change (nld_i_hi (with_thresh_hi v m)) with (nld_i_hi m).
  change (nld_i_lo (with_thresh_hi v m)) with (nld_i_lo m).
  destruct (nld_tbl m); [|reflexivity].
  destruct (hw_limit_hi m && (nld_i m <? nld_i_hi m));
    [apply nvs_light_nld_thresh_hi|].
  destruct (hw_limit_lo m && (nld_i m >? nld_i_lo m));
    [apply nvs_light_nld_thresh_hi|reflexivity].
Qed.

Lemma poll_time_thresh_hi nl p g :
  poll_time (with_thresh_hi v nl) p g =
  result_map (with_thresh_hi v) (poll_time nl p g).
Proof.
  unfold poll_time.
  change (nld_i_change (with_thresh_hi v nl)) with (nld_i_change nl).
  destruct (nld_i_change nl).
  - match goal with
    | |- bind ?c _ = result_map _ (bind ?d _) =>
        change c with d; destruct d as [e|]; [|reflexivity]
    end.
    open_nl nl. reflexivity.
  - open_nl nl. reflexivity.
Qed.

(** C10: [nvs_light_read] never reads [cfg->thresh_hi].  Run on a structure
    whose configured high threshold is replaced by any value [v], it faults
    exactly when the original run faults, and otherwise returns the same
    disposition, makes the same handler call, and leaves the same structure
    (thresholds, resolution index, poll delay and all other fields) except
    that [cfg->thresh_hi] is [v]. *)
Theorem nvs_light_read_ignores_thresh_hi (nl : nvs_light) :
  nvs_light_read NVS_SCALE_SIGNIFICANCE (with_thresh_hi v nl) =
  result_map (sample_with_thresh_hi v)
             (nvs_light_read NVS_SCALE_SIGNIFICANCE nl).
Proof.
  unfold nvs_light_read.
  rewrite calibration_override_thresh_hi.
  set (n1 := calibration_override nl).
  rewrite rate_limit_thresh_hi.
  destruct (rate_limit n1) as [[poll_delay report_delay_min]|];
    [cbn [bind]|reflexivity].
  rewrite threshold_flags_thresh_hi.
  destruct (threshold_flags n1) as [[n2 t_lo] t_hi].
  rewrite limit_flags_thresh_hi, report_trigger_thresh_hi,
    lux_reporting_thresh_hi.
  destruct (lux_reporting _ _ _ _ _) as [[[r n3] ev]|];
    [cbn [bind result_map on_state3]|reflexivity].
  rewrite dynamic_resolution_thresh_hi.
  destruct (dynamic_resolution n3 r) as [[r' n4]|];
    [cbn [bind result_map on_state2]|reflexivity].
  rewrite poll_time_thresh_hi.
  destruct (poll_time n4 poll_delay report_delay_min) as [n5|];
    [cbn [bind result_map]|reflexivity].
  reflexivity.
Qed.

End ThreshHi.

End Properties.

(** * Interpolation *)

(** Line 120: with [x3 == x1] the divisor is zero and the query is
    returned through the cast to [unsigned int]. *)
Lemma nvs_light_interpolate_same_x (x1 x2 y1 y3 : Z) :
  nvs_light_interpolate x1 x2 x1 y1 y3 = Ok (u32 x2).
Proof.
  unfold nvs_light_interpolate. rewrite Z.sub_diag. reflexivity.
Qed.

(** C9, as the code has it: when [x3 == x1] the interpolation returns the
    query [x2] converted to [unsigned int], that is, [x2] modulo 2^32. *)
Theorem interpolate_degenerate_range (x1 x2 y1 y3 : Z) :
  nvs_light_interpolate x1 x2 x1 y1 y3 = Ok (x2 mod 2 ^ 32).
Proof. apply nvs_light_interpolate_same_x. Qed.

(** The query comes back unchanged when it is an [unsigned int]. *)
Lemma interpolate_identity_in_range (x1 x2 y1 y3 : Z) :
  0 <= x2 < 2 ^ 32 -> nvs_light_interpolate x1 x2 x1 y1 y3 = Ok x2.
Proof.
  intros H. rewrite nvs_light_interpolate_same_x, u32_small; auto.
Qed.

(** A 64-bit query above the [unsigned int] range does not come back
    unchanged. *)
Lemma interpolate_truncates_query :
  - 2 ^ 63 <= 4294967303 < 2 ^ 63 /\
  nvs_light_interpolate 0 4294967303 0 0 1000 = Ok 7 /\
  7 <> 4294967303.
Proof. repeat split; try reflexivity; intro H; discriminate H. Qed.

(** * Concrete runs *)

Definition fixed (i f : Z) : nvs_float := {| ival := i; fval := f |}.

(** A configuration with no calibration points: resolution, scale,
    threshold deltas, [report_n] and [delay_us_min]. *)
Definition sensor (res sc : nvs_float) (t_lo t_hi rn dmin : Z) : sensor_cfg :=
  {| max_range := fixed 0 0; resolution := res; milliamp := fixed 0 0;
     delay_us_min := dmin; scale := sc;
     uncal_lo := 0; uncal_hi := 0; cal_lo := 0; cal_hi := 0;
     thresh_lo := t_lo; thresh_hi := t_hi; report_n := rn |}.

(** A zeroed structure for a device with the given [hw_mask], [delay_us],
    resolution table and index limits. *)
Definition device (mask du : Z) (tbl : option (list nvs_light_dynamic))
    (lo hi : Z) (c : sensor_cfg) : nvs_light :=
  {| timestamp := 0; timestamp_report := 0; lux := 0; hw := 0;
     hw_mask := mask; hw_thresh_lo := 0; hw_thresh_hi := 0;
     hw_limit_lo := false; hw_limit_hi := false;
     thresh_valid_lo := false; thresh_valid_hi := false;
     thresholds_valid := false; nld_i_change := false;
     calibration_en := false; poll_delay_ms := 0; delay_us := du;
     report := 0; nld_i := 0; nld_i_lo := lo; nld_i_hi := hi;
     nld_tbl := tbl; cfg := c |}.

(** The constant used in the concrete runs. *)
Definition significance : Z := 1000000.

(** Closed goals, settled by evaluation one conjunct at a time. *)
Ltac evaluated :=
  lazymatch goal with
  | |- _ /\ _ => split; [evaluated|evaluated]
  | |- exists _, _ => eexists; evaluated
  | |- _ =>
      vm_compute;
      lazymatch goal with
      | |- _ /\ _ => evaluated
      | |- _ =>
          first [ reflexivity
                | exact I
                | let H := fresh in intro H; discriminate H
                | left; reflexivity
                | right; reflexivity ]
      end
  end.

(** ** Threshold flags (C1) *)

(** Low delta 5 and high delta 100 on a 50-count sensor. *)
Definition flags_input : nvs_light :=
  driver_sample 20 20000000
    (set_report 1
       (device 50 10000 None 0 0
          (sensor (fixed 0 10000) (fixed 0 10000) 5 100 1 1000))).

(** C1 at [flags_input]: the configured high threshold 100 is not smaller
    than [hw_mask] = 50, yet the call sets [thresh_valid_hi] and
    [thresholds_valid]. *)
Theorem thresh_valid_hi_reads_thresh_lo (sig : Z) :
  exists s,
    nvs_light_read sig flags_input = Ok s /\
    thresh_valid_lo (after s) = true /\
    thresh_valid_hi (after s) = true /\
    thresholds_valid (after s) = true /\
    hw_mask flags_input <= thresh_hi (cfg flags_input).
Proof. eexists. evaluated. Qed.

(** ** Programmed thresholds (C2) *)

(** Low delta 5 and high delta 10 on a 1000-count sensor, one report per
    burst, sample 20. *)
Definition thresholds_input : nvs_light :=
  driver_sample 20 20000000
    (set_report 1
       (device 1000 10000 None 0 0
          (sensor (fixed 0 10000) (fixed 0 10000) 5 10 1 1000))).

(** C2 at [thresholds_input]: the call reports the last sample of the
    burst with valid thresholds and returns Update-Thresholds, and the high
    threshold it programs is 20 + 5, not 20 + 10. *)
Theorem hw_thresh_hi_adds_thresh_lo (sig : Z) :
  exists s,
    nvs_light_read sig thresholds_input = Ok s /\
    reported s = Some (20, 20000000) /\
    report (after s) = 0 /\ thresholds_valid (after s) = true /\
    disposition s = RET_HW_UPDATE /\
    hw_thresh_lo (after s) = 15 /\ hw_thresh_hi (after s) = 25 /\
    Z.min (hw thresholds_input + thresh_hi (cfg thresholds_input))
          (hw_mask thresholds_input) = 30.
Proof. eexists. evaluated. Qed.

(** ** The unguarded division (C3, C6, C8) *)

(** Resolution 1.0 and scale (1, 0), a burst pending. *)
Definition division_input : nvs_light :=
  driver_sample 20 20000000
    (set_report 1
       (device 1000 10000 None 0 0
          (sensor (fixed 1 0) (fixed 1 0) 5 10 1 1000))).

(** C3 at [division_input]: the call divides by [scale.fval] = 0 on line
    250. *)
Theorem lux_division_by_zero (sig : Z) :
  fval (scale (cfg division_input)) = 0 /\
  ival (resolution (cfg division_input)) <> 0 /\
  nvs_light_read sig division_input = Fault DivByZero.
Proof. evaluated. Qed.

(** Resolution 2.5 and scale (1, 0): calibration mode. *)
Definition calibration_device : nvs_light :=
  device 1000 10000 None 0 0
    (sensor (fixed 2 500000) (fixed 1 0) 5 10 2 1000).

(** C6 at [calibration_device]: [nvs_light_enable] turns calibration mode
    on and the next call faults on line 250 before it reaches the
    handler. *)
Theorem calibration_call_faults (sig : Z) :
  exists nl,
    nvs_light_enable calibration_device = Ok nl /\
    calibration_en nl = true /\
    nvs_light_read sig (driver_sample 20 20000000 nl) = Fault DivByZero.
Proof. eexists. evaluated. Qed.

(** Resolution 1.0 and scale 0 (scale disabled). *)
Definition unscaled_device : nvs_light :=
  device 1000 10000 None 0 0
    (sensor (fixed 1 0) (fixed 0 0) 5 10 1 1000).

(** C8 at [unscaled_device]: [nvs_light_enable] leaves the countdown at
    [report_n] and the thresholds fully open, and the first call faults on
    line 250 before it reaches the handler. *)
Theorem first_call_faults (sig : Z) :
  exists nl,
    nvs_light_enable unscaled_device = Ok nl /\
    report nl = report_n (cfg nl) /\
    hw_thresh_lo nl = 4294967295 /\ hw_thresh_hi nl = 0 /\
    nvs_light_read sig (driver_sample 100 5000000 nl) = Fault DivByZero.
Proof. eexists. evaluated. Qed.

(** ** Report bursts (C4) *)

(** Deltas 5 and 10 on a 1000-count sensor, three reports per burst, a
    10 ms period, no resolution table, scale 0.01. *)
Definition burst_device : nvs_light :=
  device 1000 10000 None 0 0
    (sensor (fixed 0 10000) (fixed 0 10000) 5 10 3 1000).

(** The same raw value every 20 ms. *)
Definition four_samples : list (Z * Z) :=
  [(100, 20000000); (100, 40000000); (100, 60000000); (100, 80000000)].

(** C4 at [burst_device]: from the state [nvs_light_enable] produces,
    with [report_n] = 3, valid thresholds, calibration mode off, no
    resolution table, a constant raw value and every sample a full period
    after the last report, the fourth call reports as well.  The window
    stays as [nvs_light_enable] left it, no sample is inside it, and so
    every sample restarts the burst. *)
Theorem burst_restarts_after_enable :
  exists nl,
    nvs_light_enable burst_device = Ok nl /\
    report nl = 3 /\ report_n (cfg nl) = 3 /\
    thresh_valid nl = true /\ calibration_en nl = false /\
    nld_tbl nl = None /\ delay_us nl * 1000 = 10000000 /\
    hw_thresh_lo nl = 4294967295 /\ hw_thresh_hi nl = 0 /\
    nvs_light_run significance nl four_samples =
    Ok [Some (100, 20000000); Some (100, 40000000);
        Some (100, 60000000); Some (100, 80000000)].
Proof. evaluated. Qed.

(** The general fact at [burst_device]: whatever the samples, every
    completed call returns Poll-Next and leaves the window open. *)
Lemma burst_never_ends_at_burst_device (samples : list (Z * Z)) :
  exists nl,
    nvs_light_enable burst_device = Ok nl /\
    burst_never_ends significance nl samples.
Proof.
  destruct (nvs_light_enable burst_device) as [nl|] eqn:H;
    [|vm_compute in H; discriminate H].
  exists nl. split; [reflexivity|].
  apply (burst_never_ends_after_enable significance _ _ _ H).
  split; [intro K; discriminate K|reflexivity].
Qed.

(** ** Rate limiting (C5) *)

(** A 10 us period under a 50 ms minimum delay, a burst partly consumed,
    and a sample 5 us after the last report. *)
Definition short_period : nvs_light :=
  driver_sample 20 1005000
    (set_report 1
       (set_timestamp_report 1000000
          (device 1000 10 None 0 0
             (sensor (fixed 0 10000) (fixed 0 10000) 5 10 3 50000)))).

(** The call does not report, and the poll delay it leaves is the
    configured minimum of 50 ms, above the period of 10 us. *)
Lemma poll_delay_exceeds_period :
  calibration_en short_period = false /\
  report short_period < report_n (cfg short_period) /\
  0 <= timestamp short_period - timestamp_report short_period
    < delay_us short_period * 1000 /\
  exists s,
    nvs_light_read significance short_period = Ok s /\
    reported s = None /\
    poll_delay_ms (after s) = 50 /\ delay_us short_period = 10 /\
    delay_us short_period < poll_delay_ms (after s) * 1000.
Proof. evaluated. Qed.

(** A 10 ms period over a 1 ms minimum delay, a burst partly consumed, and
    a sample 4 ms after the last report. *)
Definition long_period : nvs_light :=
  driver_sample 20 5000000
    (set_report 1
       (set_timestamp_report 1000000
          (device 1000 10000 None 0 0
             (sensor (fixed 0 10000) (fixed 0 10000) 5 10 3 1000)))).

Lemma rate_limited_call_witness :
  exists s,
    nvs_light_read significance long_period = Ok s /\
    reported s = None /\
    (nld_i_change (after s) = false ->
     poll_delay_ms (after s) * 1000 <=
     Z.max (delay_us long_period) (u32 (delay_us_min (cfg long_period)))).
Proof.
  apply rate_limited_call_does_not_report; evaluated.
Defined.

(** A period of 4294968 us: [delay_us * 1000] does not fit 32 bits, line
    178 computes 704 ns, and a sample 1 us after the last report is
    reported. *)
Definition wrapped_period : nvs_light :=
  driver_sample 20 1001000
    (set_report 1
       (set_timestamp_report 1000000
          (device 1000 4294968 None 0 0
             (sensor (fixed 0 10000) (fixed 0 10000) 5 10 3 1000)))).

Lemma period_product_wraps :
  0 <= timestamp wrapped_period - timestamp_report wrapped_period
    < delay_us wrapped_period * 1000 /\
  u32 (delay_us wrapped_period * 1000) = 704 /\
  exists s,
    nvs_light_read significance wrapped_period = Ok s /\
    reported s = Some (20, 1001000).
Proof. evaluated. Qed.

(** ** Dynamic resolution (C7) *)

Definition ranges : list nvs_light_dynamic :=
  [ {| nld_resolution := fixed 0 10000; nld_max_range := fixed 655 0;
       nld_milliamp := fixed 0 13500; delay_min_ms := 800 |};
    {| nld_resolution := fixed 0 40000; nld_max_range := fixed 2621 0;
       nld_milliamp := fixed 0 13500; delay_min_ms := 200 |};
    {| nld_resolution := fixed 0 160000; nld_max_range := fixed 10485 0;
       nld_milliamp := fixed 0 13500; delay_min_ms := 50 |} ].

(** A sample at [hw_mask] on the middle range of a three-range table. *)
Definition saturated : nvs_light :=
  driver_sample 1000 20000000
    (set_nld_i 1
       (set_report 1
          (device 1000 10000 (Some ranges) 0 2
             (sensor (fixed 0 40000) (fixed 0 10000) 5 10 1 200000)))).

Lemma dynamic_resolution_one_step_witness :
  table_ok saturated /\
  exists s,
    nvs_light_read significance saturated = Ok s /\
    nld_i (after s) = nld_i saturated + 1 /\
    disposition s = RET_POLL_NEXT.
Proof.
  assert (Ht : table_ok saturated) by (exists ranges; evaluated).
  split; [exact Ht|].
  destruct (dynamic_resolution_one_step significance saturated Ht) as [P T].
  assert (Hd : lux_defined saturated) by evaluated.
  destruct (T Hd) as [s Hs].
  exists s. split; [exact Hs|].
  destruct (P s Hs) as (U & _ & _). apply U.
  vm_compute in Hs. injection Hs as <-. evaluated.
Defined.

(** A two-range table whose resolutions have an integer part, under a
    disabled scale (0, 0). *)
Definition integer_ranges : list nvs_light_dynamic :=
  [ {| nld_resolution := fixed 1 0; nld_max_range := fixed 1000 0;
       nld_milliamp := fixed 0 13500; delay_min_ms := 800 |};
    {| nld_resolution := fixed 4 0; nld_max_range := fixed 4000 0;
       nld_milliamp := fixed 0 13500; delay_min_ms := 200 |} ].

Definition integer_device : nvs_light :=
  device 1000 10000 (Some integer_ranges) 0 1
    (sensor (fixed 4 0) (fixed 0 0) 5 10 1 200000).

(** C7 at [integer_device]: after [nvs_light_enable] the index is 1, above
    the lower limit 0, and the first sample is 0, saturated low
    ([hw_limit_lo] is set by line 210); the call divides by [scale.fval] = 0
    on line 250 and never reaches the step of lines 280-290.  The same
    happens to a sample at [hw_mask] with the index at 0, below the upper
    limit. *)
Theorem saturated_call_faults (sig : Z) :
  exists nl,
    nvs_light_enable integer_device = Ok nl /\
    nld_tbl nl = Some integer_ranges /\
    nld_i_lo nl = 0 /\ nld_i nl = 1 /\ nld_i_hi nl = 1 /\
    hw_limit_lo (before_report (driver_sample 0 20000000 nl)) = true /\
    nvs_light_read sig (driver_sample 0 20000000 nl) = Fault DivByZero /\
    hw_limit_hi
      (before_report (driver_sample 1000 20000000 (set_nld_i 0 nl))) = true /\
    nvs_light_read sig (driver_sample 1000 20000000 (set_nld_i 0 nl))
    = Fault DivByZero.
Proof. eexists. evaluated. Qed.

(** A rate-limited call that moves the resolution index: a sample at
    [hw_mask] 4 ms after the last report, under a 10 ms period.  The call
    does not report, moves to the last range and leaves that range's
    delay of 50 ms. *)
Definition saturated_early : nvs_light :=
  driver_sample 1000 5000000
    (set_nld_i 1
       (set_report 1
          (set_timestamp_report 1000000
             (device 1000 10000 (Some ranges) 0 2
                (sensor (fixed 0 40000) (fixed 0 10000) 5 10 3 1000))))).

Lemma poll_delay_after_index_change :
  exists s,
    nvs_light_read significance saturated_early = Ok s /\
    reported s = None /\ nld_i_change (after s) = true /\
    nld_i (after s) = 2 /\ poll_delay_ms (after s) = 50.
Proof. evaluated. Qed.

(** * Further properties of the code *)

(** ** Interpolation between the calibration points *)

Lemma s32_small z : - 2 ^ 31 <= z < 2 ^ 31 -> s32 z = z.
Proof. intros H. unfold s32. rewrite Z.mod_small; lia. Qed.

(** Lines 117-127 on a rising calibration line, for a query at or above the
    low point and values that fit the types: the truncated quotient of the
    formula of line 117, clamped at zero. *)
Lemma nvs_light_interpolate_rising (x1 x2 x3 y1 y3 : Z) :
  x1 < x3 -> x3 - x1 < 2 ^ 31 ->
  x1 <= x2 ->
  0 <= y3 - y1 < 2 ^ 31 -> - 2 ^ 31 <= y1 ->
  (x2 - x1) * (y3 - y1) < 2 ^ 63 -> x2 - x1 < 2 ^ 63 ->
  y1 + (x2 - x1) * (y3 - y1) / (x3 - x1) < 2 ^ 32 ->
  nvs_light_interpolate x1 x2 x3 y1 y3 =
  Ok (Z.max 0 (y1 + (x2 - x1) * (y3 - y1) / (x3 - x1))).
Proof.
  intros Hx Hxr Hq Hy Hy1 Hp Hq63 Hres. unfold nvs_light_interpolate.
  rewrite (s32_small (x3 - x1)) by lia.
  rewrite (s32_small (y3 - y1)) by lia.
  destruct (x3 - x1 =? 0) eqn:E; [apply Z.eqb_eq in E; lia|].
  rewrite (s64_small (x2 - x1)) by lia.
  assert (Hp0 : 0 <= (x2 - x1) * (y3 - y1)) by (apply Z.mul_nonneg_nonneg; lia).
  rewrite (s64_small ((x2 - x1) * (y3 - y1))) by lia.
  unfold do_div. rewrite (u32_small (x3 - x1)) by lia. rewrite E.
  cbn [bind]. rewrite (u64_small ((x2 - x1) * (y3 - y1))) by lia.
  set (q := (x2 - x1) * (y3 - y1) / (x3 - x1)) in *.
  assert (Hq0 : 0 <= q) by (apply Z.div_pos; lia).
  assert (Hqu : q <= (x2 - x1) * (y3 - y1)).
  { apply Z.div_le_upper_bound; [lia|]. nia. }
  rewrite (s64_small q) by lia.
  rewrite (s64_small (q + y1)) by lia.
  destruct (q + y1 <? 0) eqn:N.
  - apply Z.ltb_lt in N. rewrite Z.max_l by lia. reflexivity.
  - apply Z.ltb_ge in N. rewrite Z.max_r by lia.
    rewrite u32_small by lia. f_equal. lia.
Qed.

(** X1: on a rising calibration line [(x1, y1)]..[(x3, y3)] with
    non-negative calibrated values, a query between the two uncalibrated
    points is mapped to [y1 + (x2 - x1) * (y3 - y1) / (x3 - x1)] with the
    division truncated, a value between [y1] and [y3]. *)
Theorem interpolate_between_points (x1 x2 x3 y1 y3 : Z) :
  x1 < x3 -> x3 - x1 < 2 ^ 31 -> x1 <= x2 <= x3 ->
  0 <= y1 <= y3 -> y3 < 2 ^ 31 ->
  exists y2,
    nvs_light_interpolate x1 x2 x3 y1 y3 = Ok y2 /\
    y2 = y1 + (x2 - x1) * (y3 - y1) / (x3 - x1) /\
    y1 <= y2 <= y3.
Proof.
  intros Hx Hxr Hq Hy Hy3.
  assert (Hb : 0 <= (x2 - x1) * (y3 - y1) / (x3 - x1) <= y3 - y1).
  { split; [apply Z.div_pos; nia|].
    apply Z.div_le_upper_bound; [lia|]. nia. }
  eexists. split; [|split; [reflexivity|lia]].
  rewrite nvs_light_interpolate_rising; try lia; try nia.
  rewrite Z.max_r by lia. reflexivity.
Qed.

(** X2: the two calibration points themselves are mapped exactly: the low
    uncalibrated value to the low calibrated value and the high one to the
    high one. *)
Theorem interpolate_hits_calibration_points (x1 x3 y1 y3 : Z) :
  x1 < x3 -> x3 - x1 < 2 ^ 31 -> 0 <= y1 <= y3 -> y3 < 2 ^ 31 ->
  nvs_light_interpolate x1 x1 x3 y1 y3 = Ok y1 /\
  nvs_light_interpolate x1 x3 x3 y1 y3 = Ok y3.
Proof.
  intros Hx Hxr Hy Hy3.
  assert (E1 : (x1 - x1) * (y3 - y1) / (x3 - x1) = 0).
  { rewrite Z.sub_diag. apply Z.div_0_l. lia. }
  assert (E3 : (x3 - x1) * (y3 - y1) / (x3 - x1) = y3 - y1).
  { rewrite Z.mul_comm. apply Z.div_mul. lia. }
  split.
  - rewrite nvs_light_interpolate_rising; rewrite ?E1; try lia.
    rewrite Z.max_r by lia. f_equal. lia.
  - rewrite nvs_light_interpolate_rising; rewrite ?E3; try lia; try nia.
    rewrite Z.max_r by lia. f_equal. lia.
Qed.

(** X3: on a rising calibration line the interpolation is monotone in the
    query, from the low point upwards, as long as the results fit 32
    bits. *)
Theorem interpolate_monotone (x1 x2 x2' x3 y1 y3 : Z) :
  x1 < x3 -> x3 - x1 < 2 ^ 31 -> x1 <= x2 <= x2' ->
  0 <= y1 <= y3 -> y3 < 2 ^ 31 ->
  (x2' - x1) * (y3 - y1) < 2 ^ 63 -> x2' - x1 < 2 ^ 63 ->
  y1 + (x2' - x1) * (y3 - y1) / (x3 - x1) < 2 ^ 32 ->
  exists y2 y2',
    nvs_light_interpolate x1 x2 x3 y1 y3 = Ok y2 /\
    nvs_light_interpolate x1 x2' x3 y1 y3 = Ok y2' /\
    y2 <= y2'.
Proof.
  intros Hx Hxr Hq Hy Hy3 Hp Hq63 Hres.
  assert (Hm : (x2 - x1) * (y3 - y1) / (x3 - x1) <=
               (x2' - x1) * (y3 - y1) / (x3 - x1)).
  { apply Z.div_le_mono; [lia|]. nia. }
  assert (H0 : 0 <= (x2 - x1) * (y3 - y1) / (x3 - x1)).
  { apply Z.div_pos; nia. }
  do 2 eexists. split; [|split].
  - apply nvs_light_interpolate_rising; try lia; nia.
  - apply nvs_light_interpolate_rising; try lia; nia.
  - lia.
Qed.

(** ** What a call of [nvs_light_read] writes *)

(** The stages of a completed call: the rate limit, the reporting block,
    and lines 280-303 with the index kept or moved. *)
Lemma nvs_light_read_stages (sig : Z) nl s :
  nvs_light_read sig nl = Ok s ->
  exists p g r n ev,
    rate_limit (calibration_override nl) = Ok (p, g) /\
    lux_reporting sig (before_report nl) g (thresh_delta nl)
                  (thresh_delta nl) = Ok (r, n, ev) /\
    ((nld_target n = None /\
      s = {| disposition :=
               if negb (report n =? 0) || calibration_en n
               then RET_POLL_NEXT else r;
             after := set_poll_delay_ms (poll_value n p g / 1000)
                        (set_nld_i_change false n);
             reported := ev |}) \/
     (exists i e,
        nld_target n = Some i /\ nld_entry n i = Ok e /\
        s = {| disposition := RET_POLL_NEXT;
               after :=
                 set_poll_delay_ms (delay_min_ms e)
                   (set_cfg (cfg_of_entry e (cfg n))
                      (set_nld_i_change true
                         (set_nld_i i (set_nld_i_change false n))));
               reported := ev |})).
Proof.
  intros H. rewrite nvs_light_read_eq in H.
  destruct (rate_limit _) as [[p g]|]; [cbn [bind] in H|discriminate].
  destruct (lux_reporting _ _ _ _ _) as [[[r n] ev]|] eqn:Hl;
    [cbn [bind] in H|discriminate].
  apply finish_inv in H. exists p, g, r, n, ev. auto.
Qed.

(** The fields the driver and the configuration own. *)
Definition driver_fields (nl : nvs_light) :=
  (timestamp nl, hw nl, hw_mask nl, delay_us nl,
   (nld_i_lo nl, nld_i_hi nl, nld_tbl nl, calibration_en nl),
   (scale (cfg nl), uncal_lo (cfg nl), uncal_hi (cfg nl)),
   (cal_lo (cfg nl), cal_hi (cfg nl)),
   (thresh_lo (cfg nl), thresh_hi (cfg nl), report_n (cfg nl))).

Lemma lux_reporting_driver_fields sig nl g a b r n ev :
  lux_reporting sig nl g a b = Ok (r, n, ev) ->
  driver_fields n = driver_fields nl.
Proof.
  intros H. apply lux_reporting_inv in H.
  destruct H as [(_ & _ & -> & _)|(_ & l & _ & _ & ->)]; [reflexivity|].
  destruct (burst_done nl); [rewrite new_thresholds_eq|]; reflexivity.
Qed.

Lemma nvs_light_read_driver_fields sig nl s :
  nvs_light_read sig nl = Ok s ->
  driver_fields (after s) = driver_fields nl.
Proof.
  intros H. apply nvs_light_read_stages in H.
  destruct H as (p & g & r & n & ev & _ & Hl & H).
  apply lux_reporting_driver_fields in Hl.
  rewrite before_report_eq in Hl. cbv zeta in Hl.
  transitivity (driver_fields n); [|exact Hl].
  destruct H as [(_ & ->)|(i & e & _ & _ & ->)]; reflexivity.
Qed.

(** X4: a completed call of [nvs_light_read] never writes the fields the
    driver fills in ([timestamp], [hw], [hw_mask], [delay_us], the index
    limits and the table pointer), nor [calibration_en], nor the scale,
    the calibration points, the threshold deltas and [report_n] of the
    configuration. *)
Theorem nvs_light_read_keeps_driver_fields (sig : Z) (nl : nvs_light)
    (s : sample) :
  nvs_light_read sig nl = Ok s ->
  timestamp (after s) = timestamp nl /\ hw (after s) = hw nl /\
  hw_mask (after s) = hw_mask nl /\ delay_us (after s) = delay_us nl /\
  nld_i_lo (after s) = nld_i_lo nl /\ nld_i_hi (after s) = nld_i_hi nl /\
  nld_tbl (after s) = nld_tbl nl /\
  calibration_en (after s) = calibration_en nl /\
  scale (cfg (after s)) = scale (cfg nl) /\
  uncal_lo (cfg (after s)) = uncal_lo (cfg nl) /\
  uncal_hi (cfg (after s)) = uncal_hi (cfg nl) /\
  cal_lo (cfg (after s)) = cal_lo (cfg nl) /\
  cal_hi (cfg (after s)) = cal_hi (cfg nl) /\
  thresh_lo (cfg (after s)) = thresh_lo (cfg nl) /\
  thresh_hi (cfg (after s)) = thresh_hi (cfg nl) /\
  report_n (cfg (after s)) = report_n (cfg nl).
Proof.
  intros H. apply nvs_light_read_driver_fields in H.
  unfold driver_fields in H.
  injection H as -> -> -> -> -> -> -> -> -> -> -> -> -> -> -> ->.
  repeat split.
Qed.

(** The fields the reporting block writes, and those it reads. *)
Definition report_fields (nl : nvs_light) :=
  (lux nl, timestamp_report nl, hw_thresh_lo nl, hw_thresh_hi nl).

Lemma before_report_report_fields nl :
  report_fields (before_report nl) = report_fields nl /\
  timestamp (before_report nl) = timestamp nl /\
  thresholds_valid (before_report nl) = thresh_valid nl /\
  calibration_en (before_report nl) = calibration_en nl /\
  cfg (before_report nl) = cfg nl /\
  delay_us (before_report nl) = delay_us nl.
Proof. rewrite before_report_eq. repeat split. Qed.

(** Lines 280-303 leave the fields of the reporting block, the countdown
    and the threshold flag alone. *)
Lemma stages_keep_report_fields n s p g r ev :
  (nld_target n = None /\
   s = {| disposition :=
            if negb (report n =? 0) || calibration_en n
            then RET_POLL_NEXT else r;
          after := set_poll_delay_ms (poll_value n p g / 1000)
                     (set_nld_i_change false n);
          reported := ev |}) \/
  (exists i e,
     nld_target n = Some i /\ nld_entry n i = Ok e /\
     s = {| disposition := RET_POLL_NEXT;
            after :=
              set_poll_delay_ms (delay_min_ms e)
                (set_cfg (cfg_of_entry e (cfg n))
                   (set_nld_i_change true
                      (set_nld_i i (set_nld_i_change false n))));
            reported := ev |}) ->
  report_fields (after s) = report_fields n /\
  report (after s) = report n /\
  thresholds_valid (after s) = thresholds_valid n /\
  reported s = ev.
Proof.
  intros [(_ & ->)|(i & e & _ & _ & ->)]; repeat split.
Qed.

Lemma nvs_light_read_report_fields (sig : Z) (nl : nvs_light) (s : sample) :
  nvs_light_read sig nl = Ok s ->
  (reported s = None ->
   lux (after s) = lux nl /\
   timestamp_report (after s) = timestamp_report nl /\
   hw_thresh_lo (after s) = hw_thresh_lo nl /\
   hw_thresh_hi (after s) = hw_thresh_hi nl) /\
  (forall l t, reported s = Some (l, t) ->
   t = timestamp nl /\ lux (after s) = l /\
   timestamp_report (after s) = timestamp nl).
Proof.
  intros H. apply nvs_light_read_stages in H.
  destruct H as (p & g & r & n & ev & _ & Hl & H).
  apply stages_keep_report_fields in H.
  destruct H as (F & _ & _ & ->).
  destruct (before_report_report_fields nl) as (B & Bt & _).
  apply lux_reporting_inv in Hl. rewrite Bt in Hl.
  destruct Hl as [(_ & _ & -> & ->)|(_ & l0 & -> & _ & ->)].
  - split; [|discriminate]. intros _.
    rewrite B in F. unfold report_fields in F.
    injection F as -> -> -> ->. repeat split.
  - split; [discriminate|]. intros l t E. injection E as <- <-.
    assert (K : lux (after s) = l0 /\
                timestamp_report (after s) = timestamp nl).
    { unfold report_fields in F. rewrite <- Bt.
      destruct (burst_done (before_report nl));
        [rewrite new_thresholds_eq in F|];
        injection F as -> -> _ _; split; reflexivity. }
    destruct K. auto.
Qed.


(** Whether the call handed a value to the handler. *)
Definition has_report (s : sample) : bool :=
  match reported s with Some _ => true | None => false end.

Lemma nvs_light_read_disposition (sig : Z) (nl : nvs_light) (s : sample) :
  nvs_light_read sig nl = Ok s ->
  disposition s =
  if negb (report (after s) =? 0) || calibration_en nl
     || nld_i_change (after s)
  then RET_POLL_NEXT
  else if has_report s && thresholds_valid (after s)
       then RET_HW_UPDATE
       else RET_NO_CHANGE.
Proof.
  intros H. apply nvs_light_read_stages in H.
  destruct H as (p & g & r & n & ev & _ & Hl & H).
  pose proof (lux_reporting_flags _ _ _ _ _ _ _ _ Hl) as Ff.
  destruct (before_report_report_fields nl) as (_ & _ & _ & Bc & _).
  assert (Hc : calibration_en n = calibration_en nl).
  { unfold flags in Ff. injection Ff as _ _ _ _ _ ->. exact Bc. }
  destruct H as [(_ & ->)|(i & e & _ & _ & ->)];
    cbn [disposition after reported].
  - match goal with
    | |- context [nld_i_change ?m] => change (nld_i_change m) with false
    end.
    match goal with
    | |- context [report (set_poll_delay_ms ?x ?m)] =>
        change (report (set_poll_delay_ms x m)) with (report n);
        change (thresholds_valid (set_poll_delay_ms x m))
          with (thresholds_valid n)
    end.
    rewrite Hc, orb_false_r.
    destruct (negb (report n =? 0) || calibration_en nl) eqn:C;
      [reflexivity|].
    apply orb_false_iff in C. destruct C as [C _].
    apply negb_false_iff in C.
    apply lux_reporting_inv in Hl.
    unfold has_report; cbn [reported].
    destruct Hl as [(_ & -> & _ & ->)|(_ & l & -> & -> & ->)];
      [rewrite andb_false_l; reflexivity|].
    cbn [andb]. unfold burst_done in *.
    destruct (thresholds_valid (before_report nl)) eqn:V; cbn [andb] in *.
    + destruct (u32 (report (before_report nl) - 1) =? 0) eqn:Z0.
      * rewrite new_thresholds_eq.
        match goal with
        | |- context [thresholds_valid ?m] =>
            change (thresholds_valid m)
              with (thresholds_valid (before_report nl))
        end.
        rewrite V. reflexivity.
      * change (report (reported_state l (before_report nl)))
          with (u32 (report (before_report nl) - 1)) in C.
        congruence.
    + change (thresholds_valid (reported_state l (before_report nl)))
        with (thresholds_valid (before_report nl)).
      rewrite V. reflexivity.
  - match goal with
    | |- context [nld_i_change ?m] => change (nld_i_change m) with true
    end.
    rewrite orb_true_r. reflexivity.
Qed.

(** X6: the value returned, read off the structure the call leaves:
    Poll-Next exactly when samples remain in the burst, calibration mode is
    on or the resolution index has changed; otherwise Update-Thresholds
    exactly when the call reported with the thresholds valid; otherwise
    No-Change. *)
Theorem disposition_of_call (sig : Z) (nl : nvs_light) (s : sample) :
  nvs_light_read sig nl = Ok s ->
  disposition s =
  if negb (report (after s) =? 0) || calibration_en nl
     || nld_i_change (after s)
  then RET_POLL_NEXT
  else if has_report s && thresholds_valid (after s)
       then RET_HW_UPDATE
       else RET_NO_CHANGE.
Proof. apply nvs_light_read_disposition. Qed.

(** ** The resolution index and the active range *)

(** A table is configured, the limits lie inside it and the index lies
    between the limits. *)
Definition index_in_limits (nl : nvs_light) : Prop :=
  table_ok nl /\ nld_i_lo nl <= nld_i nl.

(** The configuration holds the table entry at the current index
    (lines 135-140). *)
Definition range_selected (nl : nvs_light) : Prop :=
  exists e,
    nld_entry nl (nld_i nl) = Ok e /\
    resolution (cfg nl) = nld_resolution e /\
    max_range (cfg nl) = nld_max_range e /\
    milliamp (cfg nl) = nld_milliamp e /\
    delay_us_min (cfg nl) = s32 (u32 (delay_min_ms e * 1000)).

Lemma nld_target_in_limits n i :
  index_in_limits n -> nld_target n = Some i ->
  nld_i_lo n <= i <= nld_i_hi n.
Proof.
  intros [(tbl & Ht & Hlo & Hi & Hlen & Hhi) Hl]. unfold nld_target.
  rewrite Ht.
  destruct (hw_limit_hi n && (nld_i n <? nld_i_hi n)) eqn:U.
  - apply andb_prop in U. destruct U as [_ U]. apply Z.ltb_lt in U.
    intros E. injection E as <-. rewrite u32_small; lia.
  - destruct (hw_limit_lo n && (nld_i n >? nld_i_lo n)) eqn:D;
      [|discriminate].
    apply andb_prop in D. destruct D as [_ D].
    rewrite Z.gtb_ltb in D. apply Z.ltb_lt in D.
    intros E. injection E as <-. rewrite u32_small; lia.
Qed.

Lemma index_in_limits_ranging n m :
  ranging n = ranging m -> index_in_limits m -> index_in_limits n.
Proof.
  unfold ranging, index_in_limits, table_ok. intros E.
  injection E as -> -> -> -> _ _. auto.
Qed.

(** What lines 236-279 hand to lines 280-303, in terms of the structure
    the call was entered with. *)
Lemma reporting_frame sig nl g r n ev :
  lux_reporting sig (before_report nl) g (thresh_delta nl) (thresh_delta nl)
    = Ok (r, n, ev) ->
  nld_tbl n = nld_tbl nl /\ nld_i n = nld_i nl /\
  nld_i_lo n = nld_i_lo nl /\ nld_i_hi n = nld_i_hi nl /\
  cfg n = cfg nl /\ calibration_en n = calibration_en nl /\
  delay_us n = delay_us nl.
Proof.
  intros Hl.
  assert (K : nld_tbl n = nld_tbl (before_report nl) /\
              nld_i n = nld_i (before_report nl) /\
              nld_i_lo n = nld_i_lo (before_report nl) /\
              nld_i_hi n = nld_i_hi (before_report nl) /\
              cfg n = cfg (before_report nl) /\
              calibration_en n = calibration_en (before_report nl) /\
              delay_us n = delay_us (before_report nl)).
  { apply lux_reporting_inv in Hl.
    destruct Hl as [(_ & _ & -> & _)|(_ & l & _ & _ & ->)];
      [repeat split|].
    destruct (burst_done (before_report nl));
      [rewrite new_thresholds_eq|]; repeat split. }
  rewrite before_report_eq in K. exact K.
Qed.

(** X7: a completed call keeps the resolution index inside the table and
    between [nld_i_lo] and [nld_i_hi]. *)
Theorem read_keeps_index_in_limits (sig : Z) (nl : nvs_light) (s : sample) :
  index_in_limits nl ->
  nvs_light_read sig nl = Ok s ->
  index_in_limits (after s).
Proof.
  intros Hi H. apply nvs_light_read_stages in H.
  destruct H as (p & g & r & n & ev & _ & Hl & H).
  destruct (reporting_frame _ _ _ _ _ _ Hl) as (F1 & F2 & F3 & F4 & _).
  assert (Hn : index_in_limits n).
  { unfold index_in_limits, table_ok. rewrite F1, F2, F3, F4. exact Hi. }
  destruct H as [(_ & ->)|(i & e & Ht & _ & ->)]; [exact Hn|].
  pose proof (nld_target_in_limits _ _ Hn Ht) as B.
  destruct Hn as [(tbl & T & Hlo & Hx & Hlen & Hhi) _].
  split; [exists tbl|]; cbn [after]; repeat split; try assumption;
    change (nld_i_lo n <= i) || change (i <= nld_i_hi n)
    || change (0 <= i); lia.
Qed.

(** X8: a completed call leaves the configuration holding the table entry
    at the resolution index: resolution, range, current and minimum delay
    are those of entry [nld_i] after every call once they were before it,
    and after any call that changes the index. *)
Theorem read_keeps_range_selected (sig : Z) (nl : nvs_light) (s : sample) :
  nvs_light_read sig nl = Ok s ->
  range_selected nl \/ nld_i_change (after s) = true ->
  range_selected (after s).
Proof.
  intros H Hs. apply nvs_light_read_stages in H.
  destruct H as (p & g & r & n & ev & _ & Hl & H).
  destruct (reporting_frame _ _ _ _ _ _ Hl) as (F1 & F2 & _ & _ & F5 & _).
  destruct H as [(_ & ->)|(i & e & _ & He & ->)]; cbn [after].
  - destruct Hs as [(e & He & Hc)|Hs]; [|discriminate Hs].
    exists e. split; [|rewrite <- F5 in Hc; exact Hc].
    unfold nld_entry in *.
    match goal with
    | |- context [nld_tbl ?m] => change (nld_tbl m) with (nld_tbl n)
    end.
    match goal with
    | |- context [nld_i ?m] => change (nld_i m) with (nld_i n)
    end.
    rewrite F1, F2. exact He.
  - exists e. split; [|repeat split].
    unfold nld_entry in *.
    match goal with
    | |- context [nld_tbl ?m] => change (nld_tbl m) with (nld_tbl n)
    end.
    match goal with
    | |- context [nld_i ?m] => change (nld_i m) with i
    end.
    exact He.
Qed.

(** X9: the delay the call asks for before the next poll is never below
    the range's minimum: at least [delay_us_min] (there in microseconds,
    here divided by 1000) when the index stays, and [delay_min_ms] of the
    new table entry when it moves. *)
Theorem poll_delay_floor (sig : Z) (nl : nvs_light) (s : sample) :
  nvs_light_read sig nl = Ok s ->
  (nld_i_change (after s) = false ->
   u32 (delay_us_min (cfg nl)) / 1000 <= poll_delay_ms (after s)) /\
  (nld_i_change (after s) = true ->
   exists e, nld_entry (after s) (nld_i (after s)) = Ok e /\
             poll_delay_ms (after s) = delay_min_ms e).
Proof.
  intros H. apply nvs_light_read_stages in H.
  destruct H as (p & g & r & n & ev & _ & Hl & H).
  destruct (reporting_frame _ _ _ _ _ _ Hl) as (_ & _ & _ & _ & F5 & _).
  destruct H as [(_ & ->)|(i & e & _ & He & ->)]; cbn [after].
  - split; [intros _|intros E; discriminate E].
    match goal with
    | |- _ <= poll_delay_ms (set_poll_delay_ms ?x _) =>
        change (u32 (delay_us_min (cfg nl)) / 1000 <= x)
    end.
    apply Z.div_le_mono; [lia|].
    unfold poll_value. rewrite F5.
    destruct ((_ <? _) || _) eqn:C; [lia|].
    apply orb_false_iff in C. destruct C as [C _].
    apply Z.ltb_ge in C. exact C.
  - split; [intros E; discriminate E|intros _].
    exists e. split; [|reflexivity].
    unfold nld_entry in *.
    match goal with
    | |- context [nld_tbl ?m] => change (nld_tbl m) with (nld_tbl n)
    end.
    match goal with
    | |- context [nld_i ?m] => change (nld_i m) with i
    end.
    exact He.
Qed.

(** ** Enabling *)

Lemma nvs_light_enable_top_range (nl0 : nvs_light)
    (tbl : list nvs_light_dynamic) :
  nld_tbl nl0 = Some tbl ->
  0 <= nld_i_lo nl0 <= nld_i_hi nl0 ->
  nld_i_hi nl0 < Z.of_nat (length tbl) -> nld_i_hi nl0 < 2 ^ 32 ->
  exists nl,
    nvs_light_enable nl0 = Ok nl /\
    nld_i nl = nld_i_hi nl0 /\ nld_i_change nl = true /\
    index_in_limits nl /\ range_selected nl /\
    nld_i_lo nl = nld_i_lo nl0 /\ nld_i_hi nl = nld_i_hi nl0.
Proof.
  intros T Hl Hlen Hh.
  destruct (nld_entry_in_table nl0 tbl (nld_i_hi nl0) T) as [e E]; [lia|].
  rewrite nvs_light_enable_eq. cbv zeta. rewrite T, E. cbn [bind].
  eexists. split; [reflexivity|].
  split; [reflexivity|]. split; [reflexivity|]. split; [|split].
  - split; [exists tbl|]; repeat split; cbn; try assumption; lia.
  - exists e. split; [|repeat split]. exact E.
  - split; reflexivity.
Qed.

(** X10: with a resolution table, the limits ordered and [nld_i_hi]
    inside the table, enabling completes and starts on the range at
    [nld_i_hi]: the index is there and between the limits, the
    configuration holds that table entry, and the change is flagged for the
    next call. *)
Theorem enable_selects_top_range (nl0 : nvs_light)
    (tbl : list nvs_light_dynamic) :
  nld_tbl nl0 = Some tbl ->
  0 <= nld_i_lo nl0 <= nld_i_hi nl0 ->
  nld_i_hi nl0 < Z.of_nat (length tbl) -> nld_i_hi nl0 < 2 ^ 32 ->
  exists nl,
    nvs_light_enable nl0 = Ok nl /\
    nld_i nl = nld_i_hi nl0 /\ nld_i_change nl = true /\
    index_in_limits nl /\ range_selected nl.
Proof.
  intros T Hl Hlen Hh.
  destruct (nvs_light_enable_top_range _ _ T Hl Hlen Hh)
    as (nl & H & A & B & C & D & _).
  exists nl. auto.
Qed.

(** X11: enabling twice is enabling once. *)
Theorem enable_idempotent (nl0 nl : nvs_light) :
  nvs_light_enable nl0 = Ok nl -> nvs_light_enable nl = Ok nl.
Proof.
  intros H. rewrite nvs_light_enable_eq in H. cbv zeta in H.
  assert (Hrn : forall x : Z,
            ((if x =? 0 then 1 else x) =? 0) = false).
  { intros x. destruct (x =? 0) eqn:E; [reflexivity|exact E]. }
  destruct (nld_tbl nl0) as [tbl|] eqn:T.
  - destruct (nld_entry nl0 (nld_i_hi nl0)) as [e|] eqn:E; [|discriminate].
    cbn [bind] in H. injection H as <-.
    rewrite nvs_light_enable_eq. cbv zeta.
    revert T E. open_nl nl0. unfold nld_entry, cfg_of_entry. fields.
    intros -> E. rewrite E, Hrn. reflexivity.
  - injection H as <-.
    rewrite nvs_light_enable_eq. cbv zeta.
    revert T. open_nl nl0. fields. intros ->.
    rewrite Hrn. reflexivity.
Qed.

(** X12: what enabling leaves for the first sample: a full burst of
    [report_n] reports with [report_n] at least 1 (0 is replaced by 1),
    no report time, the threshold window empty (low threshold all ones,
    high threshold 0) and calibration mode on exactly when the scale is
    1.0. *)
Theorem enable_opens_burst (nl0 nl : nvs_light) :
  nvs_light_enable nl0 = Ok nl ->
  0 <= report_n (cfg nl0) < 2 ^ 32 ->
  report nl = report_n (cfg nl) /\ 1 <= report_n (cfg nl) /\
  (report_n (cfg nl0) = 0 -> report_n (cfg nl) = 1) /\
  (report_n (cfg nl0) <> 0 -> report_n (cfg nl) = report_n (cfg nl0)) /\
  timestamp_report nl = 0 /\
  hw_thresh_lo nl = 2 ^ 32 - 1 /\ hw_thresh_hi nl = 0 /\
  (calibration_en nl = true <->
   ival (scale (cfg nl0)) = 1 /\ fval (scale (cfg nl0)) = 0).
Proof.
  intros H Hr.
  destruct (nvs_light_enable_state _ _ H Hr) as (R & _ & Tl & Th & Tr & C).
  assert (K : report_n (cfg nl) =
              if report_n (cfg nl0) =? 0 then 1 else report_n (cfg nl0)).
  { rewrite nvs_light_enable_eq in H. cbv zeta in H.
    destruct (nld_tbl nl0).
    - destruct (nld_entry nl0 (nld_i_hi nl0)); [|discriminate].
      injection H as <-. reflexivity.
    - injection H as <-. reflexivity. }
  assert (B : 1 <= report_n (cfg nl) < 2 ^ 32 /\
              (report_n (cfg nl0) = 0 -> report_n (cfg nl) = 1) /\
              (report_n (cfg nl0) <> 0 ->
               report_n (cfg nl) = report_n (cfg nl0))).
  { rewrite K. destruct (report_n (cfg nl0) =? 0) eqn:E.
    - split; [split; reflexivity|]. split; [reflexivity|].
      apply Z.eqb_eq in E. congruence.
    - apply Z.eqb_neq in E. split; [lia|]. split; [congruence|auto]. }
  destruct B as (B1 & B0 & B2).
  rewrite u32_small in R by lia.
  split; [exact R|]. split; [lia|]. split; [exact B0|]. split; [exact B2|].
  split; [exact Tr|]. split; [exact Tl|]. split; [exact Th|].
  rewrite C. split.
  - intros E. apply andb_prop in E. destruct E as [E1 E2].
    split; apply Z.eqb_eq; assumption.
  - intros [E1 E2]. rewrite E1, E2. reflexivity.
Qed.

(** ** Which calls report, and which fail *)

(** The call reaches the reporting block of lines 236-279: the rate limit
    of lines 176-188 lets it through and the countdown is not zero at
    line 236. *)
Definition reporting_call (nl : nvs_light) : Prop :=
  (exists p, rate_limit (calibration_override nl) = Ok (p, true)) /\
  report (before_report nl) <> 0.

Lemma reporting_call_gate nl p g :
  rate_limit (calibration_override nl) = Ok (p, g) ->
  (negb (report (before_report nl) =? 0) && g = true <-> reporting_call nl).
Proof.
  intros Hr. unfold reporting_call. rewrite Hr. split.
  - intros C. apply andb_prop in C. destruct C as [C ->].
    apply negb_true_iff, Z.eqb_neq in C. split; [eauto|exact C].
  - intros [[q E] C]. injection E as _ ->.
    apply Z.eqb_neq in C. rewrite C. reflexivity.
Qed.

(** X13: a completed call hands a value to the handler exactly when it
    passed the rate limit with the countdown not at zero. *)
Theorem reports_iff_reporting_call (sig : Z) (nl : nvs_light) (s : sample) :
  nvs_light_read sig nl = Ok s ->
  (has_report s = true <-> reporting_call nl).
Proof.
  intros H. apply nvs_light_read_stages in H.
  destruct H as (p & g & r & n & ev & Hr & Hl & H).
  apply stages_keep_report_fields in H. destruct H as (_ & _ & _ & E).
  unfold has_report. rewrite E.
  rewrite <- (reporting_call_gate _ _ _ Hr).
  apply lux_reporting_inv in Hl.
  destruct Hl as [(-> & _ & _ & ->)|(-> & l & -> & _)];
    split; congruence.
Qed.

(** X14: the only way a call fails, with the index limits inside the table
    and the scale's fraction an [int]: it divides by zero at line 250, which
    happens exactly when the call reaches the reporting block with
    [resolution.ival] non-zero and [scale.fval] zero.  It never reads
    outside the table. *)
Theorem read_fails_only_on_zero_scale (sig : Z) (nl : nvs_light) :
  nld_tbl nl = None \/ table_ok nl ->
  - 2 ^ 31 <= fval (scale (cfg nl)) < 2 ^ 31 ->
  (forall f, nvs_light_read sig nl = Fault f -> f = DivByZero) /\
  (nvs_light_read sig nl = Fault DivByZero <->
   reporting_call nl /\
   ival (resolution (cfg nl)) <> 0 /\ fval (scale (cfg nl)) = 0).
Proof.
  intros Ht Hs.
  assert (Back : reporting_call nl /\ ival (resolution (cfg nl)) <> 0 /\
                 fval (scale (cfg nl)) = 0 ->
                 nvs_light_read sig nl = Fault DivByZero).
  { intros ([[p Hr] Hn] & Hi & Hf).
    exact (reporting_call_faults sig nl p Hr Hn Hi Hf). }
  assert (Fwd : forall f, nvs_light_read sig nl = Fault f ->
                reporting_call nl /\ ival (resolution (cfg nl)) <> 0 /\
                fval (scale (cfg nl)) = 0).
  { intros f H.
    assert (Hz : ival (resolution (cfg nl)) <> 0 /\
                 fval (scale (cfg nl)) = 0).
    { destruct (Z.eq_dec (ival (resolution (cfg nl))) 0) as [E|E].
      - destruct (nvs_light_read_completes sig nl) as [s Hs'];
          [split; [left; exact E|exact Hs]|exact Ht|congruence].
      - destruct (Z.eq_dec (fval (scale (cfg nl))) 0) as [E'|E'];
          [split; assumption|].
        destruct (nvs_light_read_completes sig nl) as [s Hs'];
          [split; [right; exact E'|exact Hs]|exact Ht|congruence]. }
    split; [|exact Hz].
    rewrite nvs_light_read_eq in H.
    destruct (rate_limit_total (calibration_override nl)) as (p & g & Hr).
    rewrite Hr in H. cbn [bind] in H.
    apply (reporting_call_gate _ _ _ Hr).
    destruct (negb (report (before_report nl) =? 0) && g) eqn:C;
      [reflexivity|exfalso].
    rewrite (lux_reporting_skip sig _ _ _ _ C) in H. cbn [bind] in H.
    destruct (finish_total (before_report nl) RET_NO_CHANGE p g None)
      as (s & Hs' & _); [|congruence].
    destruct (before_report_ranging nl) as (B1 & B2 & B3 & B4).
    unfold table_ok. rewrite B1, B2, B3, B4. exact Ht. }
  split.
  - intros f H. rewrite (Back (Fwd f H)) in H. congruence.
  - split; [apply Fwd|apply Back].
Qed.

(** X15: the first sample after enabling is always reported, with the
    timestamp the driver gave it, whenever the lux division is defined. *)
Theorem first_sample_after_enable_is_reported
    (sig : Z) (nl0 nl : nvs_light) (h t : Z) :
  nvs_light_enable nl0 = Ok nl ->
  0 <= report_n (cfg nl0) < 2 ^ 32 ->
  lux_defined nl -> nld_tbl nl = None \/ table_ok nl ->
  exists s l,
    nvs_light_read sig (driver_sample h t nl) = Ok s /\
    reported s = Some (l, t) /\ lux (after s) = l /\
    timestamp_report (after s) = t.
Proof.
  intros He Hr Hd Ht.
  destruct (first_read_reports sig nl0 nl h t He Hr Hd Ht) as (s & l & H & E).
  exists s, l. split; [exact H|]. split; [exact E|].
  destruct (nvs_light_read_report_fields _ _ _ H) as [_ K].
  destruct (K _ _ E) as (_ & K1 & K2). split; [exact K1|exact K2].
Qed.

(** X16: in calibration mode every sample is reported, whatever the
    thresholds, the countdown and the time since the last report, provided
    the lux division is defined ([resolution.ival] zero or [scale.fval]
    not zero), [report_n] is not zero and the index limits lie inside the
    table; the call returns Poll-Next and, unless the index changes, asks
    for the minimum delay. *)
Theorem calibration_mode_reports_every_sample (sig : Z) (nl : nvs_light) :
  calibration_en nl = true -> u32 (report_n (cfg nl)) <> 0 ->
  lux_defined nl -> nld_tbl nl = None \/ table_ok nl ->
  exists s l,
    nvs_light_read sig nl = Ok s /\
    reported s = Some (l, timestamp nl) /\
    disposition s = RET_POLL_NEXT /\
    (nld_i_change (after s) = false ->
     poll_delay_ms (after s) = u32 (delay_us_min (cfg nl)) / 1000).
Proof. exact (calibration_call_reports sig nl). Qed.

(** ** The countdown, the flags and the thresholds *)

(** X17: the countdown never leaves the range 0 .. [report_n], and a call
    that reports leaves it below [report_n]. *)
Theorem countdown_within_report_n (sig : Z) (nl : nvs_light) (s : sample) :
  nvs_light_read sig nl = Ok s ->
  0 <= report nl <= u32 (report_n (cfg nl)) ->
  0 <= report (after s) <= u32 (report_n (cfg nl)) /\
  (has_report s = true -> report (after s) < u32 (report_n (cfg nl))).
Proof.
  intros H Hr. apply nvs_light_read_stages in H.
  destruct H as (p & g & r & n & ev & _ & Hl & H).
  apply stages_keep_report_fields in H. destruct H as (_ & -> & _ & E).
  unfold has_report. rewrite E.
  pose proof (u32_range (report_n (cfg nl))) as Hu.
  assert (B : 0 <= report (before_report nl) <= u32 (report_n (cfg nl))).
  { rewrite before_report_eq. cbv zeta.
    match goal with
    | |- _ <= report (set_report ?x _) <= _ =>
        change (report (set_report x _)) with x
    end.
    destruct (_ || _); [lia|]. destruct (calibration_en nl); lia. }
  apply lux_reporting_inv in Hl.
  destruct Hl as [(_ & _ & -> & ->)|(C & l & -> & _ & ->)].
  - split; [exact B|discriminate].
  - apply andb_prop in C. destruct C as [C _].
    apply negb_true_iff, Z.eqb_neq in C.
    assert (K : report (if burst_done (before_report nl)
                        then new_thresholds
                               (reported_state l (before_report nl))
                               (thresh_delta nl) (thresh_delta nl)
                        else reported_state l (before_report nl))
                = report (before_report nl) - 1).
    { transitivity (u32 (report (before_report nl) - 1));
        [|apply u32_small; lia].
      destruct (burst_done _); [rewrite new_thresholds_eq|]; reflexivity. }
    rewrite K. split; [lia|intros _; lia].
Qed.

(** X18: after a completed call [thresh_valid_lo] says whether
    [cfg->thresh_lo] is below [hw_mask], and [thresholds_valid] is the
    conjunction of the two threshold flags. *)
Theorem threshold_flags_after_read (sig : Z) (nl : nvs_light) (s : sample) :
  nvs_light_read sig nl = Ok s ->
  (thresh_valid_lo (after s) = true <->
   u32 (thresh_lo (cfg nl)) < hw_mask nl) /\
  thresholds_valid (after s) =
  thresh_valid_lo (after s) && thresh_valid_hi (after s).
Proof.
  intros H.
  destruct (threshold_flags_after_call sig _ _ H) as (-> & -> & ->).
  split; [apply Z.ltb_lt|]. destruct (thresh_valid nl); reflexivity.
Qed.

(** X19: a sample at [hw_mask] is flagged as saturated high and a sample
    of 0 as saturated low, whatever the thresholds. *)
Theorem saturated_samples_are_flagged (sig : Z) (nl : nvs_light) (s : sample) :
  nvs_light_read sig nl = Ok s ->
  (hw nl = hw_mask nl -> hw_limit_hi (after s) = true) /\
  (hw nl = 0 -> hw_limit_lo (after s) = true).
Proof. apply saturated_samples_set_limit_flags. Qed.

(** ** The threshold window *)

Lemma has_report_reported s : has_report s = true -> reported s <> None.
Proof. unfold has_report. destruct (reported s); congruence. Qed.

(** What the structure holds when the call did not return Poll-Next. *)
Lemma settled_call sig nl s :
  nvs_light_read sig nl = Ok s -> disposition s <> RET_POLL_NEXT ->
  report (after s) = 0 /\ calibration_en nl = false /\
  nld_i_change (after s) = false /\
  (disposition s = RET_HW_UPDATE ->
   has_report s = true /\ thresholds_valid (after s) = true).
Proof.
  intros H Hd. rewrite (nvs_light_read_disposition _ _ _ H) in *.
  destruct (report (after s) =? 0) eqn:R; [|elim Hd; reflexivity].
  destruct (calibration_en nl); [elim Hd; reflexivity|].
  destruct (nld_i_change (after s)); [elim Hd; reflexivity|].
  apply Z.eqb_eq in R. repeat split; try assumption;
    cbn [negb orb] in *;
    destruct (has_report s); destruct (thresholds_valid (after s));
    try reflexivity; cbn [andb] in *; discriminate.
Qed.

Lemma index_stays sig nl s :
  nvs_light_read sig nl = Ok s -> nld_i_change (after s) = false ->
  nld_i (after s) = nld_i nl.
Proof.
  intros H Hi. apply nvs_light_read_stages in H.
  destruct H as (p & g & r & n & ev & _ & Hl & H).
  destruct (reporting_frame _ _ _ _ _ _ Hl) as (_ & F2 & _).
  destruct H as [(_ & ->)|(i & e & _ & _ & ->)]; [exact F2|discriminate Hi].
Qed.

(** X20: when the call returns Update-Thresholds, the window it has
    programmed holds the sample it was computed from and lies within
    0 .. [hw_mask]. *)
Theorem new_window_holds_sample (sig : Z) (nl : nvs_light) (s : sample) :
  nvs_light_read sig nl = Ok s ->
  disposition s = RET_HW_UPDATE ->
  0 <= hw nl <= hw_mask nl -> hw_mask nl < 2 ^ 32 ->
  hw nl + u32 (thresh_lo (cfg nl)) < 2 ^ 32 ->
  0 <= hw_thresh_lo (after s) <= hw nl /\
  hw nl <= hw_thresh_hi (after s) <= hw_mask nl.
Proof.
  intros H Hd Hh Hm Hw.
  assert (Hp : disposition s <> RET_POLL_NEXT)
    by (rewrite Hd; discriminate).
  destruct (settled_call _ _ _ H Hp) as (R & _ & _ & K).
  destruct (K Hd) as [Hr Hv]. apply has_report_reported in Hr.
  destruct (thresholds_after_burst sig nl s H Hr Hv R) as [-> ->];
    [lia|lia|].
  pose proof (u32_range (thresh_lo (cfg nl))) as Hu.
  rewrite (u32_small (hw nl + _)) by lia.
  split; [lia|]. destruct (_ >? _) eqn:E; [lia|].
  rewrite Z.gtb_ltb in E. apply Z.ltb_ge in E. lia.
Qed.

(** X21: once a call has returned other than Poll-Next with the
    thresholds valid, the next sample inside the threshold window is not
    reported: the call leaves [lux] and the window alone and, unless it
    changes the resolution index, returns No-Change. *)
Theorem sample_inside_window_is_quiet
    (sig : Z) (nl : nvs_light) (s : sample) (h t : Z) :
  nvs_light_read sig nl = Ok s ->
  disposition s <> RET_POLL_NEXT -> thresholds_valid (after s) = true ->
  nld_tbl nl = None \/ table_ok nl ->
  hw_thresh_lo (after s) <= h <= hw_thresh_hi (after s) ->
  exists s',
    nvs_light_read sig (driver_sample h t (after s)) = Ok s' /\
    reported s' = None /\ lux (after s') = lux (after s) /\
    hw_thresh_lo (after s') = hw_thresh_lo (after s) /\
    hw_thresh_hi (after s') = hw_thresh_hi (after s) /\
    (nld_i_change (after s') = false -> disposition s' = RET_NO_CHANGE).
Proof.
  intros H Hp Hv Ht Hwin.
  destruct (settled_call _ _ _ H Hp) as (R & Hc & Hi & _).
  destruct (threshold_flags_after_call sig _ _ H) as (_ & _ & V).
  pose proof (nvs_light_read_driver_fields _ _ _ H) as D.
  unfold driver_fields in D.
  injection D as _ _ Dm _ Dlo Dhi Dt Dc _ _ _ _ _ Dth _ _.
  set (m := driver_sample h t (after s)).
  assert (Mc : calibration_en m = false)
    by (change (calibration_en (after s) = false); congruence).
  assert (Mv : thresh_valid m = true).
  { unfold thresh_valid.
    change (cfg m) with (cfg (after s)).
    change (hw_mask m) with (hw_mask (after s)).
    rewrite Dth, Dm. fold (thresh_valid nl). congruence. }
  assert (Mr : report (before_report m) = 0).
  { rewrite (before_report_report_steady m Mc Hi Mv Hwin). exact R. }
  assert (Mt : nld_tbl (before_report m) = None \/
               table_ok (before_report m)).
  { destruct (before_report_ranging m) as (B1 & B2 & B3 & B4).
    unfold table_ok. rewrite B1, B2, B3, B4.
    change (nld_tbl m) with (nld_tbl (after s)).
    change (nld_i_lo m) with (nld_i_lo (after s)).
    change (nld_i_hi m) with (nld_i_hi (after s)).
    change (nld_i m) with (nld_i (after s)).
    rewrite Dt, Dlo, Dhi.
    destruct Ht as [Ht|Ht]; [left; exact Ht|right].
    rewrite (index_stays _ _ _ H Hi). exact Ht. }
  destruct (rate_limit_total (calibration_override m)) as (p & g & Hr).
  assert (Hs : negb (report (before_report m) =? 0) && g = false)
    by (rewrite Mr; reflexivity).
  destruct (finish_total (before_report m) RET_NO_CHANGE p g None Mt)
    as (s' & Hs' & He).
  assert (H' : nvs_light_read sig m = Ok s').
  { rewrite nvs_light_read_eq, Hr. cbn [bind].
    rewrite (lux_reporting_skip sig _ _ _ _ Hs). exact Hs'. }
  exists s'. split; [exact H'|]. split; [exact He|].
  destruct (nvs_light_read_report_fields _ _ _ H') as [K _].
  destruct (K He) as (K1 & K2 & K3 & K4).
  split; [exact K1|]. split; [exact K3|]. split; [exact K4|].
  intros Hi'. rewrite (nvs_light_read_disposition _ _ _ H').
  rewrite Mc, Hi'. unfold has_report. rewrite He.
  apply finish_inv in Hs'.
  destruct Hs' as [(_ & E)|(i & e & _ & _ & E)]; rewrite E in *;
    [|discriminate Hi'].
  cbn [after].
  match goal with
  | |- context [report ?x =? 0] =>
      change (report x) with (report (before_report m))
  end.
  rewrite Mr. reflexivity.
Qed.

(** ** The reported value *)




(** * The index limits from the device tree *)

Definition set_nld_i_lo (v : Z) (nl : nvs_light) : nvs_light :=
  {| timestamp := timestamp nl; timestamp_report := timestamp_report nl;
     lux := lux nl; hw := hw nl; hw_mask := hw_mask nl;
     hw_thresh_lo := hw_thresh_lo nl; hw_thresh_hi := hw_thresh_hi nl;
     hw_limit_lo := hw_limit_lo nl; hw_limit_hi := hw_limit_hi nl;
     thresh_valid_lo := thresh_valid_lo nl;
     thresh_valid_hi := thresh_valid_hi nl;
     thresholds_valid := thresholds_valid nl;
     nld_i_change := nld_i_change nl; calibration_en := calibration_en nl;
     poll_delay_ms := poll_delay_ms nl; delay_us := delay_us nl;
     report := report nl; nld_i := nld_i nl; nld_i_lo := v;
     nld_i_hi := nld_i_hi nl; nld_tbl := nld_tbl nl; cfg := cfg nl |}.

Definition set_nld_i_hi (v : Z) (nl : nvs_light) : nvs_light :=
  {| timestamp := timestamp nl; timestamp_report := timestamp_report nl;
     lux := lux nl; hw := hw nl; hw_mask := hw_mask nl;
     hw_thresh_lo := hw_thresh_lo nl; hw_thresh_hi := hw_thresh_hi nl;
     hw_limit_lo := hw_limit_lo nl; hw_limit_hi := hw_limit_hi nl;
     thresh_valid_lo := thresh_valid_lo nl;
     thresh_valid_hi := thresh_valid_hi nl;
     thresholds_valid := thresholds_valid nl;
     nld_i_change := nld_i_change nl; calibration_en := calibration_en nl;
     poll_delay_ms := poll_delay_ms nl; delay_us := delay_us nl;
     report := report nl; nld_i := nld_i nl; nld_i_lo := nld_i_lo nl;
     nld_i_hi := v; nld_tbl := nld_tbl nl; cfg := cfg nl |}.

(** [sprintf(str, "%s<suffix>", dev_name)] into [char str[256]]: the
    number of characters written and the text, or nothing when the text and
    its terminator do not fit the buffer. *)
Definition sprintf_str (dev_name suffix : String.string)
    : option (Z * String.string) :=
  let str := String.append dev_name suffix in
  if Z.of_nat (String.length str) <? 256
  then Some (Z.of_nat (String.length str), str)
  else None.

(** The value an [unsigned int] field holds after a call that was handed
    its address. *)
Definition stored (out : option Z) (old : Z) : Z :=
  match out with
  | Some v => u32 v
  | None => old
  end.

Section DeviceTree.

Import String.StringSyntax.
Local Open Scope string_scope.

(** The device tree is outside nvs_light.c: the node type, the reader
    [of_property_read_u32] (its return value and the value it stores
    through the pointer, if it stores one) and the constants [EINVAL] and
    [NVS_LIGHT_STRING] are parameters. *)
Variable device_node : Type.
Variable of_property_read_u32 :
  device_node -> String.string -> Z * option Z.
Variable EINVAL : Z.
Variable NVS_LIGHT_STRING : String.string.

(** [nvs_light_of_dt(nl, np, dev_name)], lines 346-368: the value
    returned and the structure; [None] for a NULL pointer argument, and
    for the result when [sprintf] overruns [str]. *)
Definition nvs_light_of_dt (nl : nvs_light) (np : option device_node)
    (dev_name : option String.string) : option (Z * nvs_light) :=
  let ret_t := - EINVAL in
  match np with
  | None => Some (- EINVAL, nl)
  | Some np =>
      let dev_name :=
        match dev_name with
        | None => NVS_LIGHT_STRING
        | Some d => d
        end in
      match sprintf_str dev_name "_dynamic_resolution_index_limit_low" with
      | None => None
      | Some (ret, str) =>
          let '(ret_t, nl) :=
            if ret >? 0
            then let '(r, out) := of_property_read_u32 np str in
                 (r, set_nld_i_lo (stored out (nld_i_lo nl)) nl)
            else (ret_t, nl) in
          match sprintf_str dev_name
                  "_dynamic_resolution_index_limit_high" with
          | None => None
          | Some (ret, str) =>
              let '(ret_t, nl) :=
                if ret >? 0
                then let '(r, out) := of_property_read_u32 np str in
                     (Z.lor ret_t r,
                      set_nld_i_hi (stored out (nld_i_hi nl)) nl)
                else (ret_t, nl) in
              if nld_i_hi nl <? nld_i_lo nl
              then Some (- EINVAL, nl)
              else Some (ret_t, nl)
          end
      end
  end.

(** The device name the property names are built from (lines 356-357). *)
Definition dt_name (dev_name : option String.string) : String.string :=
  match dev_name with
  | None => NVS_LIGHT_STRING
  | Some d => d
  end.

Definition dt_name_low (dev_name : option String.string) : String.string :=
  String.append (dt_name dev_name) "_dynamic_resolution_index_limit_low".

Definition dt_name_high (dev_name : option String.string) : String.string :=
  String.append (dt_name dev_name) "_dynamic_resolution_index_limit_high".

Lemma string_length_append (a b : String.string) :
  String.length (String.append a b)
  = (String.length a + String.length b)%nat.
Proof.
  induction a as [|c a IH]; [reflexivity|].
  cbn [String.append String.length]. rewrite IH. reflexivity.
Qed.

Lemma sprintf_str_fits (d suffix : String.string) :
  Z.of_nat (String.length d) + Z.of_nat (String.length suffix) < 256 ->
  sprintf_str d suffix =
  Some (Z.of_nat (String.length d) + Z.of_nat (String.length suffix),
        String.append d suffix).
Proof.
  intros H. unfold sprintf_str. rewrite string_length_append, Nat2Z.inj_add.
  apply Z.ltb_lt in H. rewrite H. reflexivity.
Qed.

Lemma sprintf_str_overrun (d suffix : String.string) :
  256 <= Z.of_nat (String.length d) + Z.of_nat (String.length suffix) ->
  sprintf_str d suffix = None.
Proof.
  intros H. unfold sprintf_str. rewrite string_length_append, Nat2Z.inj_add.
  apply Z.ltb_ge in H. rewrite H. reflexivity.
Qed.

(** Lines 358-367 with a node and a name that fits the buffer. *)
Lemma nvs_light_of_dt_eq nl n dev :
  (String.length (dt_name dev) <= 219)%nat ->
  nvs_light_of_dt nl (Some n) dev =
  Some (let lo := stored (snd (of_property_read_u32 n (dt_name_low dev)))
                    (nld_i_lo nl) in
        let hi := stored (snd (of_property_read_u32 n (dt_name_high dev)))
                    (nld_i_hi nl) in
        (if hi <? lo then - EINVAL
         else Z.lor (fst (of_property_read_u32 n (dt_name_low dev)))
                    (fst (of_property_read_u32 n (dt_name_high dev))),
         set_nld_i_hi hi (set_nld_i_lo lo nl))).
Proof.
  intros Hl. unfold nvs_light_of_dt. fold (dt_name dev).
  rewrite (sprintf_str_fits _ "_dynamic_resolution_index_limit_low")
    by (change (String.length "_dynamic_resolution_index_limit_low")
          with 35%nat; lia).
  rewrite (sprintf_str_fits _ "_dynamic_resolution_index_limit_high")
    by (change (String.length "_dynamic_resolution_index_limit_high")
          with 36%nat; lia).
  fold (dt_name_low dev). fold (dt_name_high dev).
  assert (P1 : (Z.of_nat (String.length (dt_name dev)) + Z.of_nat
                 (String.length "_dynamic_resolution_index_limit_low") >? 0)
               = true).
  { rewrite Z.gtb_ltb. apply Z.ltb_lt.
    change (String.length "_dynamic_resolution_index_limit_low")
      with 35%nat. lia. }
  assert (P2 : (Z.of_nat (String.length (dt_name dev)) + Z.of_nat
                 (String.length "_dynamic_resolution_index_limit_high") >? 0)
               = true).
  { rewrite Z.gtb_ltb. apply Z.ltb_lt.
    change (String.length "_dynamic_resolution_index_limit_high")
      with 36%nat. lia. }
  rewrite P1, P2.
  destruct (of_property_read_u32 n (dt_name_low dev)) as [r1 o1].
  destruct (of_property_read_u32 n (dt_name_high dev)) as [r2 o2].
  cbn [fst snd]. cbv zeta.
  change (nld_i_hi (set_nld_i_lo (stored o1 (nld_i_lo nl)) nl))
    with (nld_i_hi nl).
  set (lo := stored o1 (nld_i_lo nl)). set (hi := stored o2 (nld_i_hi nl)).
  change (nld_i_hi (set_nld_i_hi hi (set_nld_i_lo lo nl))) with hi.
  change (nld_i_lo (set_nld_i_hi hi (set_nld_i_lo lo nl))) with lo.
  destruct (hi <? lo); reflexivity.
Qed.

Lemma of_dt_defined (nl : nvs_light) (n : device_node)
    (dev : option String.string) :
  nvs_light_of_dt nl (Some n) dev <> None <->
  (String.length (dt_name dev) <= 219)%nat.
Proof.
  split.
  - intros H.
    destruct (Nat.le_gt_cases (String.length (dt_name dev)) 219)
      as [L|L]; [exact L|].
    elim H. unfold nvs_light_of_dt. fold (dt_name dev).
    destruct (sprintf_str (dt_name dev) "_dynamic_resolution_index_limit_low")
      as [[r str]|]; [|reflexivity].
    rewrite (sprintf_str_overrun _ "_dynamic_resolution_index_limit_high")
      by (change (String.length "_dynamic_resolution_index_limit_high")
            with 36%nat; lia).
    destruct (r >? 0); [destruct (of_property_read_u32 n str)|]; reflexivity.
  - intros L. rewrite (nvs_light_of_dt_eq _ _ _ L). discriminate.
Qed.

(** X23: with a node, the call is defined exactly when the device name
    has at most 219 characters, so that the longer property name and its
    terminator fit [str]; without a node it returns -EINVAL and leaves the
    structure alone, whatever the name. *)
Theorem of_dt_fits_buffer (nl : nvs_light) (n : device_node)
    (dev : option String.string) :
  (nvs_light_of_dt nl (Some n) dev <> None <->
   (String.length (dt_name dev) <= 219)%nat) /\
  nvs_light_of_dt nl None dev = Some (- EINVAL, nl).
Proof. split; [apply of_dt_defined|reflexivity]. Qed.

Lemma nvs_light_of_dt_inv nl np dev ret nl' :
  nvs_light_of_dt nl np dev = Some (ret, nl') ->
  (np = None /\ ret = - EINVAL /\ nl' = nl) \/
  (exists n,
     np = Some n /\
     let lo := stored (snd (of_property_read_u32 n (dt_name_low dev)))
                 (nld_i_lo nl) in
     let hi := stored (snd (of_property_read_u32 n (dt_name_high dev)))
                 (nld_i_hi nl) in
     ret = (if hi <? lo then - EINVAL
            else Z.lor (fst (of_property_read_u32 n (dt_name_low dev)))
                       (fst (of_property_read_u32 n (dt_name_high dev)))) /\
     nl' = set_nld_i_hi hi (set_nld_i_lo lo nl)).
Proof.
  intros H. destruct np as [n|].
  - right. exists n. split; [reflexivity|].
    destruct (Nat.le_gt_cases (String.length (dt_name dev)) 219) as [L|L].
    + rewrite (nvs_light_of_dt_eq _ _ _ L) in H. cbv zeta in *.
      injection H as <- <-. split; reflexivity.
    + exfalso.
      assert (D : nvs_light_of_dt nl (Some n) dev <> None) by congruence.
      apply (of_dt_defined nl n dev) in D. lia.
  - left. injection H as <- <-. repeat split.
Qed.

(** X24: the call returns 0 exactly when there is a node, both reads
    returned 0 and the low limit it leaves is not above the high limit. *)
Theorem of_dt_success (nl nl' : nvs_light) (np : option device_node)
    (dev : option String.string) (ret : Z) :
  EINVAL <> 0 ->
  nvs_light_of_dt nl np dev = Some (ret, nl') ->
  (ret = 0 <->
   exists n,
     np = Some n /\
     fst (of_property_read_u32 n (dt_name_low dev)) = 0 /\
     fst (of_property_read_u32 n (dt_name_high dev)) = 0 /\
     nld_i_lo nl' <= nld_i_hi nl').
Proof.
  intros He H. apply nvs_light_of_dt_inv in H.
  destruct H as [(-> & -> & ->)|(n & -> & H)].
  - split; [lia|]. intros (n & E & _). discriminate E.
  - cbv zeta in H. destruct H as [-> ->].
    set (lo := stored _ (nld_i_lo nl)). set (hi := stored _ (nld_i_hi nl)).
    change (nld_i_lo (set_nld_i_hi hi (set_nld_i_lo lo nl))) with lo.
    change (nld_i_hi (set_nld_i_hi hi (set_nld_i_lo lo nl))) with hi.
    destruct (hi <? lo) eqn:C.
    + apply Z.ltb_lt in C. split; [lia|].
      intros (m & _ & _ & _ & K). lia.
    + apply Z.ltb_ge in C. rewrite Z.lor_eq_0_iff. split.
      * intros [E1 E2]. exists n. auto.
      * intros (m & E & E1 & E2 & _). injection E as <-. auto.
Qed.

(** X25: the call writes nothing but [nld_i_lo] and [nld_i_hi], and it
    writes them whatever it returns: each holds the value its read stored,
    or its old value when the read stored none. *)
Theorem of_dt_writes_the_limits (nl nl' : nvs_light)
    (np : option device_node) (dev : option String.string) (ret : Z) :
  nvs_light_of_dt nl np dev = Some (ret, nl') ->
  set_nld_i_hi (nld_i_hi nl) (set_nld_i_lo (nld_i_lo nl) nl') = nl /\
  (forall n, np = Some n ->
   nld_i_lo nl' =
   stored (snd (of_property_read_u32 n (dt_name_low dev))) (nld_i_lo nl) /\
   nld_i_hi nl' =
   stored (snd (of_property_read_u32 n (dt_name_high dev))) (nld_i_hi nl)).
Proof.
  intros H. apply nvs_light_of_dt_inv in H.
  destruct H as [(-> & -> & ->)|(n & -> & H)].
  - split; [open_nl nl; reflexivity|]. intros n E. discriminate E.
  - cbv zeta in H. destruct H as [_ ->]. split.
    + open_nl nl. reflexivity.
    + intros m E. injection E as <-. split; reflexivity.
Qed.

(** X26: with a reader that returns 0 or a negative error code, so does
    the call. *)
Theorem of_dt_returns_zero_or_negative (nl nl' : nvs_light)
    (np : option device_node) (dev : option String.string) (ret : Z) :
  0 < EINVAL ->
  (forall n name, fst (of_property_read_u32 n name) <= 0) ->
  nvs_light_of_dt nl np dev = Some (ret, nl') ->
  ret <= 0.
Proof.
  intros He Hr H. apply nvs_light_of_dt_inv in H.
  destruct H as [(-> & -> & ->)|(n & -> & H)]; [lia|].
  cbv zeta in H. destruct H as [-> _].
  destruct (_ <? _); [lia|].
  pose proof (Hr n (dt_name_low dev)) as H1.
  pose proof (Hr n (dt_name_high dev)) as H2.
  destruct (Z.eq_dec (fst (of_property_read_u32 n (dt_name_low dev))) 0)
    as [E1|E1].
  - rewrite E1, Z.lor_0_l. exact H2.
  - apply Z.lt_le_incl. apply Z.lor_neg. left. lia.
Qed.

(** X27: limits read from the device tree carry through enabling: after
    a successful [nvs_light_of_dt] whose reads stored both limits, with the
    high limit inside the resolution table, enabling completes and starts
    at the high limit read, with the index between the limits read and the
    configuration holding that range. *)
Theorem device_tree_limits_reach_enable (nl nl1 : nvs_light)
    (n : device_node) (dev : option String.string) (v_lo v_hi : Z)
    (tbl : list nvs_light_dynamic) :
  EINVAL <> 0 ->
  nvs_light_of_dt nl (Some n) dev = Some (0, nl1) ->
  snd (of_property_read_u32 n (dt_name_low dev)) = Some v_lo ->
  snd (of_property_read_u32 n (dt_name_high dev)) = Some v_hi ->
  nld_tbl nl = Some tbl -> u32 v_hi < Z.of_nat (length tbl) ->
  exists nl2,
    nvs_light_enable nl1 = Ok nl2 /\
    nld_i_lo nl2 = u32 v_lo /\ nld_i_hi nl2 = u32 v_hi /\
    nld_i nl2 = u32 v_hi /\ index_in_limits nl2 /\ range_selected nl2.
Proof.
  intros He H Hlo Hhi Ht Hlen. apply nvs_light_of_dt_inv in H.
  destruct H as [(E & _)|(m & E & H)]; [discriminate E|].
  injection E as <-. rewrite Hlo, Hhi in H. cbn [stored] in H.
  cbv zeta in H. destruct H as [Hr ->].
  destruct (u32 v_hi <? u32 v_lo) eqn:C; [lia|]. apply Z.ltb_ge in C.
  pose proof (u32_range v_lo) as Rl. pose proof (u32_range v_hi) as Rh.
  destruct (nvs_light_enable_top_range
              (set_nld_i_hi (u32 v_hi) (set_nld_i_lo (u32 v_lo) nl)) tbl)
    as (nl2 & Hen & A & _ & B & D & F & G).
  - exact Ht.
  - change (0 <= u32 v_lo <= u32 v_hi). lia.
  - exact Hlen.
  - change (u32 v_hi < 2 ^ 32). lia.
  - exists nl2. split; [exact Hen|]. rewrite F, G, A.
    split; [reflexivity|]. split; [reflexivity|].
    split; [reflexivity|]. split; assumption.
Qed.

End DeviceTree.

(** * The further properties on concrete inputs *)

(** The call on a closed input, named for the hypotheses that speak of its
    result. *)
Tactic Notation "on_run" ident(s) ident(H) :=
  match goal with
  | |- exists _, nvs_light_read ?sig ?nl = Ok _ /\ _ =>
      destruct (nvs_light_read sig nl) as [s|] eqn:H;
      [exists s; split; [reflexivity|]
      |vm_compute in H; discriminate H]
  end.

(** The result of the call named by [on_run], computed. *)
Ltac run_value H :=
  let K := fresh in
  pose proof H as K; vm_compute in K; injection K as <-.

Lemma interpolate_between_points_witness :
  exists y2,
    nvs_light_interpolate 100 150 200 1000 3000 = Ok y2 /\
    y2 = 1000 + (150 - 100) * (3000 - 1000) / (200 - 100) /\
    1000 <= y2 <= 3000.
Proof. apply interpolate_between_points; lia. Defined.

Lemma interpolate_hits_calibration_points_witness :
  nvs_light_interpolate 100 100 200 1000 3000 = Ok 1000 /\
  nvs_light_interpolate 100 200 200 1000 3000 = Ok 3000.
Proof. apply interpolate_hits_calibration_points; lia. Defined.

Lemma interpolate_monotone_witness :
  exists y2 y2',
    nvs_light_interpolate 100 150 200 1000 3000 = Ok y2 /\
    nvs_light_interpolate 100 250 200 1000 3000 = Ok y2' /\
    y2 <= y2'.
Proof. apply interpolate_monotone; try lia; reflexivity. Defined.

Lemma nvs_light_read_keeps_driver_fields_witness :
  exists s,
    nvs_light_read significance thresholds_input = Ok s /\
    timestamp (after s) = timestamp thresholds_input.
Proof.
  on_run s H.
  exact (proj1 (nvs_light_read_keeps_driver_fields _ _ _ H)).
Defined.


Lemma disposition_of_call_witness :
  exists s,
    nvs_light_read significance thresholds_input = Ok s /\
    disposition s =
    if negb (report (after s) =? 0) || calibration_en thresholds_input
       || nld_i_change (after s)
    then RET_POLL_NEXT
    else if has_report s && thresholds_valid (after s)
         then RET_HW_UPDATE
         else RET_NO_CHANGE.
Proof. on_run s H. exact (disposition_of_call _ _ _ H). Defined.

Lemma read_keeps_index_in_limits_witness :
  exists s,
    nvs_light_read significance saturated = Ok s /\
    index_in_limits (after s).
Proof.
  on_run s H. apply (read_keeps_index_in_limits _ _ _) with (2 := H).
  split; [exists ranges; evaluated|evaluated].
Defined.

Lemma read_keeps_range_selected_witness :
  exists s,
    nvs_light_read significance saturated = Ok s /\
    range_selected (after s).
Proof.
  on_run s H. apply (read_keeps_range_selected _ _ _ H).
  right. run_value H. reflexivity.
Defined.

Lemma poll_delay_floor_witness :
  exists s,
    nvs_light_read significance thresholds_input = Ok s /\
    (nld_i_change (after s) = false ->
     u32 (delay_us_min (cfg thresholds_input)) / 1000
     <= poll_delay_ms (after s)).
Proof. on_run s H. exact (proj1 (poll_delay_floor _ _ _ H)). Defined.

(** A device with the three-range table, the limits 0 and 2. *)
Definition ranged_device : nvs_light :=
  device 1000 10000 (Some ranges) 0 2
    (sensor (fixed 0 40000) (fixed 0 10000) 5 10 0 200000).

(** [nvs_light_enable] on a closed input. *)
Tactic Notation "on_enable" ident(nl) ident(H) :=
  match goal with
  | |- exists _, nvs_light_enable ?nl0 = Ok _ /\ _ =>
      destruct (nvs_light_enable nl0) as [nl|] eqn:H;
      [exists nl; split; [reflexivity|]
      |vm_compute in H; discriminate H]
  end.

Lemma enable_selects_top_range_witness :
  exists nl,
    nvs_light_enable ranged_device = Ok nl /\
    nld_i nl = nld_i_hi ranged_device /\ nld_i_change nl = true /\
    index_in_limits nl /\ range_selected nl.
Proof.
  apply (enable_selects_top_range ranged_device ranges); evaluated.
Defined.

Lemma enable_idempotent_witness :
  exists nl,
    nvs_light_enable ranged_device = Ok nl /\
    nvs_light_enable nl = Ok nl.
Proof. on_enable nl H. exact (enable_idempotent _ _ H). Defined.

Lemma enable_opens_burst_witness :
  exists nl,
    nvs_light_enable ranged_device = Ok nl /\
    report nl = report_n (cfg nl) /\ 1 <= report_n (cfg nl).
Proof.
  on_enable nl H.
  assert (R : 0 <= report_n (cfg ranged_device) < 2 ^ 32) by evaluated.
  destruct (enable_opens_burst _ _ H R) as (A & B & _).
  split; assumption.
Defined.

Lemma reports_iff_reporting_call_witness :
  exists s,
    nvs_light_read significance thresholds_input = Ok s /\
    (has_report s = true <-> reporting_call thresholds_input).
Proof. on_run s H. exact (reports_iff_reporting_call _ _ _ H). Defined.

Lemma read_fails_only_on_zero_scale_witness :
  nvs_light_read significance division_input = Fault DivByZero <->
  reporting_call division_input /\
  ival (resolution (cfg division_input)) <> 0 /\
  fval (scale (cfg division_input)) = 0.
Proof.
  apply read_fails_only_on_zero_scale; [left; reflexivity|evaluated].
Defined.

Lemma first_sample_after_enable_is_reported_witness :
  exists nl,
    nvs_light_enable ranged_device = Ok nl /\
    exists s l,
      nvs_light_read significance (driver_sample 20 1000 nl) = Ok s /\
      reported s = Some (l, 1000) /\ lux (after s) = l /\
      timestamp_report (after s) = 1000.
Proof.
  on_enable nl H.
  apply (first_sample_after_enable_is_reported _ _ _ _ _ H).
  - evaluated.
  - pose proof H as K. vm_compute in K. injection K as <-. evaluated.
  - right. pose proof H as K. vm_compute in K. injection K as <-.
    exists ranges. evaluated.
Defined.

(** Resolution 0.01 under the scale 1.0, calibration mode on. *)
Definition calibrating : nvs_light :=
  driver_sample 20 20000000
    (set_calibration_en true
       (device 1000 10000 None 0 0
          (sensor (fixed 0 10000) (fixed 1 0) 5 10 2 1000))).

Lemma calibration_mode_reports_every_sample_witness :
  exists s l,
    nvs_light_read significance calibrating = Ok s /\
    reported s = Some (l, timestamp calibrating) /\
    disposition s = RET_POLL_NEXT /\
    (nld_i_change (after s) = false ->
     poll_delay_ms (after s) = u32 (delay_us_min (cfg calibrating)) / 1000).
Proof.
  apply calibration_mode_reports_every_sample;
    [reflexivity|evaluated|evaluated|left; reflexivity].
Defined.

Lemma countdown_within_report_n_witness :
  exists s,
    nvs_light_read significance thresholds_input = Ok s /\
    0 <= report (after s) <= u32 (report_n (cfg thresholds_input)).
Proof.
  on_run s H.
  apply (countdown_within_report_n _ _ _ H). evaluated.
Defined.

Lemma threshold_flags_after_read_witness :
  exists s,
    nvs_light_read significance flags_input = Ok s /\
    thresholds_valid (after s) =
    thresh_valid_lo (after s) && thresh_valid_hi (after s).
Proof.
  on_run s H. exact (proj2 (threshold_flags_after_read _ _ _ H)).
Defined.

Lemma saturated_samples_are_flagged_witness :
  exists s,
    nvs_light_read significance saturated = Ok s /\
    hw_limit_hi (after s) = true.
Proof.
  on_run s H.
  apply (proj1 (saturated_samples_are_flagged _ _ _ H)). reflexivity.
Defined.

Lemma new_window_holds_sample_witness :
  exists s,
    nvs_light_read significance thresholds_input = Ok s /\
    0 <= hw_thresh_lo (after s) <= hw thresholds_input /\
    hw thresholds_input <= hw_thresh_hi (after s) <= hw_mask thresholds_input.
Proof.
  on_run s H. apply (new_window_holds_sample _ _ _ H).
  - run_value H. reflexivity.
  - evaluated.
  - reflexivity.
  - reflexivity.
Defined.

Lemma sample_inside_window_is_quiet_witness :
  exists s,
    nvs_light_read significance thresholds_input = Ok s /\
    exists s',
      nvs_light_read significance (driver_sample 22 40000000 (after s))
      = Ok s' /\
      reported s' = None /\ lux (after s') = lux (after s) /\
      hw_thresh_lo (after s') = hw_thresh_lo (after s) /\
      hw_thresh_hi (after s') = hw_thresh_hi (after s) /\
      (nld_i_change (after s') = false -> disposition s' = RET_NO_CHANGE).
Proof.
  on_run s H. apply (sample_inside_window_is_quiet _ _ _ _ _ H).
  - run_value H. intro K. discriminate K.
  - run_value H. reflexivity.
  - left. reflexivity.
  - run_value H. evaluated.
Defined.


Section DeviceTreeExample.

Import String.StringSyntax.
Local Open Scope string_scope.

(** A device tree node as the list of its integer properties, and a reader
    that returns -EINVAL for a property the node lacks. *)
Fixpoint dt_find (n : list (String.string * Z)) (name : String.string)
    : option Z :=
  match n with
  | [] => None
  | (k, v) :: rest => if String.eqb k name then Some v else dt_find rest name
  end.

Definition dt_read (n : list (String.string * Z)) (name : String.string)
    : Z * option Z :=
  match dt_find n name with
  | Some v => (0, Some v)
  | None => (-22, None)
  end.

Definition light_node : list (String.string * Z) :=
  [("light_dynamic_resolution_index_limit_low", 0);
   ("light_dynamic_resolution_index_limit_high", 2)].

(** [nvs_light_of_dt] with this reader, EINVAL = 22 and the default name
    "light". *)
Definition of_dt_example :=
  nvs_light_of_dt (list (String.string * Z)) dt_read 22 "light".

(** The device before the limits are known. *)
Definition unconfigured : nvs_light :=
  device 1000 10000 (Some ranges) 0 0
    (sensor (fixed 0 40000) (fixed 0 10000) 5 10 0 200000).

(** [nvs_light_of_dt] on a closed input. *)
Tactic Notation "on_of_dt" ident(ret) ident(nl) ident(H) :=
  match goal with
  | |- exists _ _, of_dt_example ?nl0 ?np ?dev = Some _ /\ _ =>
      destruct (of_dt_example nl0 np dev) as [[ret nl]|] eqn:H;
      [exists ret, nl; split; [reflexivity|]
      |vm_compute in H; discriminate H]
  end.

Lemma of_dt_success_witness :
  exists ret nl',
    of_dt_example unconfigured (Some light_node) None = Some (ret, nl') /\
    (ret = 0 <->
     exists n,
       Some light_node = Some n /\
       fst (dt_read n (dt_name_low "light" None)) = 0 /\
       fst (dt_read n (dt_name_high "light" None)) = 0 /\
       nld_i_lo nl' <= nld_i_hi nl').
Proof.
  on_of_dt ret nl' H.
  apply (of_dt_success _ dt_read 22 "light" unconfigured nl'
           (Some light_node) None ret); [discriminate|exact H].
Defined.

Lemma of_dt_writes_the_limits_witness :
  exists ret nl',
    of_dt_example unconfigured (Some light_node) None = Some (ret, nl') /\
    set_nld_i_hi (nld_i_hi unconfigured)
      (set_nld_i_lo (nld_i_lo unconfigured) nl') = unconfigured.
Proof.
  on_of_dt ret nl' H.
  exact (proj1 (of_dt_writes_the_limits _ dt_read 22 "light" unconfigured
                  nl' (Some light_node) None ret H)).
Defined.

Lemma dt_read_zero_or_negative n name : fst (dt_read n name) <= 0.
Proof. unfold dt_read. destruct (dt_find n name); cbn [fst]; lia. Qed.

Lemma of_dt_returns_zero_or_negative_witness :
  exists ret nl',
    of_dt_example unconfigured (Some []) None = Some (ret, nl') /\
    ret <= 0.
Proof.
  on_of_dt ret nl' H.
  apply (of_dt_returns_zero_or_negative _ dt_read 22 "light" unconfigured
           nl' (Some []) None ret); [lia|apply dt_read_zero_or_negative|].
  exact H.
Defined.

Lemma device_tree_limits_reach_enable_witness :
  exists ret nl1,
    of_dt_example unconfigured (Some light_node) None = Some (ret, nl1) /\
    ret = 0 /\
    exists nl2,
      nvs_light_enable nl1 = Ok nl2 /\
      nld_i_lo nl2 = 0 /\ nld_i_hi nl2 = 2 /\ nld_i nl2 = 2 /\
      index_in_limits nl2 /\ range_selected nl2.
Proof.
  on_of_dt ret nl1 H.
  pose proof H as K. vm_compute in K. injection K as <- _.
  split; [reflexivity|].
  apply (device_tree_limits_reach_enable _ dt_read 22 "light" unconfigured
           nl1 light_node None 0 2 ranges);
    [discriminate|exact H|reflexivity|reflexivity|reflexivity|reflexivity].
Defined.

End DeviceTreeExample.
